(** * The book catalogue scrapers and the blueprint API

    A shallow embedding of
    - [scripts/scrape_books.py]  (module [ScrapeBooks]),
    - [scraper/scraper.py]       (module [Scraper]),
    - [app/routes.py]            (module [Routes]),
    followed by the properties of the crawler and of the search endpoint.

    Texts are Rocq strings: the bytes of the UTF-8 encoding of a Python [str].
    The network is a function from URLs to replies, so a page fetched twice
    during one run is the same page. *)

From Stdlib Require Import String Ascii List ZArith Lia Bool.
From stdpp Require Import base option list strings gmap sorting.

(** ** Python notions shared by the three files *)

Module Py.

(** The exceptions the embedded code can meet. [RequestException] stands for a
    transport failure of [requests.get]; [HTTPError] is the subclass raised by
    [raise_for_status]. *)
Inductive exn :=
  | RequestException
  | HTTPError (status : Z)
  | AttributeError
  | TypeError
  | IndexError
  | KeyError
  | ValueError
  | FileNotFoundError.

(** [except requests.exceptions.RequestException] *)
Definition is_RequestException (e : exn) : bool :=
  match e with
  | RequestException | HTTPError _ => true
  | _ => false
  end.

(** A computation that returns or raises. *)
Inductive res (A : Type) :=
  | Ret (a : A)
  | Raise (e : exn).
Arguments Ret {A} a.
Arguments Raise {A} e.

Global Instance res_bind : MBind res := fun A B k m =>
  match m with
  | Ret a => k a
  | Raise e => Raise e
  end.

(** A loop run with fuel: it returns, raises, or is still running. *)
Inductive outcome (A : Type) :=
  | Done (a : A)
  | Raised (e : exn)
  | OutOfFuel.
Arguments Done {A} a.
Arguments Raised {A} e.
Arguments OutOfFuel {A}.

(** One turn of a [while] loop, its test included. *)
Inductive turn (S R : Type) :=
  | Continue (s : S)
  | Break (r : R)
  | Crash (e : exn).
Arguments Continue {S R} s.
Arguments Break {S R} r.
Arguments Crash {S R} e.

Fixpoint while {S R} (body : S -> turn S R) (fuel : nat) (s : S) : outcome R :=
  match fuel with
  | O => OutOfFuel
  | S fuel' =>
      match body s with
      | Continue s' => while body fuel' s'
      | Break r => Done r
      | Crash e => Raised e
      end
  end.

(** The state of the loop after [n] turns, when none of them left the loop. *)
Fixpoint turns {S R} (body : S -> turn S R) (n : nat) (s : S) : option S :=
  match n with
  | O => Some s
  | S n' =>
      match body s with
      | Continue s' => turns body n' s'
      | _ => None
      end
  end.

(** A relation on states that the loop body respects: related states take
    the same way through one turn. *)
Definition respects {S R} (body : S -> turn S R) (same : S -> S -> Prop) : Prop :=
  forall s1 s2 s1', same s1 s2 -> body s1 = Continue s1' ->
    exists s2', body s2 = Continue s2' /\ same s1' s2'.

(** Python objects that occur as dictionary values. [VDec u p] is the number
    [u / 10^p]; no embedded function builds one, it is there to state what a
    numeric price would be. [VList] is a list of [str]. *)
Inductive value :=
  | VStr (s : string)
  | VInt (n : Z)
  | VDec (units : Z) (places : nat)
  | VList (l : list string)
  | VNone.

(** Truthiness of a [str] and of an optional [str] ([None] is falsy). *)
Definition truthy (s : string) : bool := negb (String.eqb s "").

Definition truthy_opt (o : option string) : bool :=
  match o with
  | Some s => truthy s
  | None => false
  end.

(** A [dict] with [str] keys, in insertion order. *)
Definition dict (V : Type) := list (string * V).

Fixpoint dict_get {V} (k : string) (d : dict V) : option V :=
  match d with
  | [] => None
  | (k', v) :: d' => if String.eqb k k' then Some v else dict_get k d'
  end.

Definition keys {V} (d : dict V) : list string := map fst d.

(** [d[k] = v]: in place when the key exists, appended otherwise. *)
Fixpoint dict_set {V} (k : string) (v : V) (d : dict V) : dict V :=
  match d with
  | [] => [(k, v)]
  | (k', v') :: d' =>
      if String.eqb k k' then (k, v) :: d' else (k', v') :: dict_set k v d'
  end.

(** [d[k]] *)
Definition getitem {V} (k : string) (d : dict V) : res V :=
  match dict_get k d with
  | Some v => Ret v
  | None => Raise KeyError
  end.

(** [l[i]] for [i >= 0] *)
Definition index {A} (l : list A) (i : nat) : res A :=
  match l !! i with
  | Some a => Ret a
  | None => Raise IndexError
  end.

(** [x.text] (or any attribute or method) where [x] may be [None] *)
Definition attr {A} (x : option A) : res A :=
  match x with
  | Some a => Ret a
  | None => Raise AttributeError
  end.

(** [x[...]] where [x] may be [None] *)
Definition subscript {A} (x : option A) : res A :=
  match x with
  | Some a => Ret a
  | None => Raise TypeError
  end.

(** [tag[name]] for an attribute that the tag may lack *)
Definition tag_attr {A} (x : option A) : res A :=
  match x with
  | Some a => Ret a
  | None => Raise KeyError
  end.

(** [s.replace(old, new)] for a non-empty [old]: every occurrence, left to
    right, without overlap. *)
Fixpoint drop_str (n : nat) (s : string) : string :=
  match n, s with
  | S n', String _ s' => drop_str n' s'
  | _, _ => s
  end.

Fixpoint replace_go (fuel : nat) (old new s : string) : string :=
  match fuel with
  | O => s
  | S fuel' =>
      if String.prefix old s
      then new +:+ replace_go fuel' old new (drop_str (String.length old) s)
      else match s with
           | EmptyString => EmptyString
           | String c s' => String c (replace_go fuel' old new s')
           end
  end.

Definition replace (old new s : string) : string :=
  replace_go (String.length s) old new s.

(** [needle in hay] *)
Fixpoint contains (needle hay : string) : bool :=
  String.prefix needle hay ||
  match hay with
  | EmptyString => false
  | String _ hay' => contains needle hay'
  end.

(** *** HTTP *)

(** What a URL answers: nothing (the transport fails) or a status code and a
    body, given as the parsed document. *)
Inductive reply (D : Type) :=
  | NoReply
  | Reply (status : Z) (doc : D).
Arguments NoReply {D}.
Arguments Reply {D} status doc.

Definition site (D : Type) := string -> reply D.

(** [requests.get(url)] *)
Definition requests_get {D} (web : site D) (url : string) : res (Z * D) :=
  match web url with
  | NoReply => Raise RequestException
  | Reply status doc => Ret (status, doc)
  end.

(** [response.raise_for_status()] *)
Definition failure_status (status : Z) : bool :=
  (400 <=? status)%Z && (status <? 600)%Z.

Definition raise_for_status (status : Z) : res unit :=
  if failure_status status then Raise (HTTPError status) else Ret tt.

(** *** Files *)

(** The calls a writer makes on the file system, one after the other. *)
Inductive fsop :=
  | Makedirs (dir : string)
  | OpenW (path : string)
  | WriteTo (path : string) (data : string)
  | CloseF (path : string)
  | Rename (src dst : string).

(** Regular files and their contents; directories are not recorded. *)
Definition apply_op (fs : gmap string string) (op : fsop) : gmap string string :=
  match op with
  | Makedirs _ => fs
  | OpenW path => <[path := EmptyString]> fs
  | WriteTo path data => <[path := default EmptyString (fs !! path) +:+ data]> fs
  | CloseF _ => fs
  | Rename src dst =>
      match fs !! src with
      | Some c => <[dst := c]> (delete src fs)
      | None => fs
      end
  end.

Definition apply_ops (fs : gmap string string) (ops : list fsop) : gmap string string :=
  foldl apply_op fs ops.

(** The paths an operation names. *)
Definition op_paths (op : fsop) : list string :=
  match op with
  | Makedirs _ => []
  | OpenW p | WriteTo p _ | CloseF p => [p]
  | Rename src dst => [src; dst]
  end.

Definition is_rename (op : fsop) : bool :=
  match op with
  | Rename _ _ => true
  | _ => false
  end.

(** *** CSV *)

Definition dquote : ascii := ascii_of_nat 34.
Definition comma : ascii := ascii_of_nat 44.
Definition cr : ascii := ascii_of_nat 13.
Definition lf : ascii := ascii_of_nat 10.

Fixpoint has_char (p : ascii -> bool) (s : string) : bool :=
  match s with
  | EmptyString => false
  | String c s' => p c || has_char p s'
  end.

Fixpoint double_quotes (s : string) : string :=
  match s with
  | EmptyString => EmptyString
  | String c s' =>
      if Ascii.eqb c dquote
      then String dquote (String dquote (double_quotes s'))
      else String c (double_quotes s')
  end.

(** A field under [QUOTE_MINIMAL]: quoted when it holds the delimiter, the
    quote character or a character of the line terminator. *)
Definition csv_field (terminator : string) (s : string) : string :=
  if has_char (fun c => Ascii.eqb c comma || Ascii.eqb c dquote ||
                        has_char (Ascii.eqb c) terminator) s
  then String dquote (double_quotes s) +:+ String dquote EmptyString
  else s.

Fixpoint join (sep : string) (l : list string) : string :=
  match l with
  | [] => EmptyString
  | [x] => x
  | x :: l' => x +:+ sep +:+ join sep l'
  end.

(** A row of one empty field is written as a pair of quotes. *)
Definition csv_line (terminator : string) (fields : list string) : string :=
  match fields with
  | [EmptyString] => String dquote (String dquote terminator)
  | _ =>
      join (String comma EmptyString) (map (csv_field terminator) fields)
      +:+ terminator
  end.

(** *** Paths *)

Definition is_slash (c : ascii) : bool := Ascii.eqb c (ascii_of_nat 47).

(** [p[:p.rfind('/') + 1]] *)
Fixpoint upto_last_slash (p : string) : string :=
  match p with
  | EmptyString => EmptyString
  | String c p' =>
      if has_char is_slash p then String c (upto_last_slash p') else EmptyString
  end.

(** [head.rstrip('/')] *)
Fixpoint rstrip_slash (s : string) : string :=
  match s with
  | EmptyString => EmptyString
  | String c s' =>
      match rstrip_slash s' with
      | EmptyString => if is_slash c then EmptyString else String c EmptyString
      | r => String c r
      end
  end.

(** [os.path.dirname] on POSIX *)
Definition dirname (p : string) : string :=
  let head := upto_last_slash p in
  if truthy head && has_char (fun c => negb (is_slash c)) head
  then rstrip_slash head
  else head.

(** [os.makedirs(name, exist_ok=True)]: the empty name is refused. *)
Definition makedirs (name : string) : res (list fsop) :=
  if truthy name then Ret [Makedirs name] else Raise FileNotFoundError.

End Py.

(** ** [scripts/scrape_books.py] *)

Module ScrapeBooks.
Import Py.

(** A parsed document, by what the queries of the script find in it. *)
Record soup := {
  (** [soup.find('h1')], its text *)
  h1 : option string;
  (** [soup.find('p', class_='price_color')], its text *)
  p_price_color : option string;
  (** [soup.find('p', class_='star-rating')], its class tokens *)
  p_star_rating : option (list string);
  (** [soup.find('p', class_='instock availability')], its text *)
  p_instock_availability : option string;
  (** [soup.find('ul', class_='breadcrumb')], the texts of its anchors *)
  ul_breadcrumb : option (list string);
  (** [soup.find('div', class_='item active')], its first [img], the [src]
      attribute of that image *)
  div_item_active : option (option (option string));
  (** [soup.select('h3 > a')], each anchor with its [href] attribute *)
  h3_a : list (option string);
  (** [soup.find('li', class_='next')], its first anchor, the [href]
      attribute of that anchor *)
  li_next : option (option (option string))
}.

(** The records hold [str] values only. *)
Definition record := dict string.

(** The lines the script prints. *)
Inductive msg :=
  | Starting
  | Collecting (url : string)
  | AccessError (url : string) (e : exn)
  | ProcessError (url : string) (e : exn)
  | ListingError (url : string) (e : exn)
  | NothingToSave
  | Saved (filename : string)
  | Finished.

Section Script.

(** [str.strip] *)
Variable strip : string -> string.
Variable web : site soup.

(** The [try] block of [get_book_details]. *)
Definition book_details (book_url : string) : res record :=
  '(status, soup) ← requests_get web book_url;
  _ ← raise_for_status status;
  title ← attr (h1 soup);
  price ← attr (p_price_color soup);
  rating_classes ← subscript (p_star_rating soup);
  token ← index rating_classes 1;
  let rating := token +:+ " de 5 estrelas" in
  availability_text ← attr (p_instock_availability soup);
  let availability := strip availability_text in
  anchors ← attr (ul_breadcrumb soup);
  category ← index anchors 2;
  img ← attr (div_item_active soup);
  tag ← subscript img;
  image_relative_url ← tag_attr tag;
  let base_url := "https://books.toscrape.com/" in
  let image_url := base_url +:+ replace "../../" "" image_relative_url in
  Ret [("title", title);
       ("price", price);
       ("rating", rating);
       ("availability", availability);
       ("category", category);
       ("image_url", image_url);
       ("book_url", book_url)].

Definition get_book_details (book_url : string) : list msg * option record :=
  match book_details book_url with
  | Ret r => ([], Some r)
  | Raise e =>
      if is_RequestException e
      then ([AccessError book_url e], None)
      else ([ProcessError book_url e], None)
  end.

Definition base_url : string := "https://books.toscrape.com/catalogue/".

Record state := {
  current_page_url : option string;
  printed : list msg;
  all_books_data : list record
}.

(** Two states of the walk at the same page. *)
Definition same_page (st1 st2 : state) : Prop :=
  current_page_url st1 = current_page_url st2.

(** [for link in book_links: ...] *)
Definition collect (acc : list msg * list record) (link : string)
  : list msg * list record :=
  let '(lines, book_data) := get_book_details link in
  (acc.1 ++ lines,
   match book_data with
   | Some ((_ :: _) as r) => acc.2 ++ [r]
   | _ => acc.2
   end).

(** [[base_url + a['href'] for a in soup.select('h3 > a')]] *)
Fixpoint book_links (anchors : list (option string)) : res (list string) :=
  match anchors with
  | [] => Ret []
  | a :: anchors' =>
      href ← tag_attr a;
      links ← book_links anchors';
      Ret ((base_url +:+ href) :: links)
  end.

(** The [try] block of the loop of [scrape_all_books]. *)
Definition listing_page (url : string) (lines : list msg) (data : list record)
  : res state :=
  '(status, soup) ← requests_get web url;
  _ ← raise_for_status status;
  links ← book_links (h3_a soup);
  let '(lines', data') := foldl collect (lines, data) links in
  match li_next soup with
  | Some next_page_element =>
      a ← subscript next_page_element;
      next_page_url ← tag_attr a;
      Ret {| current_page_url := Some (base_url +:+ next_page_url);
             printed := lines'; all_books_data := data' |}
  | None =>
      Ret {| current_page_url := None;
             printed := lines'; all_books_data := data' |}
  end.

(** One turn of [while current_page_url: ...]. *)
Definition turn_of (st : state) : turn state (list msg * list record) :=
  match current_page_url st with
  | Some url =>
      if truthy url then
        let lines := printed st ++ [Collecting url] in
        match listing_page url lines (all_books_data st) with
        | Ret st' => Continue st'
        | Raise e =>
            if is_RequestException e
            then Break (lines ++ [ListingError url e], all_books_data st)
            else Crash e
        end
      else Break (printed st, all_books_data st)
  | None => Break (printed st, all_books_data st)
  end.

Definition first_page : string := base_url +:+ "page-1.html".

Definition start : state :=
  {| current_page_url := Some first_page;
     printed := [];
     all_books_data := [] |}.

Definition scrape_all_books (fuel : nat) : outcome (list msg * list record) :=
  while turn_of fuel start.

End Script.

(** *** The writer *)

(** The columns of [pd.DataFrame(data)]: the keys in the order in which they
    first occur. *)
Definition add_column (cols : list string) (k : string) : list string :=
  if existsb (String.eqb k) cols then cols else cols ++ [k].

Definition columns (data : list record) : list string :=
  foldl (fun cols r => foldl add_column cols (keys r)) [] data.

(** A cell: the value under the column, empty when the record has none. *)
Definition cells (cols : list string) (r : record) : list string :=
  map (fun k => default EmptyString (dict_get k r)) cols.

Definition newline : string := String lf EmptyString.

(** The text of [df.to_csv(index=False)], with the line ending of POSIX. *)
Definition to_csv_text (data : list record) : string :=
  let cols := columns data in
  String.concat EmptyString
    (csv_line newline cols :: map (fun r => csv_line newline (cells cols r)) data).

Definition default_filename : string := "../data/books_data.csv".

(** [save_to_csv(data, filename)]: what it prints and what it does to the
    file system. *)
Definition save_to_csv (data : list record) (filename : string)
  : res (list msg * list fsop) :=
  match data with
  | [] => Ret ([NothingToSave], [])
  | _ =>
      mk ← makedirs (dirname filename);
      Ret ([Saved filename],
           mk ++ [OpenW filename; WriteTo filename (to_csv_text data); CloseF filename])
  end.

(** A finished run of the script. Of a run that an exception ends, [stdout]
    keeps the lines printed outside the interrupted call only. *)
Record run := {
  exit_code : Z;
  stdout : list msg;
  files : gmap string string
}.

(** The [__main__] block; [None] while the crawl is still running. An
    uncaught exception ends the process with status 1. *)
Definition main (strip : string -> string) (web : site soup) (fuel : nat)
    (fs : gmap string string) : option run :=
  match scrape_all_books strip web fuel with
  | OutOfFuel => None
  | Raised e => Some {| exit_code := 1; stdout := [Starting]; files := fs |}
  | Done (lines, scraped_data) =>
      match scraped_data with
      | [] => Some {| exit_code := 0;
                      stdout := Starting :: lines ++ [Finished];
                      files := fs |}
      | _ =>
          match save_to_csv scraped_data default_filename with
          | Ret (lines', ops) =>
              Some {| exit_code := 0;
                      stdout := Starting :: lines ++ lines' ++ [Finished];
                      files := apply_ops fs ops |}
          | Raise e =>
              Some {| exit_code := 1; stdout := Starting :: lines; files := fs |}
          end
      end
  end.

End ScrapeBooks.

(** ** [scraper/scraper.py] *)

Module Scraper.
Import Py.

(** An item card of a listing page, [article.product_pod]: its first [h3],
    the first anchor of that heading, the [href] attribute of that anchor. *)
Definition pod := option (option (option string)).

(** A parsed document, by what the selectors of the script find in it. *)
Record soup := {
  (** [soup.select('article.product_pod')] *)
  product_pods : list pod;
  (** [soup.select_one('li.next a')], its [href] attribute *)
  li_next_a : option (option string);
  (** [select_one('div.product_main h1')], its text *)
  product_main_h1 : option string;
  (** [select_one('p.price_color')], its text *)
  price_color : option string;
  (** [select_one('p.instock.availability')], its text *)
  instock_availability : option string;
  (** [select_one('div#product_description + p')], its text *)
  product_description_p : option string;
  (** [select_one('p.star-rating')], its class tokens *)
  star_rating : option (list string);
  (** [select_one('div#product_gallery img')], its [src] attribute *)
  product_gallery_img : option (option string);
  (** [select('ul.breadcrumb li a')], the texts *)
  breadcrumb_a : list string
}.

Definition record := dict string.

(** The lines the script logs. *)
Inductive msg :=
  | ScrapingURL (url : string)
  | ProcessingPage (page_count : nat) (url : string)
  | ExtractingBook (url : string)
  | Total (n : nat)
  | Saving
  | Finished.

Section Script.

(** [str.strip] and [urllib.parse.urljoin] *)
Variable strip : string -> string.
Variable urljoin : string -> string -> string.
Variable web : site soup.

(** [__scrape]: the status of the response is not looked at. *)
Definition scrape (url : string) : res soup :=
  '(_, soup) ← requests_get web url;
  Ret soup.

(** The fields read from the page of one book, and the record appended. *)
Definition book_record (book_url : string) (book_soup : soup) : res record :=
  title ← attr (product_main_h1 book_soup);
  price ← attr (price_color book_soup);
  stock_text ← attr (instock_availability book_soup);
  let stock := strip stock_text in
  let description := default EmptyString (product_description_p book_soup) in
  classes ← subscript (star_rating book_soup);
  stars ← index classes 1;
  img_url ← match product_gallery_img book_soup with
            | Some img_tag => src ← tag_attr img_tag; Ret (urljoin book_url src)
            | None => Ret EmptyString
            end;
  let breadcrumb := breadcrumb_a book_soup in
  let category :=
    if (2 <? length breadcrumb)%nat
    then default EmptyString (last breadcrumb)
    else EmptyString in
  Ret [("title", title);
       ("price", price);
       ("stock", stock);
       ("description", description);
       ("stars", stars);
       ("img_url", img_url);
       ("category", category)].

(** The body of [for book in soup.select('article.product_pod')]. *)
Definition book_turn (next_page_url : string) (acc : list msg * list record)
    (book : pod) : res (list msg * list record) :=
  h3 ← attr book;
  a ← subscript h3;
  url_aux ← tag_attr a;
  let book_url := urljoin next_page_url url_aux in
  book_soup ← scrape book_url;
  r ← book_record book_url book_soup;
  Ret (acc.1 ++ [ExtractingBook book_url; ScrapingURL book_url], acc.2 ++ [r]).

Fixpoint for_books (next_page_url : string) (acc : list msg * list record)
    (pods : list pod) : res (list msg * list record) :=
  match pods with
  | [] => Ret acc
  | book :: pods' =>
      acc' ← book_turn next_page_url acc book;
      for_books next_page_url acc' pods'
  end.

Record state := {
  next_page_url : option string;
  page_count : nat;
  logged : list msg;
  books : list record
}.

(** Two states of the walk at the same page. *)
Definition same_page (st1 st2 : state) : Prop :=
  next_page_url st1 = next_page_url st2.

(** The body of [while next_page_url]. *)
Definition page (url : string) (st : state) : res state :=
  let lines := logged st ++ [ProcessingPage (page_count st) url; ScrapingURL url] in
  soup ← scrape url;
  '(lines', books') ← for_books url (lines, books st) (product_pods soup);
  match li_next_a soup with
  | Some next_li =>
      next_href ← tag_attr next_li;
      Ret {| next_page_url := Some (urljoin url next_href);
             page_count := page_count st + 1;
             logged := lines'; books := books' |}
  | None =>
      Ret {| next_page_url := None;
             page_count := page_count st;
             logged := lines'; books := books' |}
  end.

Definition turn_of (st : state) : turn state (list msg * list record) :=
  match next_page_url st with
  | Some url =>
      if truthy url then
        match page url st with
        | Ret st' => Continue st'
        | Raise e => Crash e
        end
      else Break (logged st ++ [Total (length (books st))], books st)
  | None => Break (logged st ++ [Total (length (books st))], books st)
  end.

(** [base_url] is [os.environ.get("SCRAPE_URL")]. *)
Definition start (base_url : option string) : state :=
  {| next_page_url := base_url; page_count := 1; logged := []; books := [] |}.

Definition books_list (base_url : option string) (fuel : nat)
  : outcome (list msg * list record) :=
  while turn_of fuel (start base_url).

End Script.

(** *** The writer *)

Definition crlf : string := String cr (String lf EmptyString).

(** [DictWriter._dict_to_list] with [extrasaction='raise'], [restval=''] *)
Definition dict_to_list (fieldnames : list string) (rowdict : record)
  : res (list string) :=
  if forallb (fun k => existsb (String.eqb k) fieldnames) (keys rowdict)
  then Ret (map (fun k => default EmptyString (dict_get k rowdict)) fieldnames)
  else Raise ValueError.

(** [writer.writerows(results)]: the rows written, and the exception that
    stopped the writing if there was one. *)
Fixpoint writerows (path : string) (fieldnames : list string) (rows : list record)
  : list fsop * option exn :=
  match rows with
  | [] => ([], None)
  | r :: rows' =>
      match dict_to_list fieldnames r with
      | Ret fields =>
          let '(ops, e) := writerows path fieldnames rows' in
          (WriteTo path (csv_line crlf fields) :: ops, e)
      | Raise e => ([], Some e)
      end
  end.

Definition books_csv : string := "books.csv".

(** The [with open('books.csv', 'w', ...)] block: what it does to the file
    system, and the exception that leaves it if there is one. *)
Definition write_results (results : list record) : list fsop * option exn :=
  match results with
  | first :: _ =>
      let fieldnames := keys first in
      let '(ops, e) := writerows books_csv fieldnames results in
      (OpenW books_csv :: WriteTo books_csv (csv_line crlf fieldnames) :: ops
         ++ [CloseF books_csv], e)
  | [] =>
      ([OpenW books_csv;
        WriteTo books_csv ("No data found" +:+ String lf EmptyString);
        CloseF books_csv], None)
  end.

Record run := {
  exit_code : Z;
  files : gmap string string
}.

(** The [__main__] block; [None] while the crawl is still running. *)
Definition main (strip : string -> string) (urljoin : string -> string -> string)
    (web : site soup) (base_url : option string) (fuel : nat)
    (fs : gmap string string) : option run :=
  match books_list strip urljoin web base_url fuel with
  | OutOfFuel => None
  | Raised e => Some {| exit_code := 1; files := fs |}
  | Done (_, results) =>
      let '(ops, e) := write_results results in
      Some {| exit_code := match e with None => 0 | Some _ => 1 end;
              files := apply_ops fs ops |}
  end.

End Scraper.

(** ** [app/routes.py]: loading the books and the search endpoint *)

Module Routes.
Import Py.

(** A row of [csv.DictReader]: a value under each column name and, for a
    line longer than the header, the list of the surplus cells under the key
    [None]. *)
Definition book := list (option string * value).

Definition key_eqb (k k' : option string) : bool :=
  match k, k' with
  | Some s, Some s' => String.eqb s s'
  | None, None => true
  | _, _ => false
  end.

Fixpoint get (k : option string) (b : book) : option value :=
  match b with
  | [] => None
  | (k', v) :: b' => if key_eqb k k' then Some v else get k b'
  end.

(** [b[k] = v]: in place when the key exists, appended otherwise. *)
Fixpoint set (k : option string) (v : value) (b : book) : book :=
  match b with
  | [] => [(k, v)]
  | (k', v') :: b' =>
      if key_eqb k k' then (k, v) :: b' else (k', v') :: set k v b'
  end.

(** [book[field]] *)
Definition getitem (field : string) (b : book) : res value :=
  match get (Some field) b with
  | Some v => Ret v
  | None => Raise KeyError
  end.

(** [load_books], given the rows [csv.DictReader] yields for [books.csv]
    (none when the file cannot be read): each row gets an incremental [id]. *)
Definition load_books (rows : list book) : list book :=
  imap (fun idx row => set (Some "id") (VInt (Z.of_nat idx + 1)) row) rows.

(** [jsonify] writes the keys of a dict in sorted order: a dict that holds
    the key [None] beside a [str] key cannot be sorted. *)
Definition sortable (b : book) : bool :=
  negb (existsb (fun kv => key_eqb kv.1 None) b &&
        existsb (fun kv => negb (key_eqb kv.1 None)) b).

(** [jsonify(books)] *)
Definition jsonify (books : list book) : res (list book) :=
  if forallb sortable books then Ret books else Raise TypeError.

Section Endpoint.

(** [str.lower] *)
Variable lower : string -> string.

(** [request.args.get(name, '')] on the query parameters *)
Definition args_get (args : dict string) (name : string) : string :=
  default EmptyString (dict_get name args).

(** [book[field].lower()] *)
Definition field_lower (field : string) (b : book) : res string :=
  v ← getitem field b;
  match v with
  | VStr s => Ret (lower s)
  | _ => Raise AttributeError
  end.

(** [needle in book[field].lower() if needle else True] *)
Definition matches (needle field : string) (b : book) : res bool :=
  if truthy needle
  then s ← field_lower field b; Ret (contains needle s)
  else Ret true.

(** [for book in books: ...] of [search_books] *)
Fixpoint filter_books (title category : string) (books : list book)
    (filtered : list book) : res (list book) :=
  match books with
  | [] => Ret filtered
  | b :: books' =>
      matches_title ← matches title "title" b;
      matches_category ← matches category "category" b;
      filter_books title category books'
        (if matches_title && matches_category then filtered ++ [b] else filtered)
  end.

(** [search_books]: the JSON body and the status. *)
Definition search_books (args : dict string) (rows : list book)
  : res (list book * Z) :=
  let title := lower (args_get args "title") in
  let category := lower (args_get args "category") in
  let books := load_books rows in
  filtered ← filter_books title category books [];
  body ← jsonify filtered;
  Ret (body, 200%Z).

End Endpoint.

End Routes.

(** ** Sample sites *)

Module Samples.
Import Py.

Definition pound : string :=
  String (ascii_of_nat 194) (String (ascii_of_nat 163) EmptyString).

(** [urljoin] for the samples: a reference that is already absolute is kept,
    any other is appended to the base. *)
Definition join_url (base ref : string) : string :=
  if String.prefix "http" ref then ref else base +:+ ref.

(** ASCII lower case, for the samples. *)
Definition ascii_lower (c : ascii) : ascii :=
  let n := nat_of_ascii c in
  if (65 <=? n)%nat && (n <=? 90)%nat then ascii_of_nat (n + 32) else c.

Fixpoint lower (s : string) : string :=
  match s with
  | EmptyString => EmptyString
  | String c s' => String (ascii_lower c) (lower s')
  end.

Module SB.
Import ScrapeBooks.

Definition blank : soup :=
  {| h1 := None; p_price_color := None; p_star_rating := None;
     p_instock_availability := None; ul_breadcrumb := None;
     div_item_active := None; h3_a := []; li_next := None |}.

Definition listing (hrefs : list string) (next : option string) : soup :=
  {| h1 := None; p_price_color := None; p_star_rating := None;
     p_instock_availability := None; ul_breadcrumb := None;
     div_item_active := None;
     h3_a := map Some hrefs;
     li_next := (fun href => Some (Some href)) <$> next |}.

Definition detail (title price token : string) (crumbs : list string)
    (src : option string) : soup :=
  {| h1 := Some title;
     p_price_color := Some price;
     p_star_rating := Some ["star-rating"; token];
     p_instock_availability := Some "In stock (22 available)";
     ul_breadcrumb := Some crumbs;
     div_item_active := (fun s => Some (Some s)) <$> src;
     h3_a := []; li_next := None |}.

Definition page1 : string := "https://books.toscrape.com/catalogue/page-1.html".
Definition item (name : string) : string :=
  "https://books.toscrape.com/catalogue/" +:+ name.

Definition light : soup :=
  detail "A Light in the Attic" (pound +:+ "51.77") "Three"
    ["Home"; "Books"; "Poetry"] (Some "../../media/cache/fe/72/light.jpg").

Definition velvet : soup :=
  detail "Tipping the Velvet" (pound +:+ "53.74") "One"
    ["Home"; "Books"; "Historical Fiction"; "Tipping the Velvet"]
    (Some "cover.jpg").

(** One listing page with three items; the second answers 404. *)
Definition shop : site soup := fun url =>
  if String.eqb url page1
  then Reply 200 (listing ["light/index.html"; "gone/index.html"; "velvet/index.html"] None)
  else if String.eqb url (item "light/index.html") then Reply 200 light
  else if String.eqb url (item "gone/index.html") then Reply 404 blank
  else if String.eqb url (item "velvet/index.html") then Reply 200 velvet
  else NoReply.

(** The first page names itself as the next one. *)
Definition looping : site soup := fun url =>
  if String.eqb url page1
  then Reply 200 (listing ["light/index.html"] (Some "page-1.html"))
  else if String.eqb url (item "light/index.html") then Reply 200 light
  else NoReply.

(** Nothing answers. *)
Definition down : site soup := fun _ => NoReply.

(** A page whose breadcrumb has two entries, and one without image. *)
Definition short_crumbs : soup :=
  detail "Untitled" (pound +:+ "10.00") "Two" ["Home"; "Books"] (Some "cover.jpg").

Definition no_image : soup :=
  detail "Untitled" (pound +:+ "10.00") "Two" ["Home"; "Books"; "Art"] None.

Definition only (doc : soup) : site soup := fun _ => Reply 200 doc.

End SB.

Module SC.
Import Scraper.

Definition blank : soup :=
  {| product_pods := []; li_next_a := None; product_main_h1 := None;
     price_color := None; instock_availability := None;
     product_description_p := None; star_rating := None;
     product_gallery_img := None; breadcrumb_a := [] |}.

Definition listing (hrefs : list string) (next : option string) : soup :=
  {| product_pods := map (fun h => Some (Some (Some h))) hrefs;
     li_next_a := Some <$> next;
     product_main_h1 := None;
     price_color := None; instock_availability := None;
     product_description_p := None; star_rating := None;
     product_gallery_img := None; breadcrumb_a := [] |}.

Definition detail (title price token : string) (crumbs : list string)
    (src : option string) : soup :=
  {| product_pods := []; li_next_a := None;
     product_main_h1 := Some title;
     price_color := Some price;
     instock_availability := Some "In stock (22 available)";
     product_description_p := Some "A book.";
     star_rating := Some ["star-rating"; token];
     product_gallery_img := Some <$> src;
     breadcrumb_a := crumbs |}.

Definition home : string := "https://books.toscrape.com/".

Definition light : soup :=
  detail "A Light in the Attic" (pound +:+ "51.77") "Three"
    ["Home"; "Books"; "Poetry"] (Some "light.jpg").

Definition velvet : soup :=
  detail "Tipping the Velvet" (pound +:+ "53.74") "One"
    ["Home"; "Books"; "Historical Fiction"; "Tipping the Velvet"] None.

(** One listing page with two items; the first answers 404 with an error
    page that has none of the elements of a book page. *)
Definition shop : site soup := fun url =>
  if String.eqb url home
  then Reply 200 (listing ["gone.html"; "velvet.html"] None)
  else if String.eqb url (home +:+ "gone.html") then Reply 404 blank
  else if String.eqb url (home +:+ "velvet.html") then Reply 200 velvet
  else NoReply.

(** The first page names itself as the next one. *)
Definition looping : site soup := fun url =>
  if String.eqb url home
  then Reply 200 (listing [] (Some "https://books.toscrape.com/"))
  else NoReply.

End SC.

End Samples.

(** ** The words of the specification *)

Module Spec.
Import Py.

(** The Python object a record holds under a key; the scrapers put only [str]
    objects in their records. *)
Definition stored (k : string) (r : dict string) : option value :=
  VStr <$> dict_get k r.

(** The rating the specification asks for: the ordinal of the word, null for
    any other token. *)
Definition rating_of_token (token : string) : value :=
  if String.eqb token "One" then VInt 1
  else if String.eqb token "Two" then VInt 2
  else if String.eqb token "Three" then VInt 3
  else if String.eqb token "Four" then VInt 4
  else if String.eqb token "Five" then VInt 5
  else VNone.

(** The category the specification asks for: empty under three breadcrumb
    entries, the text of the last entry otherwise. *)
Definition leaf (crumbs : list string) : string :=
  if (length crumbs <? 3)%nat then EmptyString
  else default EmptyString (last crumbs).

(** The header the specification asks for. *)
Definition header : list string :=
  ["title"; "price"; "rating"; "availability"; "category"; "image_url";
   "source_url"].

(** A write is atomic for a path when, however far the operations have got,
    the path holds what it held before or what it holds at the end. *)
Definition atomic (path : string) (fs : gmap string string) (ops : list fsop)
  : Prop :=
  forall n : nat,
    apply_ops fs (take n ops) !! path = fs !! path \/
    apply_ops fs (take n ops) !! path = apply_ops fs ops !! path.

(** A fetch that fails: the transport fails, or the status is a failure
    status; [e] is the exception [requests] raises for it. *)
Definition fetch_fails {D} (web : site D) (url : string) (e : exn) : Prop :=
  web url = NoReply /\ e = RequestException \/
  exists status doc, web url = Reply status doc /\
                     failure_status status = true /\ e = HTTPError status.

(** The text that the [WriteTo] operations of a list append to a path. *)
Fixpoint written (path : string) (ops : list fsop) : string :=
  match ops with
  | [] => EmptyString
  | WriteTo p data :: ops' =>
      if String.eqb p path then data +:+ written path ops' else written path ops'
  | _ :: ops' => written path ops'
  end.

(** An operation that leaves a path as it is or appends to it. *)
Definition in_place (path : string) (op : fsop) : bool :=
  match op with
  | Makedirs _ => true
  | WriteTo p _ | CloseF p => String.eqb p path
  | OpenW _ | Rename _ _ => false
  end.

(** An operation that is no rename and names no path but the given one. *)
Definition only_on (path : string) (op : fsop) : Prop :=
  is_rename op = false /\ forall p, p ∈ op_paths op -> p = path.

(** The keys of the records of the two scrapers, in the order of the source. *)
Definition book_keys : list string :=
  ["title"; "price"; "rating"; "availability"; "category"; "image_url";
   "book_url"].

Definition scraper_keys : list string :=
  ["title"; "price"; "stock"; "description"; "stars"; "img_url"; "category"].

End Spec.

(** ** [app/routes.py]: the other endpoints *)

Module Endpoints.
Import Py Routes.

(** The JSON bodies of the answers. *)
Inductive body :=
  | Books (books : list book)
  | OneBook (b : book)
  | Message (message : string)
  | Categories (categories : list string)
  | Health (status : string) (books_count : nat).

(** [get_books] *)
Definition get_books (rows : list book) : res (body * Z) :=
  books ← jsonify (load_books rows);
  Ret (Books books, 200%Z).

(** [book['id'] == book_id], for an integer [book_id] *)
Definition eq_int (v : value) (n : Z) : bool :=
  match v with
  | VInt m => (m =? n)%Z
  | VDec u p => (u =? n * 10 ^ Z.of_nat p)%Z
  | VStr _ | VList _ | VNone => false
  end.

(** [for book in books: if book['id'] == book_id: return ...] *)
Fixpoint find_book (books : list book) (book_id : Z) : res (option book) :=
  match books with
  | [] => Ret None
  | b :: books' =>
      v ← getitem "id" b;
      if eq_int v book_id then Ret (Some b) else find_book books' book_id
  end.

(** [get_book_by_id]; [jsonify(book)] sorts the keys of the book. *)
Definition get_book_by_id (rows : list book) (book_id : Z) : res (body * Z) :=
  found ← find_book (load_books rows) book_id;
  match found with
  | Some b =>
      if sortable b then Ret (OneBook b, 200%Z) else Raise TypeError
  | None => Ret (Message "Book not found", 404%Z)
  end.

(** A row as [csv.DictReader] yields it for a line no longer than the
    header: under each column name a [str], or [None] when the line is too
    short. *)
Definition reader_row := dict (option string).

Definition of_reader (row : reader_row) : book :=
  map (fun kv => (Some kv.1, from_option VStr VNone kv.2)) row.

(** [book['category'] for book in books if book['category']]. A value that
    is neither a [str] nor [None] does not occur under a column name. *)
Fixpoint category_values (books : list book) : res (list string) :=
  match books with
  | [] => Ret []
  | b :: books' =>
      v ← getitem "category" b;
      rest ← category_values books';
      match v with
      | VStr s => Ret (if truthy s then s :: rest else rest)
      | VNone => Ret rest
      | VInt _ | VDec _ _ | VList _ => Raise TypeError
      end
  end.

(** [sorted(set(...))] on strings *)
Definition sorted_set (l : list string) : list string :=
  merge_sort String.le (remove_dups l).

(** [get_categories] *)
Definition get_categories (rows : list reader_row) : res (body * Z) :=
  values ← category_values (load_books (map of_reader rows));
  Ret (Categories (sorted_set values), 200%Z).

(** [health_check]; [load_books] raises nothing, so the [except] branch is
    never taken. *)
Definition health_check (rows : list book) : body * Z :=
  let books := load_books rows in
  (Health (match books with [] => "no data" | _ => "ok" end) (length books),
   200%Z).

(** The books of [load_books] when the count starts at [off]. *)
Fixpoint books_from (off : nat) (rows : list book) : list book :=
  match rows with
  | [] => []
  | row :: rows' =>
      set (Some "id") (VInt (Z.of_nat off + 1)) row :: books_from (S off) rows'
  end.

(** Whether [search_books] keeps a book whose title and category are [str]:
    each query that is not empty occurs in the lowered field. *)
Definition keeps (lower : string -> string) (title category : string)
    (b : book) : bool :=
  match get (Some "title") b, get (Some "category") b with
  | Some (VStr t), Some (VStr c) =>
      (negb (truthy title) || contains title (lower t)) &&
      (negb (truthy category) || contains category (lower c))
  | _, _ => false
  end.

(** The category a row contributes to [get_categories], if any. *)
Definition category_of_row (row : reader_row) : option string :=
  match dict_get "category" row with
  | Some (Some s) => if truthy s then Some s else None
  | _ => None
  end.

End Endpoints.

(** ** [api/app.py]: the cells of [load_books_data] *)

Module Api.
Import Py.

(** [s.split(' ')[0]] *)
Fixpoint first_word (s : string) : string :=
  match s with
  | EmptyString => EmptyString
  | String c s' =>
      if Ascii.eqb c (ascii_of_nat 32) then EmptyString
      else String c (first_word s')
  end.

Definition rating_map : dict Z :=
  [("One", 1%Z); ("Two", 2%Z); ("Three", 3%Z); ("Four", 4%Z); ("Five", 5%Z)].

(** A cell of [rating_numeric] for a [str] cell of [rating]:
    [.str.split(' ').str[0].map(rating_map)]; [None] stands for NaN. *)
Definition rating_numeric (rating : string) : option Z :=
  dict_get (first_word rating) rating_map.

Definition pound_sign : string :=
  String (ascii_of_nat 194) (String (ascii_of_nat 163) EmptyString).

(** A [str] cell of [price] after [.replace({r'[£]': ''}, regex=True)], the
    text that [astype(float)] then reads. *)
Definition price_cleaned (price : string) : string :=
  replace pound_sign EmptyString price.

End Api.

(** ** Chains of listing pages *)

Module Listing.
Import Py ScrapeBooks.

Section Pages.
Variable strip : string -> string.
Variable web : site soup.

(** The records of the items of the listing page at [url], in page order. *)
Definition page_records (url : string) : list record :=
  match web url with
  | Reply _ doc =>
      match book_links (h3_a doc) with
      | Ret links => omap (fun l => (get_book_details strip web l).2) links
      | Raise _ => []
      end
  | NoReply => []
  end.

(** The page at [url] is fetched, its links are well formed, and its "next"
    link leads through the pages [rest], the last of which has none. *)
Fixpoint linked (url : string) (rest : list string) : Prop :=
  match web url with
  | Reply status doc =>
      failure_status status = false /\
      (exists links, book_links (h3_a doc) = Ret links) /\
      match rest with
      | [] => li_next doc = None
      | next :: rest' =>
          (exists href, li_next doc = Some (Some (Some href)) /\
                        next = base_url +:+ href) /\
          linked next rest'
      end
  | NoReply => False
  end.

(** The record is the one [get_book_details] gives for a link of the
    catalogue, and names that link as its [book_url]. *)
Definition from_catalogue (r : record) : Prop :=
  exists href,
    (get_book_details strip web (base_url +:+ href)).2 = Some r /\
    dict_get "book_url" r = Some (base_url +:+ href).

End Pages.

(** A site of three listing pages of one item each. *)
Definition three_pages : site soup := fun url =>
  if String.eqb url first_page
  then Reply 200 (Samples.SB.listing ["light/index.html"] (Some "page-2.html"))
  else if String.eqb url (base_url +:+ "page-2.html")
  then Reply 200 (Samples.SB.listing ["gone/index.html"] (Some "page-3.html"))
  else if String.eqb url (base_url +:+ "page-3.html")
  then Reply 200 (Samples.SB.listing ["velvet/index.html"] None)
  else if String.eqb url (Samples.SB.item "light/index.html")
  then Reply 200 Samples.SB.light
  else if String.eqb url (Samples.SB.item "velvet/index.html")
  then Reply 200 Samples.SB.velvet
  else NoReply.

(** A site that [BookScraper] walks to the end: a listing page of two
    books. *)
Definition bookshop : site Scraper.soup := fun url =>
  if String.eqb url Samples.SC.home
  then Reply 200 (Samples.SC.listing ["light.html"; "velvet.html"] None)
  else if String.eqb url (Samples.SC.home +:+ "light.html")
  then Reply 200 Samples.SC.light
  else if String.eqb url (Samples.SC.home +:+ "velvet.html")
  then Reply 200 Samples.SC.velvet
  else NoReply.

End Listing.

(** ** Chains of listing pages for [BookScraper] *)

Module Catalogue.
Import Py Scraper.

Section Pages.
Variable strip : string -> string.
Variable urljoin : string -> string -> string.
Variable web : site soup.

(** The books of the item cards of the listing page at [url], in page
    order, when each of them can be read. *)
Definition page_books (url : string) : list record :=
  match web url with
  | Reply _ doc =>
      match for_books strip urljoin web url ([], []) (product_pods doc) with
      | Ret acc => acc.2
      | Raise _ => []
      end
  | NoReply => []
  end.

(** The page at [url] answers, each of its item cards gives a book, and its
    "next" link leads through the pages [rest], the last of which has none. *)
Fixpoint linked (url : string) (rest : list string) : Prop :=
  match web url with
  | Reply _ doc =>
      (exists acc,
         for_books strip urljoin web url ([], []) (product_pods doc) = Ret acc) /\
      match rest with
      | [] => li_next_a doc = None
      | next :: rest' =>
          (exists href, li_next_a doc = Some (Some href) /\
                        next = urljoin url href /\ truthy next = true) /\
          linked next rest'
      end
  | NoReply => False
  end.

End Pages.

(** A site of two listing pages, of one book each; with the [join_url] of
    the samples, the book of the second page is at the URL of that page
    followed by its [href]. *)
Definition two_pages : site soup := fun url =>
  if String.eqb url Samples.SC.home
  then Reply 200 (Samples.SC.listing ["light.html"] (Some "page-2.html"))
  else if String.eqb url (Samples.SC.home +:+ "page-2.html")
  then Reply 200 (Samples.SC.listing ["velvet.html"] None)
  else if String.eqb url (Samples.SC.home +:+ "light.html")
  then Reply 200 Samples.SC.light
  else if String.eqb url (Samples.SC.home +:+ "page-2.htmlvelvet.html")
  then Reply 200 Samples.SC.velvet
  else NoReply.

End Catalogue.

(** * Properties *)

(** ** Loops *)

Section Loops.
Import Py.
Context {S R : Type} (body : S -> turn S R).

Lemma turns_add (a b : nat) (s : S) :
  turns body (a + b) s = turns body a s ≫= turns body b.
Proof.
  revert s. induction a as [|a IH]; intros s; simpl; [done|].
  destruct (body s); auto.
Qed.

Lemma turns_earlier (n m : nat) (s : S) :
  m <= n -> is_Some (turns body n s) -> is_Some (turns body m s).
Proof.
  intros Hle Hn. replace n with (m + (n - m)) in Hn by lia.
  rewrite turns_add in Hn. destruct (turns body m s); [eauto|].
  destruct Hn as [? Hn]. discriminate Hn.
Qed.

Lemma while_after_turns (k n : nat) (s s' : S) :
  turns body k s = Some s' -> while body (k + n) s = while body n s'.
Proof.
  revert s. induction k as [|k IH]; intros s Hk; simpl in *.
  - congruence.
  - destruct (body s); try discriminate. auto.
Qed.

Lemma while_still_running (n : nat) (s : S) :
  is_Some (turns body n s) -> while body n s = OutOfFuel.
Proof.
  revert s. induction n as [|n IH]; intros s Hn; simpl in *; [done|].
  destruct (body s); auto; destruct Hn as [? Hn]; discriminate Hn.
Qed.

(** A loop that has ended has ended for any larger fuel. *)
Lemma while_more_fuel (n m : nat) (s : S) :
  n <= m -> while body n s <> OutOfFuel -> while body m s = while body n s.
Proof.
  revert m s. induction n as [|n IH]; intros m s Hle Hn; simpl in *; [done|].
  destruct m as [|m]; [lia|]. simpl.
  destruct (body s); [|done..]. apply IH; [lia|done].
Qed.

Lemma turns_respects (same : S -> S -> Prop) (k : nat) (s1 s2 s1' : S) :
  respects body same -> same s1 s2 -> turns body k s1 = Some s1' ->
  exists s2', turns body k s2 = Some s2' /\ same s1' s2'.
Proof.
  intros Hresp. revert s1 s2. induction k as [|k IH]; intros s1 s2 Hsame Hk; simpl in *.
  - exists s2. split; congruence.
  - destruct (body s1) as [t1| |] eqn:Hb; try discriminate.
    destruct (Hresp _ _ _ Hsame Hb) as (t2 & Hb2 & Hsame').
    rewrite Hb2. eauto.
Qed.

(** A loop that comes back to a related state after at least one turn takes
    any number of turns. *)
Lemma turns_forever (same : S -> S -> Prop) (k : nat) :
  respects body same -> 1 <= k ->
  forall (n : nat) (s s' : S),
    turns body k s = Some s' -> same s s' -> is_Some (turns body n s).
Proof.
  intros Hresp Hk n. induction (lt_wf n) as [n _ IH]. intros s s' Hturns Hsame.
  destruct (le_lt_dec n k) as [Hle|Hlt].
  - apply (turns_earlier k); eauto.
  - replace n with (k + (n - k)) by lia. rewrite turns_add, Hturns. simpl.
    destruct (turns_respects same k s s' s' Hresp Hsame Hturns) as (s'' & Hturns' & Hsame').
    apply (IH (n - k)) with s''; [lia|done..].
Qed.

Lemma while_forever (same : S -> S -> Prop) (j k : nat) (s0 s s' : S) :
  respects body same -> turns body j s0 = Some s -> 1 <= k ->
  turns body k s = Some s' -> same s s' ->
  forall fuel, while body fuel s0 = OutOfFuel.
Proof.
  intros Hresp Hj Hk Hturns Hsame fuel. apply while_still_running.
  destruct (le_lt_dec fuel j) as [Hle|Hlt].
  - apply (turns_earlier j); eauto.
  - replace fuel with (j + (fuel - j)) by lia. rewrite turns_add, Hj. simpl.
    eapply turns_forever; eauto.
Qed.

End Loops.

(** ** Computations that return or raise *)

Section Res.
Import Py.

Lemma bind_Ret {A B} (m : res A) (k : A -> res B) (b : B) :
  m ≫= k = Ret b -> exists a, m = Ret a /\ k a = Ret b.
Proof. destruct m as [a|e]; simpl; [eauto|discriminate]. Qed.

Lemma attr_Ret {A} (x : option A) (a : A) : attr x = Ret a -> x = Some a.
Proof. destruct x; simpl; congruence. Qed.

Lemma subscript_Ret {A} (x : option A) (a : A) : subscript x = Ret a -> x = Some a.
Proof. destruct x; simpl; congruence. Qed.

Lemma tag_attr_Ret {A} (x : option A) (a : A) : tag_attr x = Ret a -> x = Some a.
Proof. destruct x; simpl; congruence. Qed.

Lemma index_Ret {A} (l : list A) (i : nat) (a : A) : index l i = Ret a -> l !! i = Some a.
Proof. unfold index. destruct (l !! i); congruence. Qed.

Lemma requests_get_Ret {D} (web : site D) (url : string) (status : Z) (doc : D) :
  requests_get web url = Ret (status, doc) -> web url = Reply status doc.
Proof. unfold requests_get. destruct (web url); congruence. Qed.

Lemma raise_for_status_Ret (status : Z) (u : unit) :
  raise_for_status status = Ret u -> failure_status status = false.
Proof. unfold raise_for_status. destruct (failure_status status); congruence. Qed.

End Res.

(** Splits a hypothesis [x ← m; k = Ret r] into its steps. *)
Ltac res_steps H :=
  repeat match type of H with
  | _ ≫= _ = Py.Ret _ =>
      let a := fresh "a" in let Ha := fresh "Hstep" in
      apply bind_Ret in H; destruct H as (a & Ha & H);
      first [ apply attr_Ret in Ha | apply subscript_Ret in Ha
            | apply tag_attr_Ret in Ha | apply index_Ret in Ha
            | apply raise_for_status_Ret in Ha
            | destruct a; apply requests_get_Ret in Ha
            | idtac ]
  end.

(** ** [scrape_books.py]: the extraction of one book *)

Section BookDetails.
Import Py ScrapeBooks.
Variable strip : string -> string.
Variable web : site soup.

Lemma book_details_Ret (book_url : string) (r : record) :
  book_details strip web book_url = Ret r ->
  exists status soup title price classes token text anchors category src,
    web book_url = Reply status soup /\ failure_status status = false /\
    h1 soup = Some title /\ p_price_color soup = Some price /\
    p_star_rating soup = Some classes /\ classes !! 1 = Some token /\
    p_instock_availability soup = Some text /\
    ul_breadcrumb soup = Some anchors /\ anchors !! 2 = Some category /\
    div_item_active soup = Some (Some (Some src)) /\
    r = [("title", title); ("price", price);
         ("rating", token +:+ " de 5 estrelas");
         ("availability", strip text); ("category", category);
         ("image_url", "https://books.toscrape.com/" +:+ replace "../../" "" src);
         ("book_url", book_url)].
Proof.
  unfold book_details. intros H. res_steps H.
  simpl in H. res_steps H. injection H as <-.
  subst. repeat eexists; eauto.
Qed.

End BookDetails.

(** ** [scraper.py]: the extraction of one book *)

Section BookRecord.
Import Py Scraper.
Variable strip : string -> string.
Variable urljoin : string -> string -> string.

Lemma book_record_Ret (book_url : string) (book_soup : soup) (r : record) :
  book_record strip urljoin book_url book_soup = Ret r ->
  exists title price text classes stars img_url,
    product_main_h1 book_soup = Some title /\
    price_color book_soup = Some price /\
    instock_availability book_soup = Some text /\
    star_rating book_soup = Some classes /\ classes !! 1 = Some stars /\
    (product_gallery_img book_soup = None /\ img_url = EmptyString \/
     exists src, product_gallery_img book_soup = Some (Some src) /\
                 img_url = urljoin book_url src) /\
    r = [("title", title); ("price", price); ("stock", strip text);
         ("description", default EmptyString (product_description_p book_soup));
         ("stars", stars); ("img_url", img_url);
         ("category", Spec.leaf (breadcrumb_a book_soup))].
Proof.
  unfold book_record. intros H. res_steps H. simpl in H.
  injection H as <-. exists a, a0, a1, a2, a3, a4.
  repeat split; try done.
  - destruct (product_gallery_img book_soup) as [img_tag|]; [right|left].
    + res_steps Hstep4. injection Hstep4 as <-. subst. eauto.
    + simpl in Hstep4. split; congruence.
  - unfold Spec.leaf. repeat f_equal.
    destruct (breadcrumb_a book_soup) as [|? [|? [|? ?]]]; done.
Qed.

Lemma book_record_total (book_url : string) (book_soup : soup)
    (title price text stars : string) (classes : list string) :
  product_main_h1 book_soup = Some title ->
  price_color book_soup = Some price ->
  instock_availability book_soup = Some text ->
  star_rating book_soup = Some classes -> classes !! 1 = Some stars ->
  product_gallery_img book_soup <> Some None ->
  exists r, book_record strip urljoin book_url book_soup = Ret r.
Proof.
  intros Ht Hp Ha Hs Hc Hi. unfold book_record, index.
  rewrite Ht, Hp, Ha, Hs. simpl. rewrite Hc. simpl.
  destruct (product_gallery_img book_soup) as [[src|]|]; simpl; eauto; done.
Qed.

End BookRecord.

(** ** What the two scrapers store in a record *)

Section Fields.
Import Py.
Variable strip : string -> string.
Variable urljoin : string -> string -> string.
Variable web : site ScrapeBooks.soup.

Lemma get_book_details_Some (book_url : string) (r : ScrapeBooks.record) :
  (ScrapeBooks.get_book_details strip web book_url).2 = Some r ->
  ScrapeBooks.book_details strip web book_url = Ret r.
Proof.
  unfold ScrapeBooks.get_book_details.
  destruct (ScrapeBooks.book_details strip web book_url) as [r'|e]; simpl.
  - congruence.
  - destruct (is_RequestException e); discriminate.
Qed.

(** C1, as the code has it: a record keeps the text of the price element as
    it stands on the page, a [str] that still carries the currency symbol.
    Both [get_book_details] and [BookScraper] do so; neither strips the symbol
    nor parses a number. *)
Theorem price_kept_as_text (book_url : string) :
  (forall r, (ScrapeBooks.get_book_details strip web book_url).2 = Some r ->
     exists status soup text,
       web book_url = Reply status soup /\
       ScrapeBooks.p_price_color soup = Some text /\
       Spec.stored "price" r = Some (VStr text)) /\
  (forall book_soup r,
     Scraper.book_record strip urljoin book_url book_soup = Ret r ->
     exists text,
       Scraper.price_color book_soup = Some text /\
       Spec.stored "price" r = Some (VStr text)).
Proof.
  split.
  - intros r Hr. apply get_book_details_Some, book_details_Ret in Hr.
    destruct Hr as (status & soup & title & price & classes & token & text &
                    anchors & category & src & Hweb & _ & _ & Hp & _ & _ & _ & _ & _ & _ & ->).
    exists status, soup, price. done.
  - intros book_soup r Hr. apply book_record_Ret in Hr.
    destruct Hr as (title & price & text & classes & stars & img_url &
                    _ & Hp & _ & _ & _ & _ & ->).
    exists price. done.
Qed.

(** C2, as the code has it: the second class token of the rating indicator
    is kept as text, whatever it is: [get_book_details] stores the token
    followed by " de 5 estrelas" under [rating], [BookScraper] stores the
    token under [stars]. When the indicator or its second token is missing,
    [get_book_details] gives no record. *)
Theorem rating_kept_as_text (book_url : string) :
  (forall r, (ScrapeBooks.get_book_details strip web book_url).2 = Some r ->
     exists status soup classes token,
       web book_url = Reply status soup /\
       ScrapeBooks.p_star_rating soup = Some classes /\
       classes !! 1 = Some token /\
       Spec.stored "rating" r = Some (VStr (token +:+ " de 5 estrelas"))) /\
  (forall status soup,
     web book_url = Reply status soup ->
     (ScrapeBooks.p_star_rating soup ≫= (.!! 1)) = None ->
     (ScrapeBooks.get_book_details strip web book_url).2 = None) /\
  (forall book_soup r,
     Scraper.book_record strip urljoin book_url book_soup = Ret r ->
     exists classes token,
       Scraper.star_rating book_soup = Some classes /\
       classes !! 1 = Some token /\
       Spec.stored "stars" r = Some (VStr token)).
Proof.
  assert (Hfirst : forall r,
    (ScrapeBooks.get_book_details strip web book_url).2 = Some r ->
     exists status soup classes token,
       web book_url = Reply status soup /\
       ScrapeBooks.p_star_rating soup = Some classes /\
       classes !! 1 = Some token /\
       Spec.stored "rating" r = Some (VStr (token +:+ " de 5 estrelas"))).
  { intros r Hr. apply get_book_details_Some, book_details_Ret in Hr.
    destruct Hr as (status & soup & title & price & classes & token & text &
                    anchors & category & src & Hweb & _ & _ & _ & Hs & Hc & _ & _ & _ & _ & ->).
    exists status, soup, classes, token. done. }
  split; [exact Hfirst|split].
  - intros status soup Hweb Hnone.
    apply eq_None_not_Some. intros [r Hr].
    destruct (Hfirst r Hr) as (status' & soup' & classes & token & Hweb' & Hs & Hc & _).
    rewrite Hweb in Hweb'. injection Hweb' as <- <-.
    rewrite Hs in Hnone. simpl in Hnone. congruence.
  - intros book_soup r Hr. apply book_record_Ret in Hr.
    destruct Hr as (title & price & text & classes & stars & img_url &
                    _ & _ & _ & Hs & Hc & _ & ->).
    exists classes, stars. done.
Qed.

(** C7, as the code has it: [BookScraper] gives the empty string under three
    breadcrumb anchors and the text of the last anchor otherwise;
    [get_book_details] gives the text of the third anchor, and no record
    when there are fewer than three. *)
Theorem category_from_breadcrumb (book_url : string) :
  (forall book_soup r,
     Scraper.book_record strip urljoin book_url book_soup = Ret r ->
     dict_get "category" r = Some (Spec.leaf (Scraper.breadcrumb_a book_soup))) /\
  (forall r, (ScrapeBooks.get_book_details strip web book_url).2 = Some r ->
     exists status soup anchors third,
       web book_url = Reply status soup /\
       ScrapeBooks.ul_breadcrumb soup = Some anchors /\
       anchors !! 2 = Some third /\
       dict_get "category" r = Some third) /\
  (forall status soup anchors,
     web book_url = Reply status soup ->
     ScrapeBooks.ul_breadcrumb soup = Some anchors ->
     (length anchors < 3)%nat ->
     (ScrapeBooks.get_book_details strip web book_url).2 = None).
Proof.
  assert (Hsecond : forall r,
    (ScrapeBooks.get_book_details strip web book_url).2 = Some r ->
     exists status soup anchors third,
       web book_url = Reply status soup /\
       ScrapeBooks.ul_breadcrumb soup = Some anchors /\
       anchors !! 2 = Some third /\
       dict_get "category" r = Some third).
  { intros r Hr. apply get_book_details_Some, book_details_Ret in Hr.
    destruct Hr as (status & soup & title & price & classes & token & text &
                    anchors & category & src & Hweb & _ & _ & _ & _ & _ & _ & Hb & Hc & _ & ->).
    exists status, soup, anchors, category. done. }
  split; [|split; [exact Hsecond|]].
  - intros book_soup r Hr. apply book_record_Ret in Hr.
    destruct Hr as (title & price & text & classes & stars & img_url &
                    _ & _ & _ & _ & _ & _ & ->).
    done.
  - intros status soup anchors Hweb Hb Hlen.
    apply eq_None_not_Some. intros [r Hr].
    destruct (Hsecond r Hr) as (status' & soup' & anchors' & third & Hweb' & Hb' & Hc & _).
    rewrite Hweb in Hweb'. injection Hweb' as <- <-.
    rewrite Hb in Hb'. injection Hb' as <-.
    apply lookup_lt_Some in Hc. lia.
Qed.

(** C8, as the code has it: [BookScraper] resolves the [src] of the gallery
    image against the URL of the book page with [urljoin], and gives the
    empty string, and still a record, when the page has no such image;
    [get_book_details] appends the [src], its "../../" parts removed, to the
    fixed base "https://books.toscrape.com/", and gives no record when the
    image is missing. *)
Theorem image_url_of_book (book_url : string) :
  (forall book_soup r,
     Scraper.book_record strip urljoin book_url book_soup = Ret r ->
     dict_get "img_url" r =
       Some (match Scraper.product_gallery_img book_soup with
             | Some (Some src) => urljoin book_url src
             | _ => EmptyString
             end)) /\
  (forall book_soup title price text classes stars,
     Scraper.product_main_h1 book_soup = Some title ->
     Scraper.price_color book_soup = Some price ->
     Scraper.instock_availability book_soup = Some text ->
     Scraper.star_rating book_soup = Some classes ->
     classes !! 1 = Some stars ->
     Scraper.product_gallery_img book_soup = None ->
     exists r, Scraper.book_record strip urljoin book_url book_soup = Ret r /\
               dict_get "img_url" r = Some EmptyString) /\
  (forall r, (ScrapeBooks.get_book_details strip web book_url).2 = Some r ->
     exists status soup src,
       web book_url = Reply status soup /\
       ScrapeBooks.div_item_active soup = Some (Some (Some src)) /\
       dict_get "image_url" r =
         Some ("https://books.toscrape.com/" +:+ replace "../../" "" src)) /\
  (forall status soup,
     web book_url = Reply status soup ->
     ScrapeBooks.div_item_active soup = None ->
     (ScrapeBooks.get_book_details strip web book_url).2 = None).
Proof.
  assert (Hthird : forall r,
    (ScrapeBooks.get_book_details strip web book_url).2 = Some r ->
     exists status soup src,
       web book_url = Reply status soup /\
       ScrapeBooks.div_item_active soup = Some (Some (Some src)) /\
       dict_get "image_url" r =
         Some ("https://books.toscrape.com/" +:+ replace "../../" "" src)).
  { intros r Hr. apply get_book_details_Some, book_details_Ret in Hr.
    destruct Hr as (status & soup & title & price & classes & token & text &
                    anchors & category & src & Hweb & _ & _ & _ & _ & _ & _ & _ & _ & Hi & ->).
    exists status, soup, src. done. }
  assert (Hfirst : forall book_soup r,
     Scraper.book_record strip urljoin book_url book_soup = Ret r ->
     dict_get "img_url" r =
       Some (match Scraper.product_gallery_img book_soup with
             | Some (Some src) => urljoin book_url src
             | _ => EmptyString
             end)).
  { intros book_soup r Hr. apply book_record_Ret in Hr.
    destruct Hr as (title & price & text & classes & stars & img_url &
                    _ & _ & _ & _ & _ & [[-> ->]|(src & -> & ->)] & ->); done. }
  split; [exact Hfirst|split; [|split; [exact Hthird|]]].
  - intros book_soup title price text classes stars Ht Hp Ha Hs Hc Hi.
    destruct (book_record_total strip urljoin book_url book_soup
                title price text stars classes) as [r Hr]; try done.
    { rewrite Hi. done. }
    exists r. split; [done|]. rewrite (Hfirst _ _ Hr), Hi. done.
  - intros status soup Hweb Hi.
    apply eq_None_not_Some. intros [r Hr].
    destruct (Hthird r Hr) as (status' & soup' & src & Hweb' & Hi' & _).
    rewrite Hweb in Hweb'. injection Hweb' as <- <-. congruence.
Qed.

End Fields.

(** ** [scrape_books.py]: the walk over the listing pages *)

Section Walk.
Import Py ScrapeBooks.
Variable strip : string -> string.
Variable web : site soup.

Lemma book_details_nonempty (book_url : string) (r : record) :
  book_details strip web book_url = Ret r -> r <> [].
Proof.
  intros Hr. apply book_details_Ret in Hr.
  destruct Hr as (? & ? & ? & ? & ? & ? & ? & ? & ? & ? & Hr).
  destruct Hr as (_ & _ & _ & _ & _ & _ & _ & _ & _ & _ & ->). done.
Qed.

(** The loop over the links of one page: the lines printed and the records
    appended are those of the links, in order. *)
Lemma collect_all (links : list string) (lines : list msg) (data : list record) :
  foldl (collect strip web) (lines, data) links =
  (lines ++ flat_map (fun l => (get_book_details strip web l).1) links,
   data ++ omap (fun l => (get_book_details strip web l).2) links).
Proof.
  revert lines data. induction links as [|l links IH]; intros lines data.
  - simpl. by rewrite !app_nil_r.
  - cbn [foldl flat_map omap list_omap].
    assert (collect strip web (lines, data) l =
            (lines ++ (get_book_details strip web l).1,
             data ++ option_list (get_book_details strip web l).2)) as ->.
    { pose proof (book_details_nonempty l) as Hne.
      unfold collect, get_book_details in *.
      destruct (book_details strip web l) as [r|e]; simpl.
      - destruct r as [|kv r]; [by destruct (Hne [])|done].
      - destruct (is_RequestException e); simpl; by rewrite app_nil_r. }
    rewrite IH, <- !app_assoc.
    by destruct (get_book_details strip web l).2.
Qed.

(** What one listing page leaves in the state. *)
Lemma listing_page_Ret (url : string) (lines : list msg) (data : list record)
    (st' : state) :
  listing_page strip web url lines data = Ret st' ->
  exists status soup links,
    web url = Reply status soup /\ failure_status status = false /\
    book_links (h3_a soup) = Ret links /\
    printed st' = lines ++ flat_map (fun l => (get_book_details strip web l).1) links /\
    all_books_data st' = data ++ omap (fun l => (get_book_details strip web l).2) links /\
    (li_next soup = None /\ current_page_url st' = None \/
     exists href, li_next soup = Some (Some (Some href)) /\
                  current_page_url st' = Some (base_url +:+ href)).
Proof.
  unfold listing_page. intros H. res_steps H. simpl in H.
  rewrite collect_all in H.
  exists z, s, a0. repeat split; try done.
  - destruct (li_next s); [res_steps H|]; by injection H as <-.
  - destruct (li_next s); [res_steps H|]; by injection H as <-.
  - destruct (li_next s) as [next_page_element|]; [right|left].
    + res_steps H. injection H as <-. subst. eauto.
    + by injection H as <-.
Qed.

Lemma listing_page_total (url : string) (lines : list msg) (data : list record)
    (status : Z) (doc : soup) (links : list string) :
  web url = Reply status doc -> failure_status status = false ->
  book_links (h3_a doc) = Ret links ->
  (li_next doc = None \/ exists href, li_next doc = Some (Some (Some href))) ->
  exists st', listing_page strip web url lines data = Ret st'.
Proof.
  intros Hweb Hst Hlinks Hnext.
  unfold listing_page, requests_get, raise_for_status.
  rewrite Hweb. simpl. rewrite Hst. simpl. rewrite Hlinks. simpl.
  rewrite collect_all.
  destruct Hnext as [->|[href ->]]; simpl; eauto.
Qed.

Lemma listing_page_same (url : string) (lines1 lines2 : list msg)
    (data1 data2 : list record) (st1 : state) :
  listing_page strip web url lines1 data1 = Ret st1 ->
  exists st2, listing_page strip web url lines2 data2 = Ret st2 /\
              same_page st1 st2.
Proof.
  intros H1. destruct (listing_page_Ret _ _ _ _ H1)
    as (status & doc & links & Hweb & Hst & Hlinks & _ & _ & Hnext).
  destruct (listing_page_total url lines2 data2 status doc links) as [st2 H2]; try done.
  { destruct Hnext as [[? _]|(href & ? & _)]; eauto. }
  exists st2. split; [done|].
  destruct (listing_page_Ret _ _ _ _ H2)
    as (status' & doc' & links' & Hweb' & _ & _ & _ & _ & Hnext').
  rewrite Hweb in Hweb'. injection Hweb' as <- <-.
  unfold same_page.
  destruct Hnext as [[Hn ->]|(href & Hn & ->)];
    destruct Hnext' as [[Hn' ->]|(href' & Hn' & ->)]; congruence.
Qed.

Lemma turn_of_respects : respects (turn_of strip web) same_page.
Proof.
  intros s1 s2 s1' Hsame H1. unfold turn_of in *. rewrite <- Hsame.
  destruct (current_page_url s1) as [url|]; [|discriminate].
  destruct (truthy url); [|discriminate].
  destruct (listing_page strip web url (printed s1 ++ [Collecting url])
              (all_books_data s1)) as [st1|e] eqn:Hp.
  - injection H1 as <-.
    destruct (listing_page_same url _ (printed s2 ++ [Collecting url])
                _ (all_books_data s2) _ Hp) as (st2 & -> & Hs).
    eauto.
  - destruct (is_RequestException e); discriminate.
Qed.

(** A walk that comes back to the URL of a page it has fetched goes on for
    ever. *)
Lemma walk_revisit_forever (j k : nat) (st st' : state) :
  turns (turn_of strip web) j start = Some st -> (1 <= k)%nat ->
  turns (turn_of strip web) k st = Some st' ->
  current_page_url st' = current_page_url st ->
  forall fuel, scrape_all_books strip web fuel = OutOfFuel.
Proof.
  intros Hj Hk Hturns Hurl. unfold scrape_all_books.
  apply (while_forever _ same_page j k start st st'); auto using turn_of_respects.
  by unfold same_page.
Qed.

End Walk.

(** ** [scraper.py]: the walk over the listing pages *)

Section ScraperWalk.
Import Py Scraper.
Variable strip : string -> string.
Variable urljoin : string -> string -> string.
Variable web : site soup.

Lemma book_turn_same (url : string) (acc1 acc2 acc1' : list msg * list record)
    (book : pod) :
  book_turn strip urljoin web url acc1 book = Ret acc1' ->
  exists acc2', book_turn strip urljoin web url acc2 book = Ret acc2'.
Proof.
  unfold book_turn. intros H. res_steps H. subst. simpl.
  rewrite Hstep2. simpl. rewrite Hstep3. simpl. eauto.
Qed.

Lemma for_books_same (url : string) (pods : list pod)
    (acc1 acc2 acc1' : list msg * list record) :
  for_books strip urljoin web url acc1 pods = Ret acc1' ->
  exists acc2', for_books strip urljoin web url acc2 pods = Ret acc2'.
Proof.
  revert acc1 acc2. induction pods as [|book pods IH]; intros acc1 acc2 H; simpl in *.
  - eauto.
  - res_steps H.
    destruct (book_turn_same url acc1 acc2 a book Hstep) as [a2 ->]. simpl.
    eauto.
Qed.

Lemma page_same (url : string) (st1 st2 st1' : state) :
  page strip urljoin web url st1 = Ret st1' ->
  exists st2', page strip urljoin web url st2 = Ret st2' /\ same_page st1' st2'.
Proof.
  unfold page. intros H. res_steps H. destruct a0 as [lines1 books1].
  rewrite Hstep. simpl.
  edestruct (for_books_same url (product_pods a)) as [[lines2 books2] ->];
    [exact Hstep0|]. simpl.
  destruct (li_next_a a) as [next_li|].
  - res_steps H. rewrite Hstep1. simpl. injection H as <-.
    eexists. split; [done|]. done.
  - injection H as <-. eexists. split; [done|]. done.
Qed.

Lemma scraper_turn_respects :
  respects (turn_of strip urljoin web) same_page.
Proof.
  intros s1 s2 s1' Hsame H1. unfold turn_of in *. rewrite <- Hsame.
  destruct (next_page_url s1) as [url|]; [|discriminate].
  destruct (truthy url); [|discriminate].
  destruct (page strip urljoin web url s1) as [st1|e] eqn:Hp; [|discriminate].
  injection H1 as <-.
  destruct (page_same url s1 s2 st1 Hp) as (st2 & -> & Hs). eauto.
Qed.

Lemma scraper_revisit_forever (base_url : option string) (j k : nat)
    (st st' : state) :
  turns (turn_of strip urljoin web) j (start base_url) = Some st ->
  (1 <= k)%nat ->
  turns (turn_of strip urljoin web) k st = Some st' ->
  next_page_url st' = next_page_url st ->
  forall fuel, books_list strip urljoin web base_url fuel = OutOfFuel.
Proof.
  intros Hj Hk Hturns Hurl. unfold books_list.
  apply (while_forever _ same_page j k (start base_url) st st');
    auto using scraper_turn_respects.
  by unfold same_page.
Qed.

End ScraperWalk.

(** ** Pagination *)

(** C3, as the code has it: neither walk keeps the URLs it has visited. When
    a walk has reached a listing page and, following "next" links from it,
    comes back to the URL of that page, it fetches the page again and never
    ends, whatever the number of turns it is given. *)
Theorem revisit_never_ends (strip : string -> string)
    (urljoin : string -> string -> string) :
  (forall (web : Py.site ScrapeBooks.soup) (j k : nat) (st st' : ScrapeBooks.state),
     Py.turns (ScrapeBooks.turn_of strip web) j ScrapeBooks.start = Some st ->
     (1 <= k)%nat ->
     Py.turns (ScrapeBooks.turn_of strip web) k st = Some st' ->
     ScrapeBooks.current_page_url st' = ScrapeBooks.current_page_url st ->
     forall fuel, ScrapeBooks.scrape_all_books strip web fuel = Py.OutOfFuel) /\
  (forall (web : Py.site Scraper.soup) (base_url : option string) (j k : nat)
          (st st' : Scraper.state),
     Py.turns (Scraper.turn_of strip urljoin web) j (Scraper.start base_url) = Some st ->
     (1 <= k)%nat ->
     Py.turns (Scraper.turn_of strip urljoin web) k st = Some st' ->
     Scraper.next_page_url st' = Scraper.next_page_url st ->
     forall fuel, Scraper.books_list strip urljoin web base_url fuel = Py.OutOfFuel).
Proof.
  split.
  - intros web. apply walk_revisit_forever.
  - intros web. apply scraper_revisit_forever.
Qed.

Lemma looping_walk_never_ends :
  ~ (exists fuel r,
       ScrapeBooks.scrape_all_books id Samples.SB.looping fuel = Py.Done r) /\
  ~ (exists fuel r,
       Scraper.books_list id Samples.join_url Samples.SC.looping
         (Some Samples.SC.home) fuel = Py.Done r).
Proof.
  split; intros (fuel & r & H).
  - rewrite (walk_revisit_forever id Samples.SB.looping 0 1
               ScrapeBooks.start
               {| ScrapeBooks.current_page_url := Some Samples.SB.page1;
                  ScrapeBooks.printed := [ScrapeBooks.Collecting Samples.SB.page1];
                  ScrapeBooks.all_books_data :=
                    option_list (ScrapeBooks.get_book_details id Samples.SB.looping
                                   (Samples.SB.item "light/index.html")).2 |})
      in H; [discriminate|reflexivity|lia|reflexivity|reflexivity].
  - rewrite (scraper_revisit_forever id Samples.join_url Samples.SC.looping
               (Some Samples.SC.home) 0 1
               (Scraper.start (Some Samples.SC.home))
               {| Scraper.next_page_url := Some Samples.SC.home;
                  Scraper.page_count := 2;
                  Scraper.logged := [Scraper.ProcessingPage 1 Samples.SC.home;
                                     Scraper.ScrapingURL Samples.SC.home];
                  Scraper.books := [] |})
      in H; [discriminate|reflexivity|lia|reflexivity|reflexivity].
Qed.

Lemma revisit_never_ends_witness :
  (forall fuel,
     ScrapeBooks.scrape_all_books id Samples.SB.looping fuel = Py.OutOfFuel) /\
  (forall fuel,
     Scraper.books_list id Samples.join_url Samples.SC.looping
       (Some Samples.SC.home) fuel = Py.OutOfFuel).
Proof.
  destruct (revisit_never_ends id Samples.join_url) as [H1 H2]. split.
  - eapply (H1 Samples.SB.looping 0 1); [reflexivity|lia|reflexivity|reflexivity].
  - eapply (H2 Samples.SC.looping (Some Samples.SC.home) 0 1);
      [reflexivity|lia|reflexivity|reflexivity].
Defined.

(** ** Failures of a fetch *)

Section Failures.
Import Py ScrapeBooks.
Variable strip : string -> string.
Variable web : site soup.

Lemma failed_item (link : string) (e : exn) :
  Spec.fetch_fails web link e ->
  get_book_details strip web link = ([AccessError link e], None).
Proof.
  unfold get_book_details, book_details, requests_get, raise_for_status.
  intros [[-> ->]|(status & doc & -> & Hst & ->)]; simpl; [done|].
  by rewrite Hst.
Qed.

Lemma failed_listing (st : state) (url : string) (e : exn) :
  Spec.fetch_fails web url e ->
  current_page_url st = Some url -> truthy url = true ->
  turn_of strip web st =
    Break ((printed st ++ [Collecting url]) ++ [ListingError url e],
           all_books_data st).
Proof.
  unfold turn_of, listing_page, requests_get, raise_for_status.
  intros [[Hweb ->]|(status & doc & Hweb & Hst & ->)] -> ->; rewrite Hweb; simpl.
  - done.
  - by rewrite Hst.
Qed.

(** The records a page adds are those of its links other than a link whose
    fetch fails. *)
Lemma records_of_other_links (links : list string) (bad : string) (e : exn)
    (r : record) :
  Spec.fetch_fails web bad e ->
  r ∈ omap (fun l => (get_book_details strip web l).2) links <->
  exists l, l ∈ links /\ l <> bad /\ (get_book_details strip web l).2 = Some r.
Proof.
  intros Hbad. rewrite list_elem_of_omap. split.
  - intros (l & Hl & Hr). exists l. repeat split; [done| |done].
    intros ->. rewrite (failed_item _ _ Hbad) in Hr. discriminate.
  - intros (l & Hl & _ & Hr). eauto.
Qed.

End Failures.

(** C4, as [scrape_all_books] has it: on a listing page that is fetched and
    whose links and "next" link are well formed, an item whose fetch gives a
    failure status is reported and gives no record; the turn for the page goes
    on to the next page, and the records it adds are those of every other
    link of the page for which [get_book_details] gives one, in page order. *)
Theorem failed_item_is_skipped (strip : string -> string)
    (web : Py.site ScrapeBooks.soup) (st : ScrapeBooks.state) (url : string)
    (status : Z) (doc : ScrapeBooks.soup) (links : list string)
    (bad : string) (bad_status : Z) (bad_doc : ScrapeBooks.soup) :
  ScrapeBooks.current_page_url st = Some url -> Py.truthy url = true ->
  web url = Py.Reply status doc -> Py.failure_status status = false ->
  ScrapeBooks.book_links (ScrapeBooks.h3_a doc) = Py.Ret links ->
  (ScrapeBooks.li_next doc = None \/
   exists href, ScrapeBooks.li_next doc = Some (Some (Some href))) ->
  bad ∈ links ->
  web bad = Py.Reply bad_status bad_doc -> Py.failure_status bad_status = true ->
  ScrapeBooks.get_book_details strip web bad =
    ([ScrapeBooks.AccessError bad (Py.HTTPError bad_status)], None) /\
  exists st',
    ScrapeBooks.turn_of strip web st = Py.Continue st' /\
    ScrapeBooks.all_books_data st' =
      ScrapeBooks.all_books_data st ++
      omap (fun l => (ScrapeBooks.get_book_details strip web l).2) links /\
    forall r,
      r ∈ omap (fun l => (ScrapeBooks.get_book_details strip web l).2) links <->
      exists l, l ∈ links /\ l <> bad /\
                (ScrapeBooks.get_book_details strip web l).2 = Some r.
Proof.
  intros Hurl Htruthy Hweb Hst Hlinks Hnext Hin Hbad Hbst.
  assert (Hfail : Spec.fetch_fails web bad (Py.HTTPError bad_status)).
  { right. eauto. }
  split; [by apply failed_item|].
  destruct (listing_page_total strip web url
              (ScrapeBooks.printed st ++ [ScrapeBooks.Collecting url])
              (ScrapeBooks.all_books_data st) status doc links)
    as [st' Hpage]; try done.
  exists st'. split; [|split].
  - unfold ScrapeBooks.turn_of. by rewrite Hurl, Htruthy, Hpage.
  - destruct (listing_page_Ret _ _ _ _ _ _ Hpage)
      as (status' & doc' & links' & Hweb' & _ & Hlinks' & _ & Hdata & _).
    rewrite Hweb in Hweb'. injection Hweb' as <- <-.
    rewrite Hlinks in Hlinks'. by injection Hlinks' as <-.
  - intros r. by apply records_of_other_links with (Py.HTTPError bad_status).
Qed.

Lemma failed_item_is_skipped_witness :
  ScrapeBooks.get_book_details id Samples.SB.shop (Samples.SB.item "gone/index.html") =
    ([ScrapeBooks.AccessError (Samples.SB.item "gone/index.html") (Py.HTTPError 404)],
     None) /\
  exists st',
    ScrapeBooks.turn_of id Samples.SB.shop ScrapeBooks.start = Py.Continue st' /\
    ScrapeBooks.all_books_data st' =
      ScrapeBooks.all_books_data ScrapeBooks.start ++
      omap (fun l => (ScrapeBooks.get_book_details id Samples.SB.shop l).2)
        (map Samples.SB.item ["light/index.html"; "gone/index.html"; "velvet/index.html"]) /\
    forall r,
      r ∈ omap (fun l => (ScrapeBooks.get_book_details id Samples.SB.shop l).2)
            (map Samples.SB.item ["light/index.html"; "gone/index.html"; "velvet/index.html"]) <->
      exists l, l ∈ map Samples.SB.item
                      ["light/index.html"; "gone/index.html"; "velvet/index.html"] /\
                l <> Samples.SB.item "gone/index.html" /\
                (ScrapeBooks.get_book_details id Samples.SB.shop l).2 = Some r.
Proof.
  apply (failed_item_is_skipped id Samples.SB.shop ScrapeBooks.start
           Samples.SB.page1 200
           (Samples.SB.listing ["light/index.html"; "gone/index.html"; "velvet/index.html"] None)
           _ _ 404 Samples.SB.blank).
  - reflexivity.
  - reflexivity.
  - reflexivity.
  - reflexivity.
  - reflexivity.
  - left. reflexivity.
  - apply list_elem_of_further, list_elem_of_here.
  - reflexivity.
  - reflexivity.
Defined.

(** [BookScraper] does not look at the status: the error page of the failed
    item is read as a book page, and the run stops on an exception. *)
Lemma scraper_failed_item_stops_run :
  Scraper.books_list id Samples.join_url Samples.SC.shop
    (Some Samples.SC.home) 1 = Py.Raised Py.AttributeError /\
  Scraper.main id Samples.join_url Samples.SC.shop (Some Samples.SC.home) 1 ∅ =
    Some {| Scraper.exit_code := 1; Scraper.files := ∅ |}.
Proof. split; reflexivity. Qed.

(** C6, as the code has it. In [scrape_books.py] a fetch failure on a listing
    page, the first one or a later one, is printed and ends the walk there
    with the records collected so far; when it is the first page the script
    still ends with status 0 and writes nothing. A fetch failure on the page
    of an item is printed and gives no record, and the loop over the links of
    the page goes through all of them. In [scraper.py], [__scrape] handles no
    failure: a transport failure is raised to the caller and a response is
    parsed whatever its status. *)
Theorem fetch_failure_policy (strip : string -> string)
    (web : Py.site ScrapeBooks.soup) (web' : Py.site Scraper.soup) :
  (forall st url e fuel,
     Spec.fetch_fails web url e ->
     ScrapeBooks.current_page_url st = Some url -> Py.truthy url = true ->
     Py.while (ScrapeBooks.turn_of strip web) (S fuel) st =
       Py.Done ((ScrapeBooks.printed st ++ [ScrapeBooks.Collecting url]) ++
                  [ScrapeBooks.ListingError url e],
                ScrapeBooks.all_books_data st)) /\
  (forall e fuel fs,
     Spec.fetch_fails web ScrapeBooks.first_page e ->
     ScrapeBooks.main strip web (S fuel) fs =
       Some {| ScrapeBooks.exit_code := 0;
               ScrapeBooks.stdout :=
                 [ScrapeBooks.Starting;
                  ScrapeBooks.Collecting ScrapeBooks.first_page;
                  ScrapeBooks.ListingError ScrapeBooks.first_page e;
                  ScrapeBooks.Finished];
               ScrapeBooks.files := fs |}) /\
  (forall link e,
     Spec.fetch_fails web link e ->
     ScrapeBooks.get_book_details strip web link =
       ([ScrapeBooks.AccessError link e], None)) /\
  (forall links lines data,
     foldl (ScrapeBooks.collect strip web) (lines, data) links =
       (lines ++ flat_map (fun l => (ScrapeBooks.get_book_details strip web l).1) links,
        data ++ omap (fun l => (ScrapeBooks.get_book_details strip web l).2) links)) /\
  (forall url,
     web' url = Py.NoReply ->
     Scraper.scrape web' url = Py.Raise Py.RequestException) /\
  (forall url status doc,
     web' url = Py.Reply status doc -> Scraper.scrape web' url = Py.Ret doc).
Proof.
  assert (Hwalk : forall st url e fuel,
     Spec.fetch_fails web url e ->
     ScrapeBooks.current_page_url st = Some url -> Py.truthy url = true ->
     Py.while (ScrapeBooks.turn_of strip web) (S fuel) st =
       Py.Done ((ScrapeBooks.printed st ++ [ScrapeBooks.Collecting url]) ++
                  [ScrapeBooks.ListingError url e],
                ScrapeBooks.all_books_data st)).
  { intros st url e fuel Hfail Hurl Htruthy. simpl.
    by rewrite (failed_listing strip web st url e). }
  split; [exact Hwalk|]. split; [|split; [|split; [|split]]].
  - intros e fuel fs Hfail. unfold ScrapeBooks.main, ScrapeBooks.scrape_all_books.
    by rewrite (Hwalk ScrapeBooks.start ScrapeBooks.first_page e fuel).
  - intros link e. apply failed_item.
  - intros links lines data. apply collect_all.
  - intros url Hweb. unfold Scraper.scrape, Py.requests_get. by rewrite Hweb.
  - intros url status doc Hweb. unfold Scraper.scrape, Py.requests_get.
    by rewrite Hweb.
Qed.

Lemma fetch_failure_policy_witness :
  ScrapeBooks.main id Samples.SB.down 1 ∅ =
    Some {| ScrapeBooks.exit_code := 0;
            ScrapeBooks.stdout :=
              [ScrapeBooks.Starting;
               ScrapeBooks.Collecting Samples.SB.page1;
               ScrapeBooks.ListingError Samples.SB.page1 Py.RequestException;
               ScrapeBooks.Finished];
            ScrapeBooks.files := ∅ |} /\
  ScrapeBooks.get_book_details id Samples.SB.shop (Samples.SB.item "gone/index.html") =
    ([ScrapeBooks.AccessError (Samples.SB.item "gone/index.html") (Py.HTTPError 404)],
     None) /\
  Scraper.scrape Samples.SC.shop (Samples.SC.home +:+ "gone.html") =
    Py.Ret Samples.SC.blank.
Proof.
  split; [|split].
  - apply (fetch_failure_policy id Samples.SB.down Samples.SC.shop).
    left. split; reflexivity.
  - apply (fetch_failure_policy id Samples.SB.shop Samples.SC.shop).
    right. exists 404%Z, Samples.SB.blank. repeat split; reflexivity.
  - apply (fetch_failure_policy id Samples.SB.shop Samples.SC.shop) with 404%Z.
    reflexivity.
Defined.

(** The first listing page cannot be fetched, and the script ends with
    status 0. *)
Lemma first_page_failure_exits_zero :
  Samples.SB.down ScrapeBooks.first_page = Py.NoReply /\
  ScrapeBooks.main id Samples.SB.down 1 ∅ =
    Some {| ScrapeBooks.exit_code := 0;
            ScrapeBooks.stdout :=
              [ScrapeBooks.Starting;
               ScrapeBooks.Collecting ScrapeBooks.first_page;
               ScrapeBooks.ListingError ScrapeBooks.first_page Py.RequestException;
               ScrapeBooks.Finished];
            ScrapeBooks.files := ∅ |}.
Proof. split; reflexivity. Qed.

(** ** The writers *)

Section Writers.
Import Py.

Lemma str_app_nil_r (s : string) : s +:+ EmptyString = s.
Proof.
  induction s as [|c s IH]; [done|].
  change (String c (s +:+ EmptyString) = String c s). by rewrite IH.
Qed.

Lemma str_app_assoc (s1 s2 s3 : string) : (s1 +:+ s2) +:+ s3 = s1 +:+ s2 +:+ s3.
Proof.
  induction s1 as [|c s1 IH]; [done|].
  change (String c ((s1 +:+ s2) +:+ s3) = String c (s1 +:+ s2 +:+ s3)).
  by rewrite IH.
Qed.

Lemma written_app (path : string) (ops1 ops2 : list fsop) :
  Spec.written path (ops1 ++ ops2) =
  Spec.written path ops1 +:+ Spec.written path ops2.
Proof.
  induction ops1 as [|op ops1 IH]; simpl; [done|].
  destruct op; try done.
  destruct (String.eqb path0 path); [|done].
  by rewrite IH, str_app_assoc.
Qed.

(** Operations in place append what they write. *)
Lemma apply_in_place (path : string) (ops : list fsop) :
  forallb (Spec.in_place path) ops = true ->
  forall (fs : gmap string string) (c : string),
    fs !! path = Some c ->
    apply_ops fs ops !! path = Some (c +:+ Spec.written path ops).
Proof.
  induction ops as [|op ops IH]; intros Hall fs c Hc; simpl in *.
  - by rewrite str_app_nil_r.
  - apply andb_true_iff in Hall as [Hop Hall].
    destruct op as [dir|p|p data|p|src dst]; simpl in *; try discriminate; eauto.
    apply String.eqb_eq in Hop as ->. rewrite String.eqb_refl.
    rewrite <- str_app_assoc. apply IH; [done|].
    by rewrite lookup_insert_eq, Hc.
Qed.

Lemma in_place_take (path : string) (n : nat) (ops : list fsop) :
  forallb (Spec.in_place path) ops = true ->
  forallb (Spec.in_place path) (take n ops) = true.
Proof.
  rewrite !forallb_forall. intros Hall op Hin. apply Hall.
  apply list_elem_of_In. apply list_elem_of_In in Hin.
  by apply (subseteq_take n ops).
Qed.

(** A destination that is opened and then written in place holds, at each
    point after the opening, a prefix of what it holds at the end. *)
Lemma opened_then_in_place (path : string) (tail : list fsop)
    (fs : gmap string string) (n : nat) :
  forallb (Spec.in_place path) tail = true ->
  exists c rest,
    apply_ops fs (take (S n) (OpenW path :: tail)) !! path = Some c /\
    apply_ops fs (OpenW path :: tail) !! path = Some (c +:+ rest).
Proof.
  intros Hall. exists (Spec.written path (take n tail)), (Spec.written path (drop n tail)).
  simpl. split.
  - rewrite (apply_in_place path (take n tail) (in_place_take _ _ _ Hall)
               (<[path:=EmptyString]> fs) EmptyString);
      [done|apply lookup_insert_eq].
  - rewrite (apply_in_place path tail Hall (<[path:=EmptyString]> fs) EmptyString);
      [|apply lookup_insert_eq].
    by rewrite <- written_app, take_drop.
Qed.

(** What has been written so far starts what is written in the end. *)
Lemma written_take (path : string) (n : nat) (ops : list fsop) :
  exists rest,
    Spec.written path ops = Spec.written path (take n ops) +:+ rest.
Proof.
  exists (Spec.written path (drop n ops)).
  by rewrite <- written_app, take_drop.
Qed.

(** After the opening, the destination holds what has been written since,
    and nothing of what it held before. *)
Lemma opened_then_written (path : string) (tail : list fsop)
    (fs : gmap string string) (n : nat) :
  forallb (Spec.in_place path) tail = true ->
  apply_ops fs (take (S n) (OpenW path :: tail)) !! path =
    Some (Spec.written path (take (S n) (OpenW path :: tail))).
Proof.
  intros Hall. simpl.
  rewrite (apply_in_place path (take n tail) (in_place_take _ _ _ Hall)
             (<[path:=EmptyString]> fs) EmptyString);
    [done|apply lookup_insert_eq].
Qed.

Lemma in_place_only_on (path : string) (op : fsop) :
  Spec.in_place path op = true -> Spec.only_on path op.
Proof.
  destruct op as [dir|p|p data|p|src dst]; simpl; try discriminate;
    intros H; (split; [done|]); intros q Hq; simpl in Hq.
  - by apply elem_of_nil in Hq.
  - apply String.eqb_eq in H as ->. by apply list_elem_of_singleton in Hq.
  - apply String.eqb_eq in H as ->. by apply list_elem_of_singleton in Hq.
Qed.

Lemma all_only_on (path : string) (ops : list fsop) :
  forallb (Spec.in_place path) ops = true -> Forall (Spec.only_on path) ops.
Proof.
  rewrite forallb_forall, Forall_forall. intros Hall op Hin.
  apply in_place_only_on, Hall. by apply list_elem_of_In.
Qed.

(** *** [scraper.py] *)

Lemma writerows_in_place (path : string) (fieldnames : list string)
    (rows : list Scraper.record) :
  forallb (Spec.in_place path) (Scraper.writerows path fieldnames rows).1 = true.
Proof.
  induction rows as [|r rows IH]; simpl; [done|].
  destruct (Scraper.dict_to_list fieldnames r); [|done].
  destruct (Scraper.writerows path fieldnames rows) as [ops e]. simpl in *.
  by rewrite String.eqb_refl.
Qed.

(** The block opens [books.csv], then writes to it in place; with records,
    the first thing written is the line of the keys of the first record. *)
Lemma write_results_shape (results : list Scraper.record) :
  exists tail,
    (Scraper.write_results results).1 = OpenW Scraper.books_csv :: tail /\
    forallb (Spec.in_place Scraper.books_csv) tail = true /\
    match results with
    | first :: _ =>
        exists tail', tail =
          WriteTo Scraper.books_csv (csv_line Scraper.crlf (keys first)) :: tail'
    | [] => True
    end.
Proof.
  destruct results as [|first rest].
  - eexists. split; [reflexivity|]. split; done.
  - unfold Scraper.write_results.
    pose proof (writerows_in_place Scraper.books_csv (keys first) (first :: rest)) as Hrows.
    destruct (Scraper.writerows Scraper.books_csv (keys first) (first :: rest))
      as [ops e]. simpl in Hrows. simpl.
    eexists. split; [reflexivity|]. split; [|eauto].
    simpl. rewrite forallb_app, Hrows. done.
Qed.

(** *** [scrape_books.py] *)

Lemma columns_of_books (data : list ScrapeBooks.record) :
  data <> [] -> Forall (fun r : ScrapeBooks.record => keys r = Spec.book_keys) data ->
  ScrapeBooks.columns data = Spec.book_keys.
Proof.
  assert (Hrest : forall rest, Forall (fun r : ScrapeBooks.record => keys r = Spec.book_keys) rest ->
            foldl (fun cols r => foldl ScrapeBooks.add_column cols (keys r))
              Spec.book_keys rest = Spec.book_keys).
  { induction rest as [|r rest IH]; intros Hall; [done|].
    apply Forall_cons in Hall as [Hr Hall]. simpl. rewrite Hr.
    by apply IH. }
  destruct data as [|r data]; [done|]. intros _ Hall.
  apply Forall_cons in Hall as [Hr Hall].
  unfold ScrapeBooks.columns. simpl. rewrite Hr. by apply Hrest.
Qed.

Lemma keys_of_book (strip : string -> string) (web : site ScrapeBooks.soup)
    (book_url : string) (r : ScrapeBooks.record) :
  (ScrapeBooks.get_book_details strip web book_url).2 = Some r ->
  keys r = Spec.book_keys.
Proof.
  intros Hr. apply get_book_details_Some, book_details_Ret in Hr.
  destruct Hr as (? & ? & ? & ? & ? & ? & ? & ? & ? & ? & Hr).
  destruct Hr as (_ & _ & _ & _ & _ & _ & _ & _ & _ & _ & ->). done.
Qed.

Lemma keys_of_record (strip : string -> string)
    (urljoin : string -> string -> string) (book_url : string)
    (book_soup : Scraper.soup) (r : Scraper.record) :
  Scraper.book_record strip urljoin book_url book_soup = Ret r ->
  keys r = Spec.scraper_keys.
Proof.
  intros Hr. apply book_record_Ret in Hr.
  destruct Hr as (? & ? & ? & ? & ? & ? & Hr).
  destruct Hr as (_ & _ & _ & _ & _ & _ & ->). done.
Qed.

End Writers.

(** C5, as the code has it. [save_to_csv], given at least one record of
    [get_book_details], writes a file whose first row is
    title,price,rating,availability,category,image_url,book_url, the keys of
    the records in their order; given no record it writes no file. The
    [__main__] block of [scraper.py] writes as first row the keys of the
    first record, which for the records of [BookScraper] are
    title,price,stock,description,stars,img_url,category; with no record it
    writes the single line "No data found". *)
Theorem header_of_the_file (strip : string -> string)
    (urljoin : string -> string -> string) (web : Py.site ScrapeBooks.soup) :
  (forall data filename,
     data <> [] ->
     Forall (fun r => exists url,
               (ScrapeBooks.get_book_details strip web url).2 = Some r) data ->
     Py.truthy (Py.dirname filename) = true ->
     exists ops rest,
       ScrapeBooks.save_to_csv data filename =
         Py.Ret ([ScrapeBooks.Saved filename], ops) /\
       forall fs,
         Py.apply_ops fs ops !! filename =
           Some ("title,price,rating,availability,category,image_url,book_url"
                 +:+ ScrapeBooks.newline +:+ rest)) /\
  (forall filename,
     ScrapeBooks.save_to_csv [] filename =
       Py.Ret ([ScrapeBooks.NothingToSave], [])) /\
  (forall first others fs,
     exists rest,
       Py.apply_ops fs (Scraper.write_results (first :: others)).1
         !! Scraper.books_csv =
         Some (Py.csv_line Scraper.crlf (Py.keys first) +:+ rest)) /\
  (forall book_url book_soup first,
     Scraper.book_record strip urljoin book_url book_soup = Py.Ret first ->
     Py.csv_line Scraper.crlf (Py.keys first) =
       "title,price,stock,description,stars,img_url,category" +:+ Scraper.crlf) /\
  Scraper.write_results [] =
    ([Py.OpenW Scraper.books_csv;
      Py.WriteTo Scraper.books_csv
        ("No data found" +:+ String Py.lf EmptyString);
      Py.CloseF Scraper.books_csv], None).
Proof.
  split; [|split; [|split; [|split]]].
  - intros data filename Hne Hall Hdir.
    assert (Hcols : ScrapeBooks.columns data = Spec.book_keys).
    { apply columns_of_books; [done|].
      eapply Forall_impl; [exact Hall|].
      intros r [url Hr]. by apply (keys_of_book strip web url). }
    destruct data as [|r data]; [done|].
    unfold ScrapeBooks.save_to_csv, Py.makedirs. rewrite Hdir.
    eexists. exists (String.concat EmptyString
      (map (fun r' => Py.csv_line ScrapeBooks.newline
              (ScrapeBooks.cells Spec.book_keys r')) (r :: data))).
    split; [reflexivity|]. intros fs.
    cbn [app Py.apply_ops foldl Py.apply_op mbind Py.res_bind].
    rewrite lookup_insert_eq. cbn [default]. rewrite lookup_insert_eq.
    unfold ScrapeBooks.to_csv_text. rewrite Hcols. reflexivity.
  - done.
  - intros first others fs.
    destruct (write_results_shape (first :: others))
      as (tail & Hops & Hall & tail' & ->).
    rewrite Hops.
    change (Py.apply_ops fs (Py.OpenW Scraper.books_csv :: ?t))
      with (Py.apply_ops (<[Scraper.books_csv:=EmptyString]> fs) t).
    rewrite (apply_in_place Scraper.books_csv _ Hall
               (<[Scraper.books_csv:=EmptyString]> fs) EmptyString);
      [|apply lookup_insert_eq].
    eexists. reflexivity.
  - intros book_url book_soup first Hr.
    by rewrite (keys_of_record strip urljoin book_url book_soup first Hr).
  - reflexivity.
Qed.

(** C9, as the code has it. Both writers write the destination in place:
    every operation names the destination itself and none is a rename; the
    destination is opened, which empties it whatever it held, and the text is
    appended to it. From the opening on it holds what has been written so
    far, a prefix of the dataset, and nothing of what it held before; at the
    end it holds the dataset: the header row and the rows (or the line "No
    data found") for [scraper.py], the text of [to_csv] for [save_to_csv]. *)
Theorem dataset_written_in_place :
  (forall results,
     Forall (Spec.only_on Scraper.books_csv) (Scraper.write_results results).1 /\
     (forall fs n,
        exists c rest,
          Py.apply_ops fs (take (S n) (Scraper.write_results results).1)
            !! Scraper.books_csv = Some c /\
          Py.apply_ops fs (Scraper.write_results results).1
            !! Scraper.books_csv = Some (c +:+ rest)) /\
     (forall fs,
        Py.apply_ops fs (take 1 (Scraper.write_results results).1)
          !! Scraper.books_csv = Some EmptyString) /\
     (forall fs n,
        Py.apply_ops fs (take (S n) (Scraper.write_results results).1)
          !! Scraper.books_csv =
          Some (Spec.written Scraper.books_csv
                  (take (S n) (Scraper.write_results results).1)) /\
        exists rest,
          Spec.written Scraper.books_csv (Scraper.write_results results).1 =
          Spec.written Scraper.books_csv
            (take (S n) (Scraper.write_results results).1) +:+ rest) /\
     (forall fs,
        Py.apply_ops fs (Scraper.write_results results).1 !! Scraper.books_csv =
          Some (Spec.written Scraper.books_csv (Scraper.write_results results).1)) /\
     Spec.written Scraper.books_csv (Scraper.write_results results).1 =
       match results with
       | [] => "No data found" +:+ String Py.lf EmptyString
       | first :: _ =>
           Py.csv_line Scraper.crlf (Py.keys first) +:+
           Spec.written Scraper.books_csv
             (Scraper.writerows Scraper.books_csv (Py.keys first) results).1
       end) /\
  (forall data filename lines ops,
     ScrapeBooks.save_to_csv data filename = Py.Ret (lines, ops) ->
     Forall (Spec.only_on filename) ops /\
     (data <> [] ->
      (forall fs n,
         exists c rest,
           Py.apply_ops fs (take (2 + n) ops) !! filename = Some c /\
           Py.apply_ops fs ops !! filename = Some (c +:+ rest)) /\
      (forall fs,
         Py.apply_ops fs (take 2 ops) !! filename = Some EmptyString) /\
      (forall fs n,
         Py.apply_ops fs (take (2 + n) ops) !! filename =
           Some (Spec.written filename (take (2 + n) ops)) /\
         exists rest,
           ScrapeBooks.to_csv_text data =
           Spec.written filename (take (2 + n) ops) +:+ rest) /\
      (forall fs,
         Py.apply_ops fs ops !! filename = Some (ScrapeBooks.to_csv_text data)))).
Proof.
  split.
  - intros results.
    assert (Hdataset :
      Spec.written Scraper.books_csv (Scraper.write_results results).1 =
       match results with
       | [] => "No data found" +:+ String Py.lf EmptyString
       | first :: _ =>
           Py.csv_line Scraper.crlf (Py.keys first) +:+
           Spec.written Scraper.books_csv
             (Scraper.writerows Scraper.books_csv (Py.keys first) results).1
       end).
    { destruct results as [|first others]; [done|].
      unfold Scraper.write_results.
      destruct (Scraper.writerows Scraper.books_csv (Py.keys first)
                  (first :: others)) as [ops e].
      cbn [fst Spec.written]. rewrite String.eqb_refl, written_app. simpl.
      by rewrite str_app_nil_r. }
    destruct (write_results_shape results) as (tail & Hshape & Hall & _).
    rewrite Hshape in *. split; [|split; [|split; [|split; [|split]]]].
    + apply Forall_cons. split; [|by apply all_only_on].
      split; [done|]. intros p Hp. by apply list_elem_of_singleton in Hp.
    + intros fs n. by apply opened_then_in_place.
    + intros fs. simpl. apply lookup_insert_eq.
    + intros fs n. split; [by apply opened_then_written|]. apply written_take.
    + intros fs.
      change (Py.apply_ops fs (Py.OpenW Scraper.books_csv :: tail))
        with (Py.apply_ops (<[Scraper.books_csv:=EmptyString]> fs) tail).
      rewrite (apply_in_place Scraper.books_csv tail Hall
                 (<[Scraper.books_csv:=EmptyString]> fs) EmptyString);
        [done|apply lookup_insert_eq].
    + exact Hdataset.
  - intros data filename lines ops Hsave.
    destruct data as [|r data].
    { injection Hsave as <- <-. split; [constructor|done]. }
    unfold ScrapeBooks.save_to_csv, Py.makedirs in Hsave.
    destruct (Py.truthy (Py.dirname filename)); [|discriminate].
    injection Hsave as <- <-.
    assert (Hall : forallb (Spec.in_place filename)
                     [Py.WriteTo filename (ScrapeBooks.to_csv_text (r :: data));
                      Py.CloseF filename] = true).
    { simpl. by rewrite String.eqb_refl. }
    assert (Htext : Spec.written filename
                      [Py.OpenW filename;
                       Py.WriteTo filename (ScrapeBooks.to_csv_text (r :: data));
                       Py.CloseF filename] = ScrapeBooks.to_csv_text (r :: data)).
    { simpl. rewrite String.eqb_refl. apply str_app_nil_r. }
    split.
    + apply Forall_cons. split.
      { split; [done|]. intros p Hp. by apply elem_of_nil in Hp. }
      apply Forall_cons. split; [|by apply all_only_on].
      split; [done|]. intros p Hp. by apply list_elem_of_singleton in Hp.
    + intros _. split; [|split; [|split]].
      * intros fs n. apply (opened_then_in_place filename _ fs n Hall).
      * intros fs. simpl. apply lookup_insert_eq.
      * intros fs n. split.
        -- apply (opened_then_written filename _ fs n Hall).
        -- destruct (written_take filename (S n)
                    [Py.OpenW filename;
                     Py.WriteTo filename (ScrapeBooks.to_csv_text (r :: data));
                     Py.CloseF filename]) as [rest Hrest].
           exists rest. rewrite Htext in Hrest. exact Hrest.
      * intros fs.
        change (Py.apply_ops fs (?m :: Py.OpenW filename :: ?t))
          with (Py.apply_ops (<[filename:=EmptyString]> fs) t).
        rewrite (apply_in_place filename _ Hall
                   (<[filename:=EmptyString]> fs) EmptyString);
          [|apply lookup_insert_eq].
        simpl. rewrite String.eqb_refl. by rewrite str_app_nil_r.
Qed.

(** [books.csv] holds an earlier dataset; after the opening it is empty,
    which is neither the earlier dataset nor the new one. *)
Lemma write_is_not_atomic :
  exists n : nat,
    ({[ Scraper.books_csv := "title,price" ]} : gmap string string)
      !! Scraper.books_csv = Some "title,price" /\
    Py.apply_ops {[ Scraper.books_csv := "title,price" ]}
      (take n (Scraper.write_results
                 [[("title", "A Light in the Attic"); ("price", "51.77")]]).1)
      !! Scraper.books_csv = Some EmptyString /\
    Py.apply_ops {[ Scraper.books_csv := "title,price" ]}
      (Scraper.write_results
         [[("title", "A Light in the Attic"); ("price", "51.77")]]).1
      !! Scraper.books_csv =
      Some ("title,price" +:+ Scraper.crlf +:+
            "A Light in the Attic,51.77" +:+ Scraper.crlf) /\
    ~ Spec.atomic Scraper.books_csv
        {[ Scraper.books_csv := "title,price" ]}
        (Scraper.write_results
           [[("title", "A Light in the Attic"); ("price", "51.77")]]).1.
Proof.
  exists 1%nat. repeat split; try (vm_compute; reflexivity).
  intros Hatomic.
  destruct (Hatomic 1%nat) as [H|H]; vm_compute in H; discriminate H.
Qed.

Lemma header_of_the_file_witness :
  (exists ops rest,
     ScrapeBooks.save_to_csv
       (option_list (ScrapeBooks.get_book_details id (Samples.SB.only Samples.SB.light)
                       (Samples.SB.item "light/index.html")).2)
       ScrapeBooks.default_filename =
       Py.Ret ([ScrapeBooks.Saved ScrapeBooks.default_filename], ops) /\
     forall fs,
       Py.apply_ops fs ops !! ScrapeBooks.default_filename =
         Some ("title,price,rating,availability,category,image_url,book_url"
               +:+ ScrapeBooks.newline +:+ rest)) /\
  exists first,
    Scraper.book_record id Samples.join_url Samples.SC.home Samples.SC.light =
      Py.Ret first /\
    Py.csv_line Scraper.crlf (Py.keys first) =
      "title,price,stock,description,stars,img_url,category" +:+ Scraper.crlf.
Proof.
  destruct (header_of_the_file id Samples.join_url (Samples.SB.only Samples.SB.light))
    as (Hsave & _ & _ & Hkeys & _).
  split.
  - apply Hsave.
    + discriminate.
    + apply Forall_cons. split; [|constructor].
      exists (Samples.SB.item "light/index.html"). reflexivity.
    + reflexivity.
  - eexists. split; [reflexivity|].
    apply (Hkeys Samples.SC.home Samples.SC.light). reflexivity.
Defined.

(** With no record, [save_to_csv] touches no file, and the block of
    [scraper.py] writes a line that is not the header; with records, the
    columns are the keys of the records, which are not the columns of the
    specification. *)
Lemma no_record_no_header :
  ScrapeBooks.save_to_csv [] ScrapeBooks.default_filename =
    Py.Ret ([ScrapeBooks.NothingToSave], []) /\
  (forall fuel,
     ScrapeBooks.main id Samples.SB.down (S fuel) ∅ ≫=
       (fun r => ScrapeBooks.files r !! ScrapeBooks.default_filename) = None) /\
  Py.apply_ops ∅ (Scraper.write_results []).1 !! Scraper.books_csv =
    Some ("No data found" +:+ String Py.lf EmptyString) /\
  ScrapeBooks.columns
    (option_list (ScrapeBooks.get_book_details id (Samples.SB.only Samples.SB.light)
                    (Samples.SB.item "light/index.html")).2) = Spec.book_keys /\
  Spec.book_keys <> Spec.header.
Proof.
  split; [reflexivity|]. split; [intros fuel; reflexivity|].
  split; [reflexivity|]. split; [reflexivity|discriminate].
Qed.

Lemma dataset_written_in_place_witness :
  exists ops,
    ScrapeBooks.save_to_csv [[("title", "A Light in the Attic")]]
      ScrapeBooks.default_filename =
      Py.Ret ([ScrapeBooks.Saved ScrapeBooks.default_filename], ops) /\
    Forall (Spec.only_on ScrapeBooks.default_filename) ops /\
    (forall fs n,
       exists c rest,
         Py.apply_ops fs (take (2 + n) ops) !! ScrapeBooks.default_filename =
           Some c /\
         Py.apply_ops fs ops !! ScrapeBooks.default_filename =
           Some (c +:+ rest)) /\
    (forall fs,
       Py.apply_ops fs (take 2 ops) !! ScrapeBooks.default_filename =
         Some EmptyString) /\
    (forall fs n,
       Py.apply_ops fs (take (2 + n) ops) !! ScrapeBooks.default_filename =
         Some (Spec.written ScrapeBooks.default_filename (take (2 + n) ops)) /\
       exists rest,
         ScrapeBooks.to_csv_text [[("title", "A Light in the Attic")]] =
         Spec.written ScrapeBooks.default_filename (take (2 + n) ops) +:+ rest) /\
    (forall fs,
       Py.apply_ops fs ops !! ScrapeBooks.default_filename =
         Some (ScrapeBooks.to_csv_text [[("title", "A Light in the Attic")]])).
Proof.
  destruct dataset_written_in_place as [_ Hsave].
  eexists. split; [reflexivity|].
  destruct (Hsave [[("title", "A Light in the Attic")]]
              ScrapeBooks.default_filename
              [ScrapeBooks.Saved ScrapeBooks.default_filename]
              _ eq_refl) as [Honly Hrest].
  split; [exact Honly|].
  apply Hrest. discriminate.
Defined.

(** ** The books of [routes.py] *)

Section Keys.
Import Py Routes Endpoints.

Lemma key_eqb_refl (k : option string) : key_eqb k k = true.
Proof. destruct k as [s|]; simpl; [apply String.eqb_refl|done]. Qed.

Lemma key_eqb_eq (k k' : option string) : key_eqb k k' = true <-> k = k'.
Proof.
  destruct k as [s|], k' as [s'|]; simpl; try (split; [discriminate|done]).
  - rewrite String.eqb_eq. split; congruence.
  - done.
Qed.

Lemma key_eqb_neq (k k' : option string) : key_eqb k k' = false <-> k <> k'.
Proof.
  rewrite <- key_eqb_eq. destruct (key_eqb k k'); split; congruence.
Qed.

Lemma get_set_eq (k : option string) (v : value) (b : book) :
  get k (set k v b) = Some v.
Proof.
  induction b as [|[k' v'] b IH]; simpl.
  - by rewrite key_eqb_refl.
  - destruct (key_eqb k k') eqn:Hk; simpl; by rewrite ?key_eqb_refl, ?Hk.
Qed.

Lemma get_set_ne (k k' : option string) (v : value) (b : book) :
  k' <> k -> get k' (set k v b) = get k' b.
Proof.
  intros Hne. apply key_eqb_neq in Hne.
  induction b as [|[k0 v0] b IH]; simpl.
  - by rewrite Hne.
  - destruct (key_eqb k k0) eqn:Hk; simpl.
    + apply key_eqb_eq in Hk as <-. by rewrite Hne.
    + by rewrite IH.
Qed.

(** A book holds the key [None] exactly when [get] finds it. *)
Lemma has_surplus_get (b : book) :
  existsb (fun kv => key_eqb kv.1 None) b = true <-> get None b <> None.
Proof.
  induction b as [|[k v] b IH]; simpl; [split; [discriminate|done]|].
  destruct k as [s|]; simpl; [exact IH|]. split; [discriminate|done].
Qed.

Lemma has_column_set (s : string) (v : value) (b : book) :
  existsb (fun kv => negb (key_eqb kv.1 None)) (set (Some s) v b) = true.
Proof.
  induction b as [|[k v'] b IH]; [done|]. cbn [set].
  destruct (key_eqb (Some s) k); [done|].
  cbn [existsb]. rewrite IH. apply orb_true_r.
Qed.

(** A numbered book can be written as JSON exactly when its row has no
    surplus cells. *)
Lemma sortable_numbered (v : value) (row : book) :
  sortable (set (Some "id") v row) = true <-> get None row = None.
Proof.
  unfold sortable. rewrite has_column_set, andb_true_r, negb_true_iff.
  rewrite <- (get_set_ne (Some "id") None v row) by done.
  destruct (existsb (fun kv => key_eqb kv.1 None) (set (Some "id") v row)) eqn:He.
  - apply has_surplus_get in He. split; [discriminate|done].
  - split; [|done]. intros _.
    destruct (get None (set (Some "id") v row)) eqn:Hg; [|done].
    assert (Hne : get None (set (Some "id") v row) <> None) by congruence.
    apply has_surplus_get in Hne. congruence.
Qed.

Lemma load_books_from (rows : list book) : load_books rows = books_from 0 rows.
Proof.
  unfold load_books.
  assert (H : forall off,
    imap (fun idx row => set (Some "id") (VInt (Z.of_nat (off + idx) + 1)) row) rows =
    books_from off rows).
  { induction rows as [|row rows IH]; intros off; [done|].
    rewrite imap_cons. simpl. rewrite Nat.add_0_r. f_equal.
    rewrite <- IH. apply imap_ext. intros i x _. simpl.
    by rewrite Nat.add_succ_r. }
  apply (H 0%nat).
Qed.

Lemma books_from_sortable (rows : list book) (off : nat) :
  Forall (fun row => get None row = None) rows ->
  forallb sortable (books_from off rows) = true.
Proof.
  revert off. induction rows as [|row rows IH]; intros off Hall; [done|].
  apply Forall_cons in Hall as [Hrow Hall]. simpl.
  apply andb_true_iff. split; [by apply sortable_numbered|by apply IH].
Qed.

Lemma books_from_unsortable (rows : list book) (off : nat) :
  Exists (fun row => get None row <> None) rows ->
  forallb sortable (books_from off rows) = false.
Proof.
  intros Hex. revert off.
  induction Hex as [row rows Hrow|row rows Hex IH]; intros off; simpl.
  - destruct (sortable (set (Some "id") (VInt (Z.of_nat off + 1)) row)) eqn:Hs;
      [|done].
    apply sortable_numbered in Hs. done.
  - rewrite IH. apply andb_false_r.
Qed.

End Keys.

(** ** The search endpoint *)

Section Search.
Import Py Routes.
Variable lower : string -> string.

Lemma filter_books_empty (books filtered : list book) :
  filter_books lower EmptyString EmptyString books filtered =
  Ret (filtered ++ books).
Proof.
  revert filtered. induction books as [|b books IH]; intros filtered; simpl.
  - by rewrite app_nil_r.
  - rewrite IH. by rewrite <- app_assoc.
Qed.

End Search.

(** C10, as the code has it: without [title] and without [category] among
    the query parameters every loaded book matches. When no row holds surplus
    cells (no line of [books.csv] is longer than the header), [search_books]
    answers with every loaded book and status 200; when a row does,
    [jsonify] cannot sort the keys of that book and raises [TypeError]
    instead of answering. *)
Theorem search_without_parameters (lower : string -> string)
    (args : Py.dict string) (rows : list Routes.book) :
  lower EmptyString = EmptyString ->
  Py.dict_get "title" args = None ->
  Py.dict_get "category" args = None ->
  (Forall (fun row => Routes.get None row = None) rows ->
   Routes.search_books lower args rows =
     Py.Ret (Routes.load_books rows, 200%Z)) /\
  (Exists (fun row => Routes.get None row <> None) rows ->
   Routes.search_books lower args rows = Py.Raise Py.TypeError).
Proof.
  intros Hlower Htitle Hcategory.
  unfold Routes.search_books, Routes.args_get.
  rewrite Htitle, Hcategory. simpl. rewrite Hlower.
  rewrite filter_books_empty. simpl. unfold Routes.jsonify.
  rewrite load_books_from. split.
  - intros Hall. by rewrite books_from_sortable.
  - intros Hex. by rewrite books_from_unsortable.
Qed.

Lemma search_without_parameters_witness :
  Routes.search_books Samples.lower [("page", "2")]
    [[(Some "title", Py.VStr "A Light in the Attic");
      (Some "category", Py.VStr "Poetry")];
     [(Some "title", Py.VStr "Tipping the Velvet"); (Some "category", Py.VNone)]] =
    Py.Ret
      ([[(Some "title", Py.VStr "A Light in the Attic");
         (Some "category", Py.VStr "Poetry"); (Some "id", Py.VInt 1)];
        [(Some "title", Py.VStr "Tipping the Velvet"); (Some "category", Py.VNone);
         (Some "id", Py.VInt 2)]], 200%Z) /\
  Routes.search_books Samples.lower [("page", "2")]
    [[(Some "title", Py.VStr "A Light in the Attic");
      (Some "category", Py.VStr "Poetry"); (None, Py.VList ["1999"])]] =
    Py.Raise Py.TypeError.
Proof.
  split.
  - apply (search_without_parameters Samples.lower [("page", "2")]);
      try reflexivity.
    repeat constructor.
  - apply (search_without_parameters Samples.lower [("page", "2")]);
      try reflexivity.
    left. discriminate.
Defined.

(** A line of [books.csv] with one cell more than the header: the book holds
    the surplus cell under the key [None], and the search without parameters
    ends on the [TypeError] of [jsonify] instead of answering 200. *)
Lemma search_fails_on_surplus_cells :
  Routes.load_books
    [[(Some "title", Py.VStr "A Light in the Attic");
      (Some "category", Py.VStr "Poetry"); (None, Py.VList ["1999"])]] =
    [[(Some "title", Py.VStr "A Light in the Attic");
      (Some "category", Py.VStr "Poetry"); (None, Py.VList ["1999"]);
      (Some "id", Py.VInt 1)]] /\
  Routes.search_books Samples.lower []
    [[(Some "title", Py.VStr "A Light in the Attic");
      (Some "category", Py.VStr "Poetry"); (None, Py.VList ["1999"])]] =
    Py.Raise Py.TypeError.
Proof. split; reflexivity. Qed.

(** ** The fields on sample pages *)

Lemma price_kept_as_text_witness :
  (exists r status soup text,
     (ScrapeBooks.get_book_details id (Samples.SB.only Samples.SB.light)
        (Samples.SB.item "light/index.html")).2 = Some r /\
     Samples.SB.only Samples.SB.light (Samples.SB.item "light/index.html") =
       Py.Reply status soup /\
     ScrapeBooks.p_price_color soup = Some text /\
     Spec.stored "price" r = Some (Py.VStr text)) /\
  (exists r text,
     Scraper.book_record id Samples.join_url Samples.SC.home Samples.SC.light =
       Py.Ret r /\
     Scraper.price_color Samples.SC.light = Some text /\
     Spec.stored "price" r = Some (Py.VStr text)).
Proof.
  destruct (price_kept_as_text id Samples.join_url (Samples.SB.only Samples.SB.light)
              (Samples.SB.item "light/index.html")) as [H1 _].
  destruct (price_kept_as_text id Samples.join_url (Samples.SB.only Samples.SB.light)
              Samples.SC.home) as [_ H2].
  split.
  - eexists. destruct (H1 _ eq_refl) as (status & soup & text & H).
    exists status, soup, text. split; [reflexivity|exact H].
  - eexists. destruct (H2 Samples.SC.light _ eq_refl) as (text & H).
    exists text. split; [reflexivity|exact H].
Defined.

(** The price element reads as the pound sign followed by 51.77; the record
    holds that text, not the number 51.77. *)
Lemma price_is_not_a_number :
  exists r,
    (ScrapeBooks.get_book_details id (Samples.SB.only Samples.SB.light)
       (Samples.SB.item "light/index.html")).2 = Some r /\
    ScrapeBooks.p_price_color Samples.SB.light =
      Some (Samples.pound +:+ "51" +:+ "." +:+ "77") /\
    Spec.stored "price" r = Some (Py.VStr (Samples.pound +:+ "51.77")) /\
    Spec.stored "price" r <> Some (Py.VDec 5177 2).
Proof. eexists. repeat split; [reflexivity..|discriminate]. Qed.

Lemma rating_kept_as_text_witness :
  (exists r status soup classes token,
     (ScrapeBooks.get_book_details id (Samples.SB.only Samples.SB.light)
        (Samples.SB.item "light/index.html")).2 = Some r /\
     Samples.SB.only Samples.SB.light (Samples.SB.item "light/index.html") =
       Py.Reply status soup /\
     ScrapeBooks.p_star_rating soup = Some classes /\
     classes !! 1%nat = Some token /\
     Spec.stored "rating" r = Some (Py.VStr (token +:+ " de 5 estrelas"))) /\
  (ScrapeBooks.get_book_details id (Samples.SB.only Samples.SB.blank)
     (Samples.SB.item "light/index.html")).2 = None /\
  (exists r classes token,
     Scraper.book_record id Samples.join_url Samples.SC.home Samples.SC.light =
       Py.Ret r /\
     Scraper.star_rating Samples.SC.light = Some classes /\
     classes !! 1%nat = Some token /\
     Spec.stored "stars" r = Some (Py.VStr token)).
Proof.
  destruct (rating_kept_as_text id Samples.join_url (Samples.SB.only Samples.SB.light)
              (Samples.SB.item "light/index.html")) as (H1 & _ & _).
  destruct (rating_kept_as_text id Samples.join_url (Samples.SB.only Samples.SB.blank)
              (Samples.SB.item "light/index.html")) as (_ & H2 & _).
  destruct (rating_kept_as_text id Samples.join_url (Samples.SB.only Samples.SB.light)
              Samples.SC.home) as (_ & _ & H3).
  split; [|split].
  - eexists. destruct (H1 _ eq_refl) as (status & soup & classes & token & H).
    exists status, soup, classes, token. split; [reflexivity|exact H].
  - apply (H2 200%Z Samples.SB.blank); reflexivity.
  - eexists. destruct (H3 Samples.SC.light _ eq_refl) as (classes & token & H).
    exists classes, token. split; [reflexivity|exact H].
Defined.

(** The token is "Three"; the records hold texts, not the integer 3. *)
Lemma rating_is_not_an_integer :
  exists r r',
    (ScrapeBooks.get_book_details id (Samples.SB.only Samples.SB.light)
       (Samples.SB.item "light/index.html")).2 = Some r /\
    ScrapeBooks.p_star_rating Samples.SB.light = Some ["star-rating"; "Three"] /\
    Spec.stored "rating" r = Some (Py.VStr "Three de 5 estrelas") /\
    Spec.stored "rating" r <> Some (Spec.rating_of_token "Three") /\
    Scraper.book_record id Samples.join_url Samples.SC.home Samples.SC.light =
      Py.Ret r' /\
    Spec.stored "stars" r' = Some (Py.VStr "Three") /\
    Spec.stored "stars" r' <> Some (Spec.rating_of_token "Three").
Proof. do 2 eexists. repeat split; try reflexivity; discriminate. Qed.

Lemma category_from_breadcrumb_witness :
  (exists r,
     Scraper.book_record id Samples.join_url Samples.SC.home Samples.SC.velvet =
       Py.Ret r /\
     Py.dict_get "category" r =
       Some (Spec.leaf (Scraper.breadcrumb_a Samples.SC.velvet))) /\
  (exists r status soup anchors third,
     (ScrapeBooks.get_book_details id (Samples.SB.only Samples.SB.velvet)
        (Samples.SB.item "velvet/index.html")).2 = Some r /\
     Samples.SB.only Samples.SB.velvet (Samples.SB.item "velvet/index.html") =
       Py.Reply status soup /\
     ScrapeBooks.ul_breadcrumb soup = Some anchors /\
     anchors !! 2%nat = Some third /\
     Py.dict_get "category" r = Some third) /\
  (ScrapeBooks.get_book_details id (Samples.SB.only Samples.SB.short_crumbs)
     (Samples.SB.item "velvet/index.html")).2 = None.
Proof.
  destruct (category_from_breadcrumb id Samples.join_url
              (Samples.SB.only Samples.SB.velvet) Samples.SC.home) as (H1 & _ & _).
  destruct (category_from_breadcrumb id Samples.join_url
              (Samples.SB.only Samples.SB.velvet)
              (Samples.SB.item "velvet/index.html")) as (_ & H2 & _).
  destruct (category_from_breadcrumb id Samples.join_url
              (Samples.SB.only Samples.SB.short_crumbs)
              (Samples.SB.item "velvet/index.html")) as (_ & _ & H3).
  split; [|split].
  - eexists. split; [reflexivity|]. apply H1. reflexivity.
  - eexists. destruct (H2 _ eq_refl) as (status & soup & anchors & third & H).
    exists status, soup, anchors, third. split; [reflexivity|exact H].
  - apply (H3 200%Z Samples.SB.short_crumbs ["Home"; "Books"]);
      [reflexivity|reflexivity|simpl; lia].
Defined.

(** A breadcrumb of four entries: [get_book_details] gives the third, not the
    last; with two entries it gives no record rather than an empty category. *)
Lemma category_is_third_entry :
  exists r,
    (ScrapeBooks.get_book_details id (Samples.SB.only Samples.SB.velvet)
       (Samples.SB.item "velvet/index.html")).2 = Some r /\
    ScrapeBooks.ul_breadcrumb Samples.SB.velvet =
      Some ["Home"; "Books"; "Historical Fiction"; "Tipping the Velvet"] /\
    Py.dict_get "category" r = Some "Historical Fiction" /\
    Py.dict_get "category" r <>
      Some (Spec.leaf ["Home"; "Books"; "Historical Fiction"; "Tipping the Velvet"]) /\
    (ScrapeBooks.get_book_details id (Samples.SB.only Samples.SB.short_crumbs)
       (Samples.SB.item "velvet/index.html")).2 = None.
Proof. eexists. repeat split; try reflexivity. discriminate. Qed.

Lemma image_url_of_book_witness :
  (exists r,
     Scraper.book_record id Samples.join_url Samples.SC.home Samples.SC.light =
       Py.Ret r /\
     Py.dict_get "img_url" r = Some (Samples.join_url Samples.SC.home "light.jpg")) /\
  (exists r,
     Scraper.book_record id Samples.join_url Samples.SC.home Samples.SC.velvet =
       Py.Ret r /\
     Py.dict_get "img_url" r = Some EmptyString) /\
  (exists r status soup src,
     (ScrapeBooks.get_book_details id (Samples.SB.only Samples.SB.light)
        (Samples.SB.item "light/index.html")).2 = Some r /\
     Samples.SB.only Samples.SB.light (Samples.SB.item "light/index.html") =
       Py.Reply status soup /\
     ScrapeBooks.div_item_active soup = Some (Some (Some src)) /\
     Py.dict_get "image_url" r =
       Some ("https://books.toscrape.com/" +:+ Py.replace "../../" "" src)) /\
  (ScrapeBooks.get_book_details id (Samples.SB.only Samples.SB.no_image)
     (Samples.SB.item "light/index.html")).2 = None.
Proof.
  destruct (image_url_of_book id Samples.join_url
              (Samples.SB.only Samples.SB.light) Samples.SC.home) as (H1 & H2 & _ & _).
  destruct (image_url_of_book id Samples.join_url
              (Samples.SB.only Samples.SB.light)
              (Samples.SB.item "light/index.html")) as (_ & _ & H3 & _).
  destruct (image_url_of_book id Samples.join_url
              (Samples.SB.only Samples.SB.no_image)
              (Samples.SB.item "light/index.html")) as (_ & _ & _ & H4).
  split; [|split; [|split]].
  - eexists. split; [reflexivity|]. apply (H1 Samples.SC.light). reflexivity.
  - apply (H2 Samples.SC.velvet "Tipping the Velvet" (Samples.pound +:+ "53.74")
             "In stock (22 available)" ["star-rating"; "One"] "One");
      reflexivity.
  - eexists. destruct (H3 _ eq_refl) as (status & soup & src & H).
    exists status, soup, src. split; [reflexivity|exact H].
  - apply (H4 200%Z Samples.SB.no_image); reflexivity.
Defined.

(** A page without gallery image gives no record from [get_book_details];
    and the image URL it builds for a page that has one does not depend on
    the URL of the page. *)
Lemma image_url_not_resolved :
  (ScrapeBooks.get_book_details id (Samples.SB.only Samples.SB.no_image)
     (Samples.SB.item "light/index.html")).2 = None /\
  (forall book_url,
     (ScrapeBooks.get_book_details id (Samples.SB.only Samples.SB.velvet) book_url).2
       ≫= Py.dict_get "image_url" = Some "https://books.toscrape.com/cover.jpg").
Proof. split; [reflexivity|intros book_url; reflexivity]. Qed.

(** * Further properties *)

(** ** Loops with an invariant *)

Section Invariants.
Import Py.
Context {S R : Type} (body : S -> turn S R).

Lemma while_invariant (inv : S -> Prop) (post : R -> Prop) :
  (forall s s', inv s -> body s = Continue s' -> inv s') ->
  (forall s r, inv s -> body s = Break r -> post r) ->
  forall fuel s r, inv s -> while body fuel s = Done r -> post r.
Proof.
  intros Hstep Hend fuel. induction fuel as [|fuel IH]; intros s r Hinv H; simpl in H.
  - discriminate.
  - destruct (body s) as [s'| r' |e] eqn:Hb.
    + eapply IH; [|exact H]. eauto.
    + injection H as <-. eauto.
    + discriminate.
Qed.

End Invariants.

(** ** [scrape_books.py]: walks that end *)

Section LinkedPages.
Import Py ScrapeBooks.
Variable strip : string -> string.
Variable web : site soup.

Lemma truthy_catalogue_url (href : string) : truthy (base_url +:+ href) = true.
Proof. reflexivity. Qed.

(** One turn at a page of a chain. *)
Lemma turn_of_linked (st : state) (url : string) (rest : list string) :
  Listing.linked web url rest ->
  current_page_url st = Some url -> truthy url = true ->
  exists st',
    turn_of strip web st = Continue st' /\
    all_books_data st' = all_books_data st ++ Listing.page_records strip web url /\
    current_page_url st' = head rest.
Proof.
  intros Hlinked Hurl Htruthy.
  destruct rest as [|next rest]; simpl in Hlinked;
    destruct (web url) as [|status doc] eqn:Hweb; try done;
    destruct Hlinked as (Hst & [links Hlinks] & Hnext).
  - destruct (listing_page_total strip web url (printed st ++ [Collecting url])
                (all_books_data st) status doc links) as [st' Hpage]; eauto.
    exists st'. unfold turn_of. rewrite Hurl, Htruthy, Hpage.
    destruct (listing_page_Ret _ _ _ _ _ _ Hpage)
      as (status' & doc' & links' & Hweb' & _ & Hlinks' & _ & Hdata & Hn).
    rewrite Hweb in Hweb'. injection Hweb' as <- <-.
    rewrite Hlinks in Hlinks'. injection Hlinks' as <-.
    unfold Listing.page_records. rewrite Hweb, Hlinks.
    repeat split; [done|].
    destruct Hn as [[_ ->]|(href & Hn & _)]; [done|congruence].
  - destruct Hnext as [(href & Hnext & ->) _].
    destruct (listing_page_total strip web url (printed st ++ [Collecting url])
                (all_books_data st) status doc links) as [st' Hpage]; eauto.
    exists st'. unfold turn_of. rewrite Hurl, Htruthy, Hpage.
    destruct (listing_page_Ret _ _ _ _ _ _ Hpage)
      as (status' & doc' & links' & Hweb' & _ & Hlinks' & _ & Hdata & Hn).
    rewrite Hweb in Hweb'. injection Hweb' as <- <-.
    rewrite Hlinks in Hlinks'. injection Hlinks' as <-.
    unfold Listing.page_records. rewrite Hweb, Hlinks.
    repeat split; [done|].
    destruct Hn as [[Hn _]|(href' & Hn & ->)]; [congruence|].
    rewrite Hnext in Hn. by injection Hn as <-.
Qed.

Lemma while_linked (rest : list string) :
  forall (st : state) (url : string) (fuel : nat),
    Listing.linked web url rest ->
    current_page_url st = Some url -> truthy url = true ->
    (2 + length rest <= fuel)%nat ->
    exists lines,
      while (turn_of strip web) fuel st =
        Done (lines, all_books_data st ++
                     flat_map (Listing.page_records strip web) (url :: rest)).
Proof.
  induction rest as [|next rest IH]; intros st url fuel Hlinked Hurl Htruthy Hfuel.
  - destruct (turn_of_linked st url [] Hlinked Hurl Htruthy)
      as (st' & Hturn & Hdata & Hnone).
    destruct fuel as [|[|fuel]]; [simpl in Hfuel; lia..|].
    exists (printed st'). simpl. rewrite Hturn.
    unfold turn_of at 1. simpl in Hnone. rewrite Hnone, Hdata.
    by rewrite app_nil_r.
  - destruct (turn_of_linked st url (next :: rest) Hlinked Hurl Htruthy)
      as (st' & Hturn & Hdata & Hnext).
    simpl in Hlinked. destruct (web url) as [|status doc]; [done|].
    destruct Hlinked as (_ & _ & (href & _ & Hhref) & Hlinked).
    destruct fuel as [|fuel]; [simpl in Hfuel; lia|].
    destruct (IH st' next fuel Hlinked Hnext) as [lines Hwhile].
    { rewrite Hhref. apply truthy_catalogue_url. }
    { simpl in *. lia. }
    exists lines. simpl. rewrite Hturn, Hwhile, Hdata.
    by rewrite <- app_assoc.
Qed.

End LinkedPages.

(** X1. A walk over a chain of listing pages ends: when the first page is
    linked through "next" links to the pages [rest], the last of which has no
    "next" link, [scrape_all_books] returns, with any fuel above the number of
    pages, the records of the pages in the order of the chain. *)
Theorem walk_over_linked_pages (strip : string -> string)
    (web : Py.site ScrapeBooks.soup) (rest : list string) (fuel : nat) :
  Listing.linked web ScrapeBooks.first_page rest ->
  (2 + length rest <= fuel)%nat ->
  exists lines,
    ScrapeBooks.scrape_all_books strip web fuel =
      Py.Done (lines,
               flat_map (Listing.page_records strip web)
                 (ScrapeBooks.first_page :: rest)).
Proof.
  intros Hlinked Hfuel.
  destruct (while_linked strip web rest ScrapeBooks.start ScrapeBooks.first_page
              fuel Hlinked eq_refl eq_refl Hfuel) as [lines H].
  exists lines. exact H.
Qed.

Lemma walk_over_linked_pages_witness :
  exists lines,
    ScrapeBooks.scrape_all_books id Listing.three_pages 4 =
      Py.Done (lines,
               flat_map (Listing.page_records id Listing.three_pages)
                 [ScrapeBooks.first_page;
                  ScrapeBooks.base_url +:+ "page-2.html";
                  ScrapeBooks.base_url +:+ "page-3.html"]).
Proof.
  apply (walk_over_linked_pages id Listing.three_pages
           [ScrapeBooks.base_url +:+ "page-2.html";
            ScrapeBooks.base_url +:+ "page-3.html"] 4).
  - simpl. repeat split; eauto.
  - simpl. lia.
Defined.

(** ** [scrape_books.py]: what a walk returns *)

Section Provenance.
Import Py ScrapeBooks.
Variable strip : string -> string.
Variable web : site soup.

Lemma book_links_catalogue (anchors : list (option string)) (links : list string) :
  book_links anchors = Ret links ->
  Forall (fun l => exists href, l = base_url +:+ href) links.
Proof.
  revert links. induction anchors as [|a anchors IH]; intros links H; simpl in H.
  - injection H as <-. constructor.
  - res_steps H. injection H as <-. constructor; eauto.
Qed.

Lemma book_url_of_details (link : string) (r : record) :
  (get_book_details strip web link).2 = Some r ->
  dict_get "book_url" r = Some link.
Proof.
  intros Hr. apply get_book_details_Some, book_details_Ret in Hr.
  destruct Hr as (? & ? & ? & ? & ? & ? & ? & ? & ? & ? & Hr).
  destruct Hr as (_ & _ & _ & _ & _ & _ & _ & _ & _ & _ & ->). done.
Qed.

Lemma turn_of_from_catalogue (st st' : state) :
  Forall (Listing.from_catalogue strip web) (all_books_data st) ->
  turn_of strip web st = Continue st' ->
  Forall (Listing.from_catalogue strip web) (all_books_data st').
Proof.
  intros Hinv Hturn. unfold turn_of in Hturn.
  destruct (current_page_url st) as [url|]; [|discriminate].
  destruct (truthy url); [|discriminate].
  destruct (listing_page strip web url (printed st ++ [Collecting url])
              (all_books_data st)) as [st1|e] eqn:Hpage.
  - injection Hturn as <-.
    destruct (listing_page_Ret _ _ _ _ _ _ Hpage)
      as (status & doc & links & _ & _ & Hlinks & _ & -> & _).
    apply Forall_app. split; [done|].
    apply book_links_catalogue in Hlinks.
    apply Forall_forall. intros r Hr.
    apply list_elem_of_omap in Hr as (l & Hl & Hr).
    rewrite Forall_forall in Hlinks. destruct (Hlinks l Hl) as [href ->].
    exists href. split; [done|]. by apply book_url_of_details.
  - destruct (is_RequestException e); discriminate.
Qed.

Lemma turn_of_Break_data (st : state) (lines : list msg) (data : list record) :
  turn_of strip web st = Break (lines, data) -> data = all_books_data st.
Proof.
  unfold turn_of.
  destruct (current_page_url st) as [url|]; [|congruence].
  destruct (truthy url); [|congruence].
  destruct (listing_page strip web url _ _) as [st1|e]; [discriminate|].
  destruct (is_RequestException e); congruence.
Qed.

Lemma walk_from_catalogue (fuel : nat) (lines : list msg) (data : list record) :
  scrape_all_books strip web fuel = Done (lines, data) ->
  Forall (Listing.from_catalogue strip web) data.
Proof.
  intros H.
  apply (while_invariant (turn_of strip web)
           (fun st => Forall (Listing.from_catalogue strip web) (all_books_data st))
           (fun r => Forall (Listing.from_catalogue strip web) r.2)
           turn_of_from_catalogue) with (r := (lines, data)) in H.
  - exact H.
  - intros s [lines' data'] Hinv Hb. apply turn_of_Break_data in Hb. by subst.
  - constructor.
Qed.

End Provenance.

(** X2. Whatever the site, every record that [scrape_all_books] returns is
    the record [get_book_details] gives for a link of the catalogue base, and
    carries that link as its [book_url]. *)
Theorem walk_records_from_catalogue (strip : string -> string)
    (web : Py.site ScrapeBooks.soup) (fuel : nat)
    (lines : list ScrapeBooks.msg) (data : list ScrapeBooks.record) :
  ScrapeBooks.scrape_all_books strip web fuel = Py.Done (lines, data) ->
  Forall (Listing.from_catalogue strip web) data.
Proof. apply walk_from_catalogue. Qed.

Lemma walk_records_from_catalogue_witness :
  Forall (Listing.from_catalogue id Samples.SB.shop)
    (omap (fun l => (ScrapeBooks.get_book_details id Samples.SB.shop l).2)
       (map Samples.SB.item
          ["light/index.html"; "gone/index.html"; "velvet/index.html"])).
Proof.
  apply (walk_records_from_catalogue id Samples.SB.shop 2
           [ScrapeBooks.Collecting ScrapeBooks.first_page;
            ScrapeBooks.AccessError (Samples.SB.item "gone/index.html")
              (Py.HTTPError 404)]).
  reflexivity.
Defined.

(** X3. The script from end to end: when the walk ends with at least one
    record, the script ends with status 0, the dataset file starts with the
    row title,price,rating,availability,category,image_url,book_url, holds
    the text of [to_csv], and no other path is touched; when the walk ends
    without record, the files are left as they were. *)
Theorem main_writes_the_dataset (strip : string -> string)
    (web : Py.site ScrapeBooks.soup) (fuel : nat) (fs : gmap string string)
    (lines : list ScrapeBooks.msg) (data : list ScrapeBooks.record) :
  ScrapeBooks.scrape_all_books strip web fuel = Py.Done (lines, data) ->
  exists run,
    ScrapeBooks.main strip web fuel fs = Some run /\
    ScrapeBooks.exit_code run = 0%Z /\
    (data = [] -> ScrapeBooks.files run = fs) /\
    (data <> [] ->
     ScrapeBooks.files run =
       <[ScrapeBooks.default_filename := ScrapeBooks.to_csv_text data]> fs /\
     exists rest,
       ScrapeBooks.to_csv_text data =
         "title,price,rating,availability,category,image_url,book_url"
         +:+ ScrapeBooks.newline +:+ rest).
Proof.
  intros Hwalk. unfold ScrapeBooks.main. rewrite Hwalk.
  destruct data as [|r data]; [eexists; repeat split; done|].
  eexists. split; [reflexivity|]. split; [done|]. split; [done|].
  intros _. split.
  - cbn [ScrapeBooks.files Py.apply_ops foldl Py.apply_op app].
    rewrite lookup_insert_eq. cbn [default]. by rewrite insert_insert_eq.
  - assert (Hcols : ScrapeBooks.columns (r :: data) = Spec.book_keys).
    { apply columns_of_books; [done|].
      eapply Forall_impl; [exact (walk_from_catalogue _ _ _ _ _ Hwalk)|].
      intros r' (href & Hr' & _). by apply (keys_of_book strip web _ _ Hr'). }
    exists (String.concat EmptyString
      (map (fun r' => Py.csv_line ScrapeBooks.newline
              (ScrapeBooks.cells Spec.book_keys r')) (r :: data))).
    unfold ScrapeBooks.to_csv_text. rewrite Hcols. reflexivity.
Qed.

Lemma main_writes_the_dataset_witness :
  exists run,
    ScrapeBooks.main id Samples.SB.shop 2 ∅ = Some run /\
    ScrapeBooks.exit_code run = 0%Z /\
    (omap (fun l => (ScrapeBooks.get_book_details id Samples.SB.shop l).2)
       (map Samples.SB.item
          ["light/index.html"; "gone/index.html"; "velvet/index.html"]) = [] ->
     ScrapeBooks.files run = ∅) /\
    (omap (fun l => (ScrapeBooks.get_book_details id Samples.SB.shop l).2)
       (map Samples.SB.item
          ["light/index.html"; "gone/index.html"; "velvet/index.html"]) <> [] ->
     ScrapeBooks.files run =
       <[ScrapeBooks.default_filename :=
           ScrapeBooks.to_csv_text
             (omap (fun l => (ScrapeBooks.get_book_details id Samples.SB.shop l).2)
                (map Samples.SB.item
                   ["light/index.html"; "gone/index.html"; "velvet/index.html"]))]> ∅ /\
     exists rest,
       ScrapeBooks.to_csv_text
         (omap (fun l => (ScrapeBooks.get_book_details id Samples.SB.shop l).2)
            (map Samples.SB.item
               ["light/index.html"; "gone/index.html"; "velvet/index.html"])) =
         "title,price,rating,availability,category,image_url,book_url"
         +:+ ScrapeBooks.newline +:+ rest).
Proof.
  apply (main_writes_the_dataset id Samples.SB.shop 2 ∅
           [ScrapeBooks.Collecting ScrapeBooks.first_page;
            ScrapeBooks.AccessError (Samples.SB.item "gone/index.html")
              (Py.HTTPError 404)]).
  reflexivity.
Defined.

(** ** [scrape_books.py]: when a book gives a record *)

Section Details.
Import Py ScrapeBooks.
Variable strip : string -> string.
Variable web : site soup.

Lemma request_failure_of_details (link : string) (e : exn) :
  book_details strip web link = Raise e -> is_RequestException e = true ->
  Spec.fetch_fails web link e.
Proof.
  unfold book_details, requests_get, raise_for_status, Spec.fetch_fails.
  intros H He. destruct (web link) as [|status doc].
  - left. simpl in H. by injection H as <-.
  - right. exists status, doc. simpl in H.
    destruct (failure_status status).
    + simpl in H. by injection H as <-.
    + exfalso. unfold attr, subscript, index, tag_attr in H. simpl in H.
      repeat (case_match; simplify_eq/=); discriminate.
Qed.

End Details.

(** X4. [get_book_details] prints the line "Erro ao acessar" exactly when the
    fetch of the page fails, by the transport or by a failure status, and it
    then gives no record. When the page is fetched with a status that is no
    failure, it either gives a record and prints nothing, or gives no record
    and prints the line "Erro ao processar dados", with an exception that is
    no request exception. *)
Theorem access_error_iff_fetch_fails (strip : string -> string)
    (web : Py.site ScrapeBooks.soup) (link : string) :
  (forall e,
     ScrapeBooks.get_book_details strip web link =
       ([ScrapeBooks.AccessError link e], None) <->
     Spec.fetch_fails web link e) /\
  (forall status doc,
     web link = Py.Reply status doc -> Py.failure_status status = false ->
     (exists r, ScrapeBooks.get_book_details strip web link = ([], Some r)) \/
     (exists e,
        Py.is_RequestException e = false /\
        ScrapeBooks.get_book_details strip web link =
          ([ScrapeBooks.ProcessError link e], None))).
Proof.
  split.
  - intros e. split; [|apply failed_item].
    unfold ScrapeBooks.get_book_details. intros H.
    destruct (ScrapeBooks.book_details strip web link) as [r|e'] eqn:Hd;
      [discriminate|].
    destruct (Py.is_RequestException e') eqn:He'; [|discriminate].
    injection H as <-. by apply (request_failure_of_details strip).
  - intros status doc Hweb Hst. unfold ScrapeBooks.get_book_details.
    destruct (ScrapeBooks.book_details strip web link) as [r|e] eqn:Hd.
    + left. by exists r.
    + right. exists e. destruct (Py.is_RequestException e) eqn:He; [|done].
      exfalso.
      destruct (request_failure_of_details strip web link e Hd He)
        as [[Hno _]|(status' & doc' & Hweb' & Hst' & _)]; [congruence|].
      rewrite Hweb in Hweb'. injection Hweb' as <- <-. congruence.
Qed.

Lemma access_error_iff_fetch_fails_witness :
  (exists r,
     ScrapeBooks.get_book_details id (Samples.SB.only Samples.SB.short_crumbs)
       (Samples.SB.item "light/index.html") = ([], Some r)) \/
  (exists e,
     Py.is_RequestException e = false /\
     ScrapeBooks.get_book_details id (Samples.SB.only Samples.SB.short_crumbs)
       (Samples.SB.item "light/index.html") =
       ([ScrapeBooks.ProcessError (Samples.SB.item "light/index.html") e], None)).
Proof.
  apply (access_error_iff_fetch_fails id (Samples.SB.only Samples.SB.short_crumbs)
           (Samples.SB.item "light/index.html")) with 200%Z Samples.SB.short_crumbs;
    reflexivity.
Defined.

(** X5. [get_book_details] gives a record exactly when the page is fetched
    with a status that is no failure and holds a heading, a price, a rating
    indicator of at least two class tokens, a stock text, a breadcrumb of at
    least three anchors and a gallery image with a [src]; the record is then
    made of these seven values. *)
Theorem record_iff_page_complete (strip : string -> string)
    (web : Py.site ScrapeBooks.soup) (link : string) (r : ScrapeBooks.record) :
  (ScrapeBooks.get_book_details strip web link).2 = Some r <->
  exists status soup title price classes token text anchors category src,
    web link = Py.Reply status soup /\ Py.failure_status status = false /\
    ScrapeBooks.h1 soup = Some title /\
    ScrapeBooks.p_price_color soup = Some price /\
    ScrapeBooks.p_star_rating soup = Some classes /\ classes !! 1%nat = Some token /\
    ScrapeBooks.p_instock_availability soup = Some text /\
    ScrapeBooks.ul_breadcrumb soup = Some anchors /\ anchors !! 2%nat = Some category /\
    ScrapeBooks.div_item_active soup = Some (Some (Some src)) /\
    r = [("title", title); ("price", price);
         ("rating", token +:+ " de 5 estrelas");
         ("availability", strip text); ("category", category);
         ("image_url", "https://books.toscrape.com/" +:+ Py.replace "../../" "" src);
         ("book_url", link)].
Proof.
  split.
  - intros Hr. by apply book_details_Ret, get_book_details_Some.
  - intros (status & soup & title & price & classes & token & text & anchors &
            category & src & Hweb & Hst & Ht & Hp & Hs & Hc & Ha & Hb & Hcat & Hi & ->).
    unfold ScrapeBooks.get_book_details, ScrapeBooks.book_details,
      Py.requests_get, Py.raise_for_status, Py.index.
    rewrite Hweb. simpl. rewrite Hst. simpl.
    rewrite Ht, Hp, Hs. simpl. rewrite Hc. simpl.
    rewrite Ha, Hb. simpl. rewrite Hcat. simpl. rewrite Hi. reflexivity.
Qed.

(** ** [str.replace] *)

Section Replace.
Import Py.

Lemma prefix_app (old rest : string) : String.prefix old (old +:+ rest) = true.
Proof.
  induction old as [|c old IH]; [by destruct rest|].
  change (String c old +:+ rest) with (String c (old +:+ rest)). simpl.
  by destruct (ascii_dec c c).
Qed.

Lemma drop_str_app (old rest : string) :
  drop_str (String.length old) (old +:+ rest) = rest.
Proof.
  induction old as [|c old IH]; [by destruct rest|].
  change (String c old +:+ rest) with (String c (old +:+ rest)). by simpl.
Qed.

Lemma length_str_app (s1 s2 : string) :
  String.length (s1 +:+ s2) = (String.length s1 + String.length s2)%nat.
Proof.
  induction s1 as [|c s1 IH]; [done|].
  change (String c s1 +:+ s2) with (String c (s1 +:+ s2)). simpl. by rewrite IH.
Qed.

(** A text without the pattern is left as it is. *)
Lemma replace_go_absent (old new : string) (fuel : nat) (s : string) :
  contains old s = false -> replace_go fuel old new s = s.
Proof.
  revert s. induction fuel as [|fuel IH]; intros s Hs; [done|].
  cbn [replace_go].
  destruct s as [|c s]; cbn [contains] in Hs;
    apply orb_false_iff in Hs as [Hp Hs]; rewrite Hp; [done|].
  by rewrite IH.
Qed.

Lemma replace_leading (old new rest : string) :
  contains old rest = false ->
  replace old new (old +:+ rest) = new +:+ rest.
Proof.
  intros Hrest. unfold replace. rewrite length_str_app.
  destruct (String.length old + String.length rest)%nat as [|n] eqn:Hn.
  { destruct old; [|discriminate]. destruct rest; simpl in Hrest; discriminate. }
  cbn [replace_go].
  rewrite prefix_app, drop_str_app. by rewrite replace_go_absent.
Qed.

End Replace.

(** X6. For a gallery image whose [src] climbs two directories, "../../"
    followed by a path that has no further "../../", the [image_url] of
    [get_book_details] is that path under "https://books.toscrape.com/". *)
Theorem image_url_of_relative_src (strip : string -> string)
    (web : Py.site ScrapeBooks.soup) (link : string) (r : ScrapeBooks.record)
    (status : Z) (soup : ScrapeBooks.soup) (path : string) :
  (ScrapeBooks.get_book_details strip web link).2 = Some r ->
  web link = Py.Reply status soup ->
  ScrapeBooks.div_item_active soup = Some (Some (Some ("../../" +:+ path))) ->
  Py.contains "../../" path = false ->
  Py.dict_get "image_url" r = Some ("https://books.toscrape.com/" +:+ path).
Proof.
  intros Hr Hweb Hsrc Hpath.
  apply get_book_details_Some, book_details_Ret in Hr.
  destruct Hr as (status' & soup' & title & price & classes & token & text &
                  anchors & category & src & Hweb' & _ & _ & _ & _ & _ & _ & _ & _ & Hi & ->).
  rewrite Hweb in Hweb'. injection Hweb' as <- <-.
  rewrite Hsrc in Hi. injection Hi as <-.
  by rewrite replace_leading.
Qed.

Lemma image_url_of_relative_src_witness :
  exists r,
    (ScrapeBooks.get_book_details id (Samples.SB.only Samples.SB.light)
       (Samples.SB.item "light/index.html")).2 = Some r /\
    Py.dict_get "image_url" r =
      Some ("https://books.toscrape.com/" +:+ "media/cache/fe/72/light.jpg").
Proof.
  eexists. split; [reflexivity|].
  apply (image_url_of_relative_src id (Samples.SB.only Samples.SB.light)
           (Samples.SB.item "light/index.html") _ 200 Samples.SB.light
           "media/cache/fe/72/light.jpg"); reflexivity.
Defined.

(** ** [scraper.py]: the run as a whole *)

Section ScraperRun.
Import Py Scraper.
Variable strip : string -> string.
Variable urljoin : string -> string -> string.
Variable web : site soup.

Lemma for_books_keys (url : string) (pods : list pod) :
  forall acc acc',
    Forall (fun r : record => keys r = Spec.scraper_keys) acc.2 ->
    for_books strip urljoin web url acc pods = Ret acc' ->
    Forall (fun r : record => keys r = Spec.scraper_keys) acc'.2.
Proof.
  induction pods as [|book pods IH]; intros acc acc' Hacc H; simpl in H.
  - by injection H as <-.
  - res_steps H. apply (IH a acc'); [|done].
    unfold book_turn in Hstep. res_steps Hstep. injection Hstep as <-. simpl.
    apply Forall_app. split; [done|]. apply Forall_singleton.
    by apply (keys_of_record strip urljoin _ _ _ Hstep4).
Qed.

Lemma turn_of_keys (st st' : state) :
  Forall (fun r : record => keys r = Spec.scraper_keys) (books st) ->
  turn_of strip urljoin web st = Continue st' ->
  Forall (fun r : record => keys r = Spec.scraper_keys) (books st').
Proof.
  intros Hinv Hturn. unfold turn_of in Hturn.
  destruct (next_page_url st) as [url|]; [|discriminate].
  destruct (truthy url); [|discriminate].
  destruct (page strip urljoin web url st) as [st1|e] eqn:Hpage; [|discriminate].
  injection Hturn as <-. unfold page in Hpage. res_steps Hpage.
  destruct a0 as [lines' books'].
  apply for_books_keys in Hstep0; [|done]. simpl in Hstep0.
  destruct (li_next_a a); [res_steps Hpage|]; by injection Hpage as <-.
Qed.

Lemma books_list_keys (base_url : option string) (fuel : nat)
    (lines : list msg) (results : list record) :
  books_list strip urljoin web base_url fuel = Done (lines, results) ->
  Forall (fun r : record => keys r = Spec.scraper_keys) results.
Proof.
  intros H.
  apply (while_invariant (turn_of strip urljoin web)
           (fun st => Forall (fun r : record => keys r = Spec.scraper_keys) (books st))
           (fun r => Forall (fun r : record => keys r = Spec.scraper_keys) r.2)
           turn_of_keys) with (r := (lines, results)) in H.
  - exact H.
  - intros s [lines' data'] Hinv Hb. unfold turn_of in Hb.
    destruct (next_page_url s) as [url|].
    + destruct (truthy url).
      * destruct (page strip urljoin web url s); discriminate.
      * by injection Hb as <- <-.
    + by injection Hb as <- <-.
  - constructor.
Qed.

End ScraperRun.

Section ScraperWriter.
Import Py Scraper.

(** The values of a record of [BookScraper], in the order of the columns. *)
Lemma dict_to_list_of_record (r : record) :
  keys r = Spec.scraper_keys ->
  dict_to_list Spec.scraper_keys r = Ret (map snd r).
Proof.
  intros Hk.
  destruct r as [|[k1 v1] [|[k2 v2] [|[k3 v3] [|[k4 v4] [|[k5 v5] [|[k6 v6]
    [|[k7 v7] [|? ?]]]]]]]]; try discriminate.
  unfold keys, Spec.scraper_keys in Hk. simpl in Hk.
  injection Hk as -> -> -> -> -> -> ->. reflexivity.
Qed.

Lemma writerows_of_records (path : string) (rows : list record) :
  Forall (fun r : record => keys r = Spec.scraper_keys) rows ->
  writerows path Spec.scraper_keys rows =
    (map (fun r => WriteTo path (csv_line crlf (map snd r))) rows, None).
Proof.
  induction rows as [|r rows IH]; intros Hall; [done|].
  apply Forall_cons in Hall as [Hr Hall]. simpl.
  rewrite (dict_to_list_of_record r Hr), (IH Hall). done.
Qed.

Lemma written_of_rows (path : string) (rows : list record) :
  Spec.written path (map (fun r => WriteTo path (csv_line crlf (map snd r))) rows) =
  foldr (fun r text => csv_line crlf (map snd r) +:+ text) EmptyString rows.
Proof.
  induction rows as [|r rows IH]; [done|]. simpl.
  by rewrite String.eqb_refl, IH.
Qed.

(** Operations in place change the one path and nothing else. *)
Lemma apply_in_place_all (path : string) (ops : list fsop) :
  forallb (Spec.in_place path) ops = true ->
  forall (fs : gmap string string) (c : string),
    fs !! path = Some c ->
    apply_ops fs ops = <[path := c +:+ Spec.written path ops]> fs.
Proof.
  induction ops as [|op ops IH]; intros Hall fs c Hc; simpl in *.
  - rewrite str_app_nil_r. by rewrite insert_id.
  - apply andb_true_iff in Hall as [Hop Hall].
    destruct op as [dir|p|p data|p|src dst]; simpl in *; try discriminate; eauto.
    apply String.eqb_eq in Hop as ->. rewrite String.eqb_refl.
    rewrite (IH Hall _ (c +:+ data)).
    + by rewrite insert_insert_eq, str_app_assoc.
    + by rewrite Hc, lookup_insert_eq.
Qed.

End ScraperWriter.

(** X7. Without [SCRAPE_URL], or with an empty one, [BookScraper] fetches
    nothing and returns no book, whatever the site; the script then replaces
    [books.csv] by the single line "No data found" and ends with status 0. *)
Theorem run_without_scrape_url (strip : string -> string)
    (urljoin : string -> string -> string) (web : Py.site Scraper.soup)
    (base_url : option string) (fuel : nat) (fs : gmap string string) :
  Py.truthy_opt base_url = false ->
  Scraper.books_list strip urljoin web base_url (S fuel) =
    Py.Done ([Scraper.Total 0], []) /\
  Scraper.main strip urljoin web base_url (S fuel) fs =
    Some {| Scraper.exit_code := 0;
            Scraper.files :=
              <[Scraper.books_csv := "No data found" +:+ String Py.lf EmptyString]> fs |}.
Proof.
  intros Hbase.
  assert (Hlist : Scraper.books_list strip urljoin web base_url (S fuel) =
                  Py.Done ([Scraper.Total 0], [])).
  { unfold Scraper.books_list. simpl. unfold Scraper.turn_of. simpl.
    destruct base_url as [url|]; [|done]. simpl in Hbase. by rewrite Hbase. }
  split; [done|]. unfold Scraper.main. rewrite Hlist.
  cbn [Scraper.write_results Py.apply_ops foldl Py.apply_op].
  rewrite lookup_insert_eq. cbn [default]. by rewrite insert_insert_eq.
Qed.

Lemma run_without_scrape_url_witness :
  Scraper.books_list id Samples.join_url Samples.SC.shop None 1 =
    Py.Done ([Scraper.Total 0], []) /\
  Scraper.main id Samples.join_url Samples.SC.shop None 1 ∅ =
    Some {| Scraper.exit_code := 0;
            Scraper.files :=
              <[Scraper.books_csv := "No data found" +:+ String Py.lf EmptyString]> ∅ |}.
Proof.
  apply (run_without_scrape_url id Samples.join_url Samples.SC.shop None 0 ∅).
  reflexivity.
Defined.

(** X8. Every book that [BookScraper] returns has the seven keys title, price,
    stock, description, stars, img_url, category, so the writer meets no key
    outside of its columns: when the walk ends with at least one book, the
    script ends with status 0 and [books.csv] holds the header row followed
    by one row per book, in order; no other path is touched. *)
Theorem scraper_run_writes_every_book (strip : string -> string)
    (urljoin : string -> string -> string) (web : Py.site Scraper.soup)
    (base_url : option string) (fuel : nat) (fs : gmap string string)
    (lines : list Scraper.msg) (results : list Scraper.record) :
  Scraper.books_list strip urljoin web base_url fuel = Py.Done (lines, results) ->
  results <> [] ->
  Forall (fun r : Scraper.record => Py.keys r = Spec.scraper_keys) results /\
  Scraper.main strip urljoin web base_url fuel fs =
    Some {| Scraper.exit_code := 0;
            Scraper.files :=
              <[Scraper.books_csv :=
                  ("title,price,stock,description,stars,img_url,category"
                   +:+ Scraper.crlf) +:+
                  foldr (fun r text => Py.csv_line Scraper.crlf (map snd r) +:+ text)
                    EmptyString results]> fs |}.
Proof.
  intros Hwalk Hne.
  pose proof (books_list_keys strip urljoin web base_url fuel lines results Hwalk)
    as Hkeys.
  split; [done|]. unfold Scraper.main. rewrite Hwalk.
  destruct results as [|first others]; [done|].
  unfold Scraper.write_results.
  assert (Hfirst : Py.keys first = Spec.scraper_keys).
  { by apply Forall_cons in Hkeys as [? _]. }
  rewrite Hfirst, (writerows_of_records Scraper.books_csv (first :: others) Hkeys).
  do 2 f_equal.
  change (Py.apply_ops fs (Py.OpenW Scraper.books_csv :: ?t))
    with (Py.apply_ops (<[Scraper.books_csv:=EmptyString]> fs) t).
  match goal with
  | |- Py.apply_ops _ ?t = _ =>
      assert (Hall : forallb (Spec.in_place Scraper.books_csv) t = true)
  end.
  { simpl. rewrite forallb_app. simpl. rewrite andb_true_r.
    apply forallb_forall. intros op Hop. apply in_map_iff in Hop as (r & <- & _).
    done. }
  rewrite (apply_in_place_all Scraper.books_csv _ Hall
             (<[Scraper.books_csv:=EmptyString]> fs) EmptyString
             (lookup_insert_eq _ _ _)).
  rewrite insert_insert_eq. f_equal.
  change (Spec.written Scraper.books_csv (Py.WriteTo Scraper.books_csv ?h :: ?t))
    with (h +:+ Spec.written Scraper.books_csv t).
  rewrite written_app, written_of_rows. simpl.
  rewrite str_app_nil_r. by rewrite str_app_assoc.
Qed.

Lemma scraper_run_writes_every_book_witness :
  exists lines results,
    Scraper.books_list id Samples.join_url Listing.bookshop
      (Some Samples.SC.home) 2 = Py.Done (lines, results) /\
    Forall (fun r : Scraper.record => Py.keys r = Spec.scraper_keys) results /\
    Scraper.main id Samples.join_url Listing.bookshop (Some Samples.SC.home) 2 ∅ =
      Some {| Scraper.exit_code := 0;
              Scraper.files :=
                <[Scraper.books_csv :=
                    ("title,price,stock,description,stars,img_url,category"
                     +:+ Scraper.crlf) +:+
                    foldr (fun r text => Py.csv_line Scraper.crlf (map snd r) +:+ text)
                      EmptyString results]> ∅ |}.
Proof.
  do 2 eexists. split; [reflexivity|].
  eapply (scraper_run_writes_every_book id Samples.join_url Listing.bookshop
            (Some Samples.SC.home) 2 ∅); [reflexivity|discriminate].
Defined.

(** ** [routes.py]: the loaded books *)

Section Books.
Import Py Routes Endpoints.

Lemma books_from_lookup (rows : list book) (off i : nat) :
  books_from off rows !! i =
  set (Some "id") (VInt (Z.of_nat (off + i) + 1)) <$> rows !! i.
Proof.
  revert off i. induction rows as [|row rows IH]; intros off i; [done|].
  destruct i as [|i]; simpl.
  - by rewrite Nat.add_0_r.
  - rewrite IH. by rewrite Nat.add_succ_r.
Qed.

Lemma books_from_length (rows : list book) (off : nat) :
  length (books_from off rows) = length rows.
Proof. revert off. induction rows as [|row rows IH]; intros off; simpl; auto. Qed.

(** Outside of the numbers given, no book is found. *)
Lemma find_book_outside (rows : list book) (off : nat) (book_id : Z) :
  (book_id <= Z.of_nat off \/ Z.of_nat off + Z.of_nat (length rows) < book_id)%Z ->
  find_book (books_from off rows) book_id = Ret None.
Proof.
  revert off. induction rows as [|row rows IH]; intros off Hout; [done|].
  simpl. unfold getitem. rewrite get_set_eq. simpl.
  destruct (Z.eqb_spec (Z.of_nat off + 1) book_id) as [Heq|Hne].
  - simpl in Hout. lia.
  - apply IH. simpl in Hout. lia.
Qed.

(** Within the numbers given, the book of that number is found. *)
Lemma find_book_inside (rows : list book) (off : nat) (book_id : Z) :
  (Z.of_nat off < book_id <= Z.of_nat off + Z.of_nat (length rows))%Z ->
  exists b,
    books_from off rows !! Z.to_nat (book_id - 1 - Z.of_nat off) = Some b /\
    find_book (books_from off rows) book_id = Ret (Some b).
Proof.
  revert off. induction rows as [|row rows IH]; intros off Hin.
  - simpl in Hin. lia.
  - simpl. unfold getitem. rewrite get_set_eq. simpl.
    destruct (Z.eqb_spec (Z.of_nat off + 1) book_id) as [Heq|Hne].
    + eexists. split; [|reflexivity].
      replace (Z.to_nat (book_id - 1 - Z.of_nat off)) with 0%nat by lia. done.
    + destruct (IH (S off)) as (b & Hb & Hfind); [simpl in Hin; lia|].
      exists b. split; [|done].
      replace (Z.to_nat (book_id - 1 - Z.of_nat off))
        with (S (Z.to_nat (book_id - 1 - Z.of_nat (S off)))) by lia.
      done.
Qed.

End Books.

(** X9. [load_books] keeps the rows in order and numbers them from 1: the
    book at position [i] has the [id] [i + 1], whatever [id] the row had, and
    everything else of its row unchanged, column by column, the surplus
    cells under the key [None] included. *)
Theorem load_books_numbers_rows (rows : list Routes.book) (i : nat)
    (row : Routes.book) :
  rows !! i = Some row ->
  length (Routes.load_books rows) = length rows /\
  exists b,
    Routes.load_books rows !! i = Some b /\
    Routes.get (Some "id") b = Some (Py.VInt (Z.of_nat i + 1)) /\
    forall k, k <> Some "id" -> Routes.get k b = Routes.get k row.
Proof.
  intros Hrow. rewrite load_books_from, books_from_length. split; [done|].
  exists (Routes.set (Some "id") (Py.VInt (Z.of_nat i + 1)) row).
  rewrite books_from_lookup. unfold Routes.book in *.
  rewrite Hrow. simpl. split; [done|]. split.
  - apply get_set_eq.
  - intros k Hk. by apply get_set_ne.
Qed.

Lemma load_books_numbers_rows_witness :
  length (Routes.load_books
            [[(Some "id", Py.VStr "x"); (Some "title", Py.VStr "A")];
             [(Some "title", Py.VStr "B")]]) = 2%nat /\
  exists b,
    Routes.load_books
      [[(Some "id", Py.VStr "x"); (Some "title", Py.VStr "A")];
       [(Some "title", Py.VStr "B")]] !! 0%nat = Some b /\
    Routes.get (Some "id") b = Some (Py.VInt (Z.of_nat 0 + 1)) /\
    forall k, k <> Some "id" ->
      Routes.get k b =
      Routes.get k [(Some "id", Py.VStr "x"); (Some "title", Py.VStr "A")].
Proof.
  apply (load_books_numbers_rows
           [[(Some "id", Py.VStr "x"); (Some "title", Py.VStr "A")];
            [(Some "title", Py.VStr "B")]]
           0 [(Some "id", Py.VStr "x"); (Some "title", Py.VStr "A")]).
  reflexivity.
Defined.

(** X10. [get_book_by_id] finds the book at position [book_id - 1] when
    [book_id] lies between 1 and the number of rows: it answers 200 with that
    book when its row has no surplus cells, and raises the [TypeError] of
    [jsonify] when it has; for any other number it answers 404 "Book not
    found". *)
Theorem get_book_by_id_bounds (rows : list Routes.book) (book_id : Z) :
  ((1 <= book_id <= Z.of_nat (length rows))%Z ->
   exists row b,
     rows !! Z.to_nat (book_id - 1) = Some row /\
     Routes.load_books rows !! Z.to_nat (book_id - 1) = Some b /\
     (Routes.get None row = None ->
      Endpoints.get_book_by_id rows book_id =
        Py.Ret (Endpoints.OneBook b, 200%Z)) /\
     (Routes.get None row <> None ->
      Endpoints.get_book_by_id rows book_id = Py.Raise Py.TypeError)) /\
  ((book_id < 1 \/ Z.of_nat (length rows) < book_id)%Z ->
   Endpoints.get_book_by_id rows book_id =
     Py.Ret (Endpoints.Message "Book not found", 404%Z)).
Proof.
  unfold Endpoints.get_book_by_id. rewrite load_books_from. split.
  - intros Hin. destruct (find_book_inside rows 0 book_id) as (b & Hb & Hfind).
    { simpl. lia. }
    replace (book_id - 1 - Z.of_nat 0)%Z with (book_id - 1)%Z in Hb by lia.
    rewrite Hfind. simpl.
    rewrite books_from_lookup in Hb.
    destruct (rows !! Z.to_nat (book_id - 1)) as [row|] eqn:Hrow; [|discriminate].
    simpl in Hb. injection Hb as <-.
    exists row. eexists. split; [done|].
    split; [by rewrite books_from_lookup, Hrow|]. split.
    + intros Hnone.
      match goal with
      | |- context [Routes.sortable (Routes.set _ ?v _)] =>
          apply (sortable_numbered v) in Hnone
      end.
      by rewrite Hnone.
    + intros Hsome.
      match goal with
      | |- context [Routes.sortable ?x] => destruct (Routes.sortable x) eqn:Hs
      end; [|done].
      apply sortable_numbered in Hs. done.
  - intros Hout. rewrite find_book_outside; [done|]. simpl. lia.
Qed.

Lemma get_book_by_id_bounds_witness :
  (exists row b,
     [[(Some "title", Py.VStr "A")];
      [(Some "title", Py.VStr "B"); (None, Py.VList ["x"])]]
       !! Z.to_nat (2 - 1) = Some row /\
     Routes.load_books
       [[(Some "title", Py.VStr "A")];
        [(Some "title", Py.VStr "B"); (None, Py.VList ["x"])]]
       !! Z.to_nat (2 - 1) = Some b /\
     (Routes.get None row = None ->
      Endpoints.get_book_by_id
        [[(Some "title", Py.VStr "A")];
         [(Some "title", Py.VStr "B"); (None, Py.VList ["x"])]] 2 =
        Py.Ret (Endpoints.OneBook b, 200%Z)) /\
     (Routes.get None row <> None ->
      Endpoints.get_book_by_id
        [[(Some "title", Py.VStr "A")];
         [(Some "title", Py.VStr "B"); (None, Py.VList ["x"])]] 2 =
        Py.Raise Py.TypeError)) /\
  Endpoints.get_book_by_id
    [[(Some "title", Py.VStr "A")];
     [(Some "title", Py.VStr "B"); (None, Py.VList ["x"])]] 3 =
    Py.Ret (Endpoints.Message "Book not found", 404%Z).
Proof.
  split.
  - apply (get_book_by_id_bounds
             [[(Some "title", Py.VStr "A")];
              [(Some "title", Py.VStr "B"); (None, Py.VList ["x"])]] 2).
    simpl. lia.
  - apply (get_book_by_id_bounds
             [[(Some "title", Py.VStr "A")];
              [(Some "title", Py.VStr "B"); (None, Py.VList ["x"])]] 3).
    right. simpl. lia.
Defined.

(** ** Substrings *)

Section Substrings.
Import Py.

Lemma prefix_inv (p s : string) :
  String.prefix p s = true -> exists post, s = p +:+ post.
Proof.
  revert s. induction p as [|c p IH]; intros s H.
  - by exists s.
  - destruct s as [|c' s]; simpl in H; [discriminate|].
    destruct (ascii_dec c c') as [<-|]; [|discriminate].
    destruct (IH s H) as [post ->]. by exists post.
Qed.

Lemma contains_unfold (needle hay : string) :
  contains needle hay =
  String.prefix needle hay ||
  match hay with
  | EmptyString => false
  | String _ hay' => contains needle hay'
  end.
Proof. by destruct hay. Qed.

(** [needle in hay] holds exactly when [hay] is some text, the needle, some
    text. *)
Lemma contains_spec (needle hay : string) :
  contains needle hay = true <->
  exists pre post, hay = pre +:+ needle +:+ post.
Proof.
  split.
  - induction hay as [|c hay IH]; rewrite contains_unfold; intros H;
      apply orb_true_iff in H as [H|H]; try discriminate.
    + apply prefix_inv in H as [post ->]. by exists EmptyString, post.
    + apply prefix_inv in H as [post ->]. by exists EmptyString, post.
    + destruct (IH H) as (pre & post & ->). by exists (String c pre), post.
  - intros (pre & post & ->). induction pre as [|c pre IH].
    + rewrite contains_unfold.
      change (EmptyString +:+ needle +:+ post) with (needle +:+ post).
      by rewrite prefix_app.
    + rewrite contains_unfold.
      change (String c pre +:+ needle +:+ post)
        with (String c (pre +:+ needle +:+ post)).
      cbv beta iota. rewrite IH. apply orb_true_r.
Qed.

End Substrings.

(** ** [routes.py]: searching *)

Section Searching.
Import Py Routes Endpoints.
Variable lower : string -> string.

(** A book whose title and category are [str]. *)
Lemma matches_str (needle field : string) (b : book) (s : string) :
  get (Some field) b = Some (VStr s) ->
  matches lower needle field b =
    Ret (negb (truthy needle) || contains needle (lower s)).
Proof.
  intros Hf. unfold matches, field_lower, getitem. rewrite Hf.
  by destruct (truthy needle).
Qed.

Lemma filter_books_keeps (title category : string) (books : list book) :
  Forall (fun b => exists t c, get (Some "title") b = Some (VStr t) /\
                               get (Some "category") b = Some (VStr c)) books ->
  forall filtered,
    filter_books lower title category books filtered =
      Ret (filtered ++
           filter (fun b => keeps lower title category b = true) books).
Proof.
  induction books as [|b books IH]; intros Hall filtered.
  - simpl. by rewrite app_nil_r.
  - apply Forall_cons in Hall as [(t & c & Ht & Hc) Hall].
    cbn [filter_books]. rewrite (matches_str _ _ _ _ Ht), (matches_str _ _ _ _ Hc).
    assert (Hkb : keeps lower title category b =
                  (negb (truthy title) || contains title (lower t)) &&
                  (negb (truthy category) || contains category (lower c))).
    { unfold keeps. by rewrite Ht, Hc. }
    simpl. rewrite <- Hkb, (IH Hall), filter_cons.
    destruct (keeps lower title category b) eqn:Hk.
    + rewrite decide_True by done. by rewrite <- app_assoc.
    + rewrite decide_False by done. done.
Qed.

(** A loaded book is a row with its number. *)
Lemma books_from_row (rows : list book) (off : nat) (b : book) :
  b ∈ books_from off rows ->
  exists row v, row ∈ rows /\ b = set (Some "id") v row.
Proof.
  revert off. induction rows as [|row rows IH]; intros off Hb.
  - by apply elem_of_nil in Hb.
  - simpl in Hb. apply elem_of_cons in Hb as [->|Hb].
    + exists row. eexists. split; [left|done].
    + destruct (IH _ Hb) as (row' & v & Hrow' & ->). exists row', v.
      split; [by right|done].
Qed.

(** The query occurs in the lowered field, or is empty. *)
Lemma wanted_spec (needle : string) (s : string) :
  negb (truthy needle) || contains needle (lower s) = true <->
  needle = EmptyString \/ exists pre post, lower s = pre +:+ needle +:+ post.
Proof.
  rewrite orb_true_iff, contains_spec. unfold truthy.
  rewrite negb_true_iff, negb_false_iff, String.eqb_eq. done.
Qed.

(** One book that has no [str] under a field stops a search on that
    field. *)
Lemma matches_not_str (needle field : string) (b : book) :
  truthy needle = true ->
  (forall s, get (Some field) b <> Some (VStr s)) ->
  exists e, matches lower needle field b = Raise e.
Proof.
  intros Hn Hf. unfold matches, field_lower, getitem. rewrite Hn.
  destruct (get (Some field) b) as [[s| | | |]|]; simpl; eauto.
  by destruct (Hf s).
Qed.

Lemma filter_books_raises (title category : string) (books : list book) :
  truthy title = true ->
  Exists (fun b => forall s, get (Some "title") b <> Some (VStr s)) books ->
  forall filtered,
    exists e, filter_books lower title category books filtered = Raise e.
Proof.
  intros Ht Hex. induction Hex as [b books Hb|b books Hex IH]; intros filtered.
  - destruct (matches_not_str title "title" b Ht Hb) as [e He].
    exists e. cbn [filter_books]. by rewrite He.
  - cbn [filter_books].
    destruct (matches lower title "title" b) as [mt|e]; simpl; [|eauto].
    destruct (matches lower category "category" b) as [mc|e]; simpl; [|eauto].
    apply IH.
Qed.

(** Among loaded books, those that can be written as JSON are those
    without surplus cells. *)
Lemma jsonify_loaded (rows found : list book) :
  found ⊆ load_books rows ->
  (Forall (fun b => get None b = None) found -> jsonify found = Ret found) /\
  (Exists (fun b => get None b <> None) found -> jsonify found = Raise TypeError).
Proof.
  intros Hsub. unfold jsonify.
  assert (Hs : forall b, b ∈ found -> sortable b = true <-> get None b = None).
  { intros b Hb. apply Hsub in Hb. rewrite load_books_from in Hb.
    apply books_from_row in Hb as (row & v & _ & ->).
    rewrite sortable_numbered. by rewrite get_set_ne. }
  split.
  - intros Hall.
    assert (forallb sortable found = true) as ->; [|done].
    apply forallb_forall. intros b Hb. apply list_elem_of_In in Hb.
    apply Hs; [done|]. rewrite Forall_forall in Hall. by apply Hall.
  - intros Hex.
    assert (forallb sortable found = false) as ->; [|done].
    apply not_true_is_false. intros Hall.
    rewrite forallb_forall in Hall.
    apply Exists_exists in Hex as (b & Hb & Hsurplus).
    apply Hsurplus, Hs; [done|]. apply Hall. by apply list_elem_of_In.
Qed.

End Searching.

(** X11. When every row has a [str] title and a [str] category,
    [search_books] finds the loaded books, in their order, whose lowered
    title holds the lowered [title] query and whose lowered category holds
    the lowered [category] query (an empty or absent query holds for every
    book); it answers 200 with them when none of them has surplus cells, and
    raises the [TypeError] of [jsonify] when one of them has. *)
Theorem search_gives_the_matching_books (lower : string -> string)
    (args : Py.dict string) (rows : list Routes.book) :
  Forall (fun row => exists t c,
            Routes.get (Some "title") row = Some (Py.VStr t) /\
            Routes.get (Some "category") row = Some (Py.VStr c)) rows ->
  exists found,
    found `sublist_of` Routes.load_books rows /\
    (forall b,
       b ∈ found <->
       b ∈ Routes.load_books rows /\
       exists t c,
         Routes.get (Some "title") b = Some (Py.VStr t) /\
         Routes.get (Some "category") b = Some (Py.VStr c) /\
         (lower (Routes.args_get args "title") = EmptyString \/
          exists pre post,
            lower t = pre +:+ lower (Routes.args_get args "title") +:+ post) /\
         (lower (Routes.args_get args "category") = EmptyString \/
          exists pre post,
            lower c = pre +:+ lower (Routes.args_get args "category") +:+ post)) /\
    (Forall (fun b => Routes.get None b = None) found ->
     Routes.search_books lower args rows = Py.Ret (found, 200%Z)) /\
    (Exists (fun b => Routes.get None b <> None) found ->
     Routes.search_books lower args rows = Py.Raise Py.TypeError).
Proof.
  intros Hrows.
  assert (Hbooks : Forall (fun b => exists t c,
            Routes.get (Some "title") b = Some (Py.VStr t) /\
            Routes.get (Some "category") b = Some (Py.VStr c))
            (Routes.load_books rows)).
  { rewrite load_books_from. apply Forall_forall. intros b Hb.
    apply books_from_row in Hb as (row & v & Hrow & ->).
    rewrite Forall_forall in Hrows. destruct (Hrows row Hrow) as (t & c & Ht & Hc).
    exists t, c. by rewrite !get_set_ne. }
  exists (filter (fun b => Endpoints.keeps lower
                    (lower (Routes.args_get args "title"))
                    (lower (Routes.args_get args "category")) b = true)
            (Routes.load_books rows)).
  split; [apply sublist_filter|]. split.
  - intros b. rewrite list_elem_of_filter. split.
    + intros [Hk Hb]. split; [done|].
      rewrite Forall_forall in Hbooks. destruct (Hbooks b Hb) as (t & c & Ht & Hc).
      exists t, c. unfold Endpoints.keeps in Hk. rewrite Ht, Hc in Hk.
      apply andb_true_iff in Hk as [Hk1 Hk2].
      apply wanted_spec in Hk1. apply wanted_spec in Hk2. done.
    + intros [Hb (t & c & Ht & Hc & Hk1 & Hk2)]. split; [|done].
      unfold Endpoints.keeps. rewrite Ht, Hc.
      apply andb_true_iff. split; by apply wanted_spec.
  - unfold Routes.search_books.
    rewrite (filter_books_keeps lower _ _ _ Hbooks). simpl.
    match goal with
    | |- context [Routes.jsonify ?found] =>
        destruct (jsonify_loaded rows found) as [Hok Hbad];
        [apply list_subseteq_filter|]
    end.
    split.
    + intros Hall. by rewrite (Hok Hall).
    + intros Hex. by rewrite (Hbad Hex).
Qed.

Lemma search_gives_the_matching_books_witness :
  exists found,
    found `sublist_of`
      Routes.load_books
        [[(Some "title", Py.VStr "A Light in the Attic");
          (Some "category", Py.VStr "Poetry")];
         [(Some "title", Py.VStr "Tipping the Velvet");
          (Some "category", Py.VStr "Fiction")]] /\
    Routes.search_books Samples.lower [("title", "LIGHT")]
      [[(Some "title", Py.VStr "A Light in the Attic");
        (Some "category", Py.VStr "Poetry")];
       [(Some "title", Py.VStr "Tipping the Velvet");
        (Some "category", Py.VStr "Fiction")]] =
      Py.Ret (found, 200%Z) /\
    found = [[(Some "title", Py.VStr "A Light in the Attic");
              (Some "category", Py.VStr "Poetry"); (Some "id", Py.VInt 1)]].
Proof.
  destruct (search_gives_the_matching_books Samples.lower [("title", "LIGHT")]
    [[(Some "title", Py.VStr "A Light in the Attic");
      (Some "category", Py.VStr "Poetry")];
     [(Some "title", Py.VStr "Tipping the Velvet");
      (Some "category", Py.VStr "Fiction")]])
    as (found & Hsub & Hmem & Hok & _).
  - repeat constructor; eauto.
  - exists found. split; [exact Hsub|].
    assert (Hall : Forall (fun b => Routes.get None b = None) found).
    { apply Forall_forall. intros b Hb. apply Hmem in Hb as [Hb _].
      vm_compute in Hb.
      apply elem_of_cons in Hb as [->|Hb]; [done|].
      apply elem_of_cons in Hb as [->|Hb]; [done|].
      by apply elem_of_nil in Hb. }
    pose proof (Hok Hall) as Hsearch.
    split; [exact Hsearch|].
    vm_compute in Hsearch. by injection Hsearch as <-.
Defined.

(** X12. With a [title] query that is not empty, one row whose title is no
    [str] (a missing column, or a short line that gives [None]) makes
    [search_books] raise, whatever the other rows are. *)
Theorem search_stops_on_missing_title (lower : string -> string)
    (args : Py.dict string) (rows : list Routes.book) :
  Py.truthy (lower (Routes.args_get args "title")) = true ->
  Exists (fun row => forall s,
            Routes.get (Some "title") row <> Some (Py.VStr s)) rows ->
  exists e, Routes.search_books lower args rows = Py.Raise e.
Proof.
  intros Htitle Hex. unfold Routes.search_books.
  destruct (filter_books_raises lower
              (lower (Routes.args_get args "title"))
              (lower (Routes.args_get args "category"))
              (Routes.load_books rows) Htitle) with (filtered := @nil Routes.book)
    as [e He].
  - rewrite load_books_from. clear Htitle. generalize 0%nat.
    induction Hex as [row rows Hrow|row rows Hex IH]; intros off; simpl.
    + left. intros s. rewrite get_set_ne by done. apply Hrow.
    + right. apply IH.
  - exists e. by rewrite He.
Qed.

Lemma search_stops_on_missing_title_witness :
  exists e,
    Routes.search_books Samples.lower [("title", "light")]
      [[(Some "title", Py.VStr "A Light in the Attic");
        (Some "category", Py.VStr "Poetry")];
       [(Some "title", Py.VNone); (Some "category", Py.VNone)]] = Py.Raise e.
Proof.
  apply (search_stops_on_missing_title Samples.lower [("title", "light")]).
  - reflexivity.
  - right. left. intros s. discriminate.
Defined.

(** ** [routes.py]: the categories *)

Section CategoriesOfRows.
Import Py Routes Endpoints.

Lemma get_of_reader (k : string) (row : reader_row) :
  get (Some k) (of_reader row) = from_option VStr VNone <$> dict_get k row.
Proof.
  induction row as [|[k' v] row IH]; [done|]. simpl.
  by destruct (String.eqb k k').
Qed.

Lemma category_values_from (rows : list reader_row) (off : nat) :
  Forall (fun row : reader_row => is_Some (dict_get "category" row)) rows ->
  category_values (books_from off (map of_reader rows)) =
    Ret (omap category_of_row rows).
Proof.
  revert off. induction rows as [|row rows IH]; intros off Hall; [done|].
  apply Forall_cons in Hall as [[v Hv] Hall].
  cbn [map books_from category_values omap list_omap]. unfold getitem.
  rewrite get_set_ne by done. rewrite get_of_reader, Hv. simpl.
  rewrite (IH _ Hall). simpl. unfold category_of_row. rewrite Hv.
  destruct v as [s|]; simpl; [|done]. by destruct (truthy s).
Qed.

Lemma category_values_missing (rows : list reader_row) (off : nat) :
  Exists (fun row : reader_row => dict_get "category" row = None) rows ->
  category_values (books_from off (map of_reader rows)) = Raise KeyError.
Proof.
  intros Hex. revert off.
  induction Hex as [row rows Hrow|row rows Hex IH]; intros off;
    cbn [map books_from category_values]; unfold getitem;
    rewrite get_set_ne by done; rewrite get_of_reader.
  - by rewrite Hrow.
  - destruct (dict_get "category" row) as [v|]; simpl; [|done].
    by rewrite IH.
Qed.

Lemma category_of_row_Some (row : reader_row) (c : string) :
  category_of_row row = Some c <->
  c <> EmptyString /\ dict_get "category" row = Some (Some c).
Proof.
  unfold category_of_row, truthy.
  destruct (dict_get "category" row) as [[s|]|].
  - destruct (String.eqb_spec s EmptyString) as [->|Hne]; simpl.
    + split; [discriminate|]. intros [Hc Hs]. by injection Hs as <-.
    + split.
      * intros Hs. injection Hs as <-. done.
      * intros [_ Hs]. by injection Hs as <-.
  - split; [discriminate|]. intros [_ Hs]. discriminate.
  - split; [discriminate|]. intros [_ Hs]. discriminate.
Qed.

End CategoriesOfRows.

(** X13. When every row has the column [category], [get_categories] answers
    200 with the categories that are not empty, each once, in increasing
    order of their texts; a row without that column makes it raise
    [KeyError]. *)
Theorem categories_sorted_and_distinct (rows : list Endpoints.reader_row) :
  (Forall (fun row : Endpoints.reader_row =>
             is_Some (Py.dict_get "category" row)) rows ->
   exists categories,
     Endpoints.get_categories rows =
       Py.Ret (Endpoints.Categories categories, 200%Z) /\
     StronglySorted String.le categories /\
     NoDup categories /\
     forall c,
       c ∈ categories <->
       c <> EmptyString /\
       exists row, row ∈ rows /\ Py.dict_get "category" row = Some (Some c)) /\
  (Exists (fun row : Endpoints.reader_row =>
             Py.dict_get "category" row = None) rows ->
   Endpoints.get_categories rows = Py.Raise Py.KeyError).
Proof.
  unfold Endpoints.get_categories. rewrite load_books_from. split.
  - intros Hall. rewrite (category_values_from rows 0 Hall). simpl.
    eexists. split; [reflexivity|]. unfold Endpoints.sorted_set.
    split; [apply StronglySorted_merge_sort; apply _|]. split.
    + rewrite merge_sort_Permutation. apply NoDup_remove_dups.
    + intros c. rewrite merge_sort_Permutation, elem_of_remove_dups,
        list_elem_of_omap. split.
      * intros (row & Hrow & Hc). apply category_of_row_Some in Hc as [Hne Hc].
        eauto.
      * intros (Hne & row & Hrow & Hc). exists row. split; [done|].
        by apply category_of_row_Some.
  - intros Hex. by rewrite (category_values_missing rows 0 Hex).
Qed.

Lemma categories_sorted_and_distinct_witness :
  (exists categories,
     Endpoints.get_categories
       [[("title", Some "A"); ("category", Some "Poetry")];
        [("title", Some "B"); ("category", None)];
        [("title", Some "C"); ("category", Some "Art")];
        [("title", Some "D"); ("category", Some "Poetry")]] =
       Py.Ret (Endpoints.Categories categories, 200%Z) /\
     categories = ["Art"; "Poetry"]) /\
  Endpoints.get_categories [[("title", Some "A")]] = Py.Raise Py.KeyError.
Proof.
  split.
  - destruct (categories_sorted_and_distinct
      [[("title", Some "A"); ("category", Some "Poetry")];
       [("title", Some "B"); ("category", None)];
       [("title", Some "C"); ("category", Some "Art")];
       [("title", Some "D"); ("category", Some "Poetry")]]) as [Hsome _].
    destruct Hsome as (categories & Hget & _).
    + repeat constructor; eauto.
    + exists categories. split; [exact Hget|].
      vm_compute in Hget. by injection Hget as <-.
  - apply (categories_sorted_and_distinct [[("title", Some "A")]]).
    left. reflexivity.
Defined.

(** ** [api/app.py]: what the loader reads off the cells *)

Section Cells.
Import Py Api.

Lemma first_word_of_token (token rest : string) :
  has_char (fun c => Ascii.eqb c (ascii_of_nat 32)) token = false ->
  first_word (token +:+ String (ascii_of_nat 32) rest) = token.
Proof.
  induction token as [|c token IH]; intros Hsp; [done|].
  simpl in Hsp. apply orb_false_iff in Hsp as [Hc Hsp].
  change (String c token +:+ String (ascii_of_nat 32) rest)
    with (String c (token +:+ String (ascii_of_nat 32) rest)).
  cbn [first_word]. rewrite Hc. by rewrite IH.
Qed.

Lemma rating_map_is_ordinal (token : string) :
  from_option VInt VNone (dict_get token rating_map) = Spec.rating_of_token token.
Proof.
  unfold rating_map, Spec.rating_of_token. simpl.
  repeat (destruct (String.eqb token _); [done|]). done.
Qed.

End Cells.

(** X14. From scraper to loader: for a rating token without space, the cell
    [rating_numeric] that [load_books_data] computes from the [rating] text
    of [get_book_details] is the entry of the token in [rating_map]: the
    ordinal 1 to 5 for "One" to "Five", and NaN for any other token. *)
Theorem rating_text_read_back (strip : string -> string)
    (web : Py.site ScrapeBooks.soup) (link : string) (r : ScrapeBooks.record)
    (status : Z) (soup : ScrapeBooks.soup) (classes : list string)
    (token : string) :
  (ScrapeBooks.get_book_details strip web link).2 = Some r ->
  web link = Py.Reply status soup ->
  ScrapeBooks.p_star_rating soup = Some classes ->
  classes !! 1%nat = Some token ->
  Py.has_char (fun c => Ascii.eqb c (ascii_of_nat 32)) token = false ->
  Api.rating_numeric <$> Py.dict_get "rating" r =
    Some (Py.dict_get token Api.rating_map) /\
  from_option Py.VInt Py.VNone (Py.dict_get token Api.rating_map) =
    Spec.rating_of_token token.
Proof.
  intros Hr Hweb Hs Hc Hsp. split; [|apply rating_map_is_ordinal].
  apply get_book_details_Some, book_details_Ret in Hr.
  destruct Hr as (status' & soup' & title & price & classes' & token' & text &
                  anchors & category & src & Hweb' & _ & _ & _ & Hs' & Hc' & _ & _ & _ & _ & ->).
  rewrite Hweb in Hweb'. injection Hweb' as <- <-.
  rewrite Hs in Hs'. injection Hs' as <-.
  rewrite Hc in Hc'. injection Hc' as <-.
  simpl. unfold Api.rating_numeric.
  change (token +:+ " de 5 estrelas")
    with (token +:+ String (ascii_of_nat 32) "de 5 estrelas").
  by rewrite first_word_of_token.
Qed.

Lemma rating_text_read_back_witness :
  exists r,
    (ScrapeBooks.get_book_details id (Samples.SB.only Samples.SB.light)
       (Samples.SB.item "light/index.html")).2 = Some r /\
    Api.rating_numeric <$> Py.dict_get "rating" r =
      Some (Py.dict_get "Three" Api.rating_map) /\
    from_option Py.VInt Py.VNone (Py.dict_get "Three" Api.rating_map) =
      Spec.rating_of_token "Three".
Proof.
  eexists. split; [reflexivity|].
  apply (rating_text_read_back id (Samples.SB.only Samples.SB.light)
           (Samples.SB.item "light/index.html") _ 200 Samples.SB.light
           ["star-rating"; "Three"] "Three"); reflexivity.
Defined.

(** X15. The price cell that [load_books_data] hands to the float
    conversion: a pound sign in front of a text without pound sign is
    removed and the text is kept, and a text without pound sign is left as
    it is. *)
Theorem price_text_without_pound (amount : string) :
  Py.contains Api.pound_sign amount = false ->
  Api.price_cleaned (Api.pound_sign +:+ amount) = amount /\
  Api.price_cleaned amount = amount.
Proof.
  intros Hamount. unfold Api.price_cleaned. split.
  - by rewrite replace_leading.
  - unfold Py.replace. by apply replace_go_absent.
Qed.

Lemma price_text_without_pound_witness :
  Api.price_cleaned (Api.pound_sign +:+ "51.77") = "51.77" /\
  Api.price_cleaned "51.77" = "51.77".
Proof. apply (price_text_without_pound "51.77"). reflexivity. Defined.

(** ** [scraper.py]: a page that cannot be read *)

Section FailFast.
Import Py Scraper.
Variable strip : string -> string.
Variable urljoin : string -> string -> string.
Variable web : site soup.

(** The item card leads to a page without the heading of a book. *)
Lemma book_turn_without_title (url : string) (acc : list msg * list record)
    (href : string) (status : Z) (doc : soup) :
  web (urljoin url href) = Reply status doc ->
  product_main_h1 doc = None ->
  book_turn strip urljoin web url acc (Some (Some (Some href))) =
    Raise AttributeError.
Proof.
  intros Hweb Hh1. unfold book_turn, scrape, requests_get, book_record. simpl.
  rewrite Hweb. simpl. by rewrite Hh1.
Qed.

Lemma for_books_without_title (url : string) (pods : list pod) :
  Exists (fun book => exists href status doc,
            book = Some (Some (Some href)) /\
            web (urljoin url href) = Reply status doc /\
            product_main_h1 doc = None) pods ->
  forall acc, exists e, for_books strip urljoin web url acc pods = Raise e.
Proof.
  intros Hex. induction Hex as [book pods Hbook|book pods Hex IH]; intros acc.
  - destruct Hbook as (href & status & doc & -> & Hweb & Hh1).
    exists AttributeError. cbn [for_books].
    by rewrite (book_turn_without_title url acc href status doc).
  - cbn [for_books].
    destruct (book_turn strip urljoin web url acc book) as [acc'|e]; simpl; eauto.
Qed.

End FailFast.

(** X16. [BookScraper] stops at the first page it cannot read: when the
    first listing page is fetched and one of its item cards leads to a page
    without the heading of a book (an error page, for one), the walk ends on
    an exception, the script ends with status 1 and [books.csv] is not
    opened, whatever the other items are. *)
Theorem unreadable_item_ends_the_run (strip : string -> string)
    (urljoin : string -> string -> string) (web : Py.site Scraper.soup)
    (url : string) (status : Z) (doc : Scraper.soup) (fuel : nat)
    (fs : gmap string string) :
  Py.truthy url = true ->
  web url = Py.Reply status doc ->
  Exists (fun book => exists href status' doc',
            book = Some (Some (Some href)) /\
            web (urljoin url href) = Py.Reply status' doc' /\
            Scraper.product_main_h1 doc' = None) (Scraper.product_pods doc) ->
  (exists e,
     Scraper.books_list strip urljoin web (Some url) (S fuel) = Py.Raised e) /\
  Scraper.main strip urljoin web (Some url) (S fuel) fs =
    Some {| Scraper.exit_code := 1; Scraper.files := fs |}.
Proof.
  intros Htruthy Hweb Hex.
  assert (Hlist : exists e,
     Scraper.books_list strip urljoin web (Some url) (S fuel) = Py.Raised e).
  { unfold Scraper.books_list. cbn [Py.while].
    unfold Scraper.turn_of. cbn [Scraper.start Scraper.next_page_url].
    rewrite Htruthy. unfold Scraper.page, Scraper.scrape, Py.requests_get.
    rewrite Hweb. simpl.
    destruct (for_books_without_title strip urljoin web url
                (Scraper.product_pods doc) Hex
                ([Scraper.ProcessingPage 1 url; Scraper.ScrapingURL url], []))
      as [e He].
    exists e. by rewrite He. }
  split; [done|]. destruct Hlist as [e He].
  unfold Scraper.main. by rewrite He.
Qed.

Lemma unreadable_item_ends_the_run_witness :
  (exists e,
     Scraper.books_list id Samples.join_url Samples.SC.shop
       (Some Samples.SC.home) 1 = Py.Raised e) /\
  Scraper.main id Samples.join_url Samples.SC.shop (Some Samples.SC.home) 1 ∅ =
    Some {| Scraper.exit_code := 1; Scraper.files := ∅ |}.
Proof.
  apply (unreadable_item_ends_the_run id Samples.join_url Samples.SC.shop
           Samples.SC.home 200
           (Samples.SC.listing ["gone.html"; "velvet.html"] None) 0 ∅).
  - reflexivity.
  - reflexivity.
  - left. exists "gone.html", 404%Z, Samples.SC.blank. repeat split; reflexivity.
Defined.

(** ** [scraper.py]: walks that end *)

Section LinkedCatalogue.
Import Py Scraper.
Variable strip : string -> string.
Variable urljoin : string -> string -> string.
Variable web : site soup.

Lemma book_turn_book (url : string) (acc1 acc1' : list msg * list record)
    (book : pod) :
  book_turn strip urljoin web url acc1 book = Ret acc1' ->
  exists r,
    acc1'.2 = acc1.2 ++ [r] /\
    forall acc2, exists lines,
      book_turn strip urljoin web url acc2 book = Ret (lines, acc2.2 ++ [r]).
Proof.
  unfold book_turn. intros H. res_steps H. injection H as <-. subst.
  exists a3. split; [done|]. intros acc2. simpl.
  rewrite Hstep2. simpl. rewrite Hstep3. simpl. eauto.
Qed.

Lemma for_books_books (url : string) (pods : list pod) :
  forall acc1 acc1',
    for_books strip urljoin web url acc1 pods = Ret acc1' ->
    exists rs,
      acc1'.2 = acc1.2 ++ rs /\
      forall acc2, exists lines,
        for_books strip urljoin web url acc2 pods = Ret (lines, acc2.2 ++ rs).
Proof.
  induction pods as [|book pods IH]; intros acc1 acc1' H; simpl in H.
  - injection H as <-. exists []. split; [by rewrite app_nil_r|].
    intros [lines2 books2]. exists lines2. simpl. by rewrite app_nil_r.
  - res_steps H.
    destruct (book_turn_book url acc1 a book Hstep) as (r & Ha & Hturn).
    destruct (IH a acc1' H) as (rs & Hrs & Hfor).
    exists (r :: rs). split.
    + rewrite Hrs, Ha. by rewrite <- app_assoc.
    + intros acc2. destruct (Hturn acc2) as [lines Hb].
      destruct (Hfor (lines, acc2.2 ++ [r])) as [lines' Hf].
      exists lines'. cbn [for_books]. rewrite Hb. simpl. rewrite Hf.
      simpl. by rewrite <- app_assoc.
Qed.

(** One turn at a page of a chain. *)
Lemma turn_of_catalogue (st : state) (url : string) (rest : list string) :
  Catalogue.linked strip urljoin web url rest ->
  next_page_url st = Some url -> truthy url = true ->
  exists st',
    turn_of strip urljoin web st = Continue st' /\
    books st' = books st ++ Catalogue.page_books strip urljoin web url /\
    next_page_url st' = head rest.
Proof.
  intros Hlinked Hurl Htruthy. unfold turn_of. rewrite Hurl, Htruthy.
  unfold page, scrape, requests_get, Catalogue.page_books.
  destruct rest as [|next rest]; simpl in Hlinked;
    destruct (web url) as [|status doc] eqn:Hweb; try done;
    destruct Hlinked as ([acc Hacc] & Hnext); simpl.
  - destruct (for_books_books url _ _ _ Hacc) as (rs & Hrs & Hfor).
    destruct (Hfor (logged st ++ [ProcessingPage (page_count st) url; ScrapingURL url],
                    books st)) as [lines Hf].
    rewrite Hf, Hacc, Hnext. simpl. eexists. split; [reflexivity|].
    simpl. simpl in Hrs. by rewrite Hrs.
  - destruct Hnext as [(href & Hnext & -> & _) _].
    destruct (for_books_books url _ _ _ Hacc) as (rs & Hrs & Hfor).
    destruct (Hfor (logged st ++ [ProcessingPage (page_count st) url; ScrapingURL url],
                    books st)) as [lines Hf].
    rewrite Hf, Hacc, Hnext. simpl. eexists. split; [reflexivity|].
    simpl. simpl in Hrs. by rewrite Hrs.
Qed.

Lemma while_catalogue (rest : list string) :
  forall (st : state) (url : string) (fuel : nat),
    Catalogue.linked strip urljoin web url rest ->
    next_page_url st = Some url -> truthy url = true ->
    (2 + length rest <= fuel)%nat ->
    exists lines,
      while (turn_of strip urljoin web) fuel st =
        Done (lines, books st ++
                     flat_map (Catalogue.page_books strip urljoin web) (url :: rest)).
Proof.
  induction rest as [|next rest IH]; intros st url fuel Hlinked Hurl Htruthy Hfuel.
  - destruct (turn_of_catalogue st url [] Hlinked Hurl Htruthy)
      as (st' & Hturn & Hbooks & Hnone).
    destruct fuel as [|[|fuel]]; [simpl in Hfuel; lia..|].
    eexists. simpl. rewrite Hturn.
    unfold turn_of at 1. simpl in Hnone. rewrite Hnone, Hbooks.
    by rewrite app_nil_r.
  - destruct (turn_of_catalogue st url (next :: rest) Hlinked Hurl Htruthy)
      as (st' & Hturn & Hbooks & Hnext).
    simpl in Hlinked. destruct (web url) as [|status doc]; [done|].
    destruct Hlinked as (_ & (href & _ & _ & Hnt) & Hlinked).
    destruct fuel as [|fuel]; [simpl in Hfuel; lia|].
    destruct (IH st' next fuel Hlinked Hnext Hnt) as [lines Hwhile].
    { simpl in *. lia. }
    exists lines. simpl. rewrite Hturn, Hwhile, Hbooks.
    by rewrite <- app_assoc.
Qed.

End LinkedCatalogue.

(** X17. A walk of [BookScraper] over a chain of listing pages ends: when
    the page at [SCRAPE_URL] is linked through "next" links to the pages
    [rest], the last of which has no "next" link, and every item card of these
    pages gives a book, the walk returns, with any fuel above the number of
    pages, the books of the pages in the order of the chain. *)
Theorem scraper_walk_over_linked_pages (strip : string -> string)
    (urljoin : string -> string -> string) (web : Py.site Scraper.soup)
    (url : string) (rest : list string) (fuel : nat) :
  Py.truthy url = true ->
  Catalogue.linked strip urljoin web url rest ->
  (2 + length rest <= fuel)%nat ->
  exists lines,
    Scraper.books_list strip urljoin web (Some url) fuel =
      Py.Done (lines,
               flat_map (Catalogue.page_books strip urljoin web) (url :: rest)).
Proof.
  intros Htruthy Hlinked Hfuel.
  destruct (while_catalogue strip urljoin web rest (Scraper.start (Some url))
              url fuel Hlinked eq_refl Htruthy Hfuel) as [lines H].
  exists lines. exact H.
Qed.

Lemma scraper_walk_over_linked_pages_witness :
  exists lines,
    Scraper.books_list id Samples.join_url Catalogue.two_pages
      (Some Samples.SC.home) 3 =
      Py.Done (lines,
               flat_map (Catalogue.page_books id Samples.join_url Catalogue.two_pages)
                 [Samples.SC.home; Samples.SC.home +:+ "page-2.html"]).
Proof.
  apply (scraper_walk_over_linked_pages id Samples.join_url Catalogue.two_pages
           Samples.SC.home [Samples.SC.home +:+ "page-2.html"] 3).
  - reflexivity.
  - simpl. repeat split; eauto.
  - simpl. lia.
Defined.
